(** * SMB banking onboarding: checking and lending decision pipelines

    A shallow embedding of [checking_api.py] and [lending_api.py].

    - ORM rows are records, one module per model class so that the column
      names of the source are kept ([CheckingDocument.status], ...).
    - The SQLAlchemy session is a record of tables (lists of rows in
      insertion order); a relationship such as [app_obj.documents] is the
      filter of the child table on the foreign key.
    - An endpoint is a function of the request payload running in a small
      state-and-exception monad over the session; [HTTPException] is the
      only exception the source raises itself.
    - [uuid4()] and [datetime.utcnow()] column defaults are inputs of the
      endpoints that insert a row.
    - Python [float] values (and the [Numeric] columns they are stored in)
      are binary64 floats; [Integer] columns are [Z]; [Text] is [string],
      the bytes of the UTF-8 encoding, whose order is the code-point
      order.
    - A response model is built by its constructor: a required field
      given [None] raises [ValidationError], and a commit that breaks a
      unique constraint raises [IntegrityError]; the server answers both
      with status 500. *)

From Stdlib Require Import ZArith NArith List String Ascii Bool Lia.
From Stdlib Require Import Sorted Permutation OrdersEx RelationClasses.
From Stdlib Require Import Floats.PrimFloat Floats.SpecFloat Floats.FloatAxioms.
From Stdlib Require Floats.FloatOps Numbers.DecimalString.
Import ListNotations.

Set Implicit Arguments.
#[local] Set Warnings "-inexact-float".
Local Open Scope string_scope.
Local Open Scope list_scope.

(* ------------------------------------------------------------------ *)
(** ** Python built-ins used by the two modules *)
(* ------------------------------------------------------------------ *)

Module Py.

(** Truthiness of an [Optional[str]]: [None] and the empty string are
    falsy. *)
Definition truthy_str (s : option string) : bool :=
  match s with
  | Some s => negb (s =? "")
  | None => false
  end.

(** Truthiness of an optional list ([None] and [[]] are falsy). *)
Definition truthy_list {A} (l : option (list A)) : bool :=
  match l with
  | Some (_ :: _) => true
  | _ => false
  end.

(** Truthiness of an optional object whose instances are always truthy
    (a [date], an ORM row). *)
Definition truthy_obj {A} (o : option A) : bool :=
  match o with
  | Some _ => true
  | None => false
  end.

(** [x in l] for a list or a set literal of strings. *)
Definition str_in (x : string) (l : list string) : bool :=
  existsb (String.eqb x) l.

(** [x in s] where [x] may be [None] (an [Optional[str]] column). *)
Definition opt_str_in (x : option string) (l : list string) : bool :=
  match x with
  | Some x => str_in x l
  | None => false
  end.

(** *** [sorted(set(l))] on strings *)

Fixpoint insert_uniq (x : string) (l : list string) : list string :=
  match l with
  | [] => [x]
  | y :: l' =>
      match String_as_OT.compare x y with
      | Lt => x :: l
      | Eq => l
      | Gt => y :: insert_uniq x l'
      end
  end.

Definition sorted_set (l : list string) : list string :=
  fold_right insert_uniq [] l.

(** *** [str.upper] and [sub in s] *)

(** The text with the given bytes. *)
Definition utf8 (bytes : list nat) : string :=
  fold_right (fun b s => String (ascii_of_nat b) s) EmptyString bytes.

(** The upper case of an ASCII letter; other bytes are kept. *)
Definition upper_char (c : ascii) : ascii :=
  let n := N_of_ascii c in
  if ((97 <=? n) && (n <=? 122))%N then ascii_of_N (n - 32) else c.

(** The characters outside ASCII whose upper case has an ASCII character,
    each with its upper case under the full case mapping of [str.upper],
    which may be longer than one character: U+00DF, U+0131, U+0149,
    U+017F, U+01F0, U+1E96 to U+1E9A and U+FB00 to U+FB06. *)
Definition upper_special : list (string * string) :=
  [(utf8 [0xC3; 0x9F], "SS");
   (utf8 [0xC4; 0xB1], "I");
   (utf8 [0xC5; 0x89], utf8 [0xCA; 0xBC; 0x4E]);
   (utf8 [0xC5; 0xBF], "S");
   (utf8 [0xC7; 0xB0], utf8 [0x4A; 0xCC; 0x8C]);
   (utf8 [0xE1; 0xBA; 0x96], utf8 [0x48; 0xCC; 0xB1]);
   (utf8 [0xE1; 0xBA; 0x97], utf8 [0x54; 0xCC; 0x88]);
   (utf8 [0xE1; 0xBA; 0x98], utf8 [0x57; 0xCC; 0x8A]);
   (utf8 [0xE1; 0xBA; 0x99], utf8 [0x59; 0xCC; 0x8A]);
   (utf8 [0xE1; 0xBA; 0x9A], utf8 [0x41; 0xCA; 0xBE]);
   (utf8 [0xEF; 0xAC; 0x80], "FF");
   (utf8 [0xEF; 0xAC; 0x81], "FI");
   (utf8 [0xEF; 0xAC; 0x82], "FL");
   (utf8 [0xEF; 0xAC; 0x83], "FFI");
   (utf8 [0xEF; 0xAC; 0x84], "FFL");
   (utf8 [0xEF; 0xAC; 0x85], "ST");
   (utf8 [0xEF; 0xAC; 0x86], "ST")].

Definition upper_of (k : string) : option string :=
  option_map snd (find (fun e => fst e =? k) upper_special).

(** [s.upper()] on the UTF-8 text, exact in the ASCII characters of the
    result: an ASCII letter is upper-cased, a character of
    [upper_special] is replaced by its upper case, and the bytes of any
    other character are kept. Such a character has no ASCII character
    in its upper case, so the ASCII text found in the result, the only
    use made of it, is that of Python. *)
Fixpoint upper (s : string) : string :=
  match s with
  | EmptyString => EmptyString
  | String c s1 =>
      let plain := String (upper_char c) (upper s1) in
      match s1 with
      | EmptyString => plain
      | String d s2 =>
          match upper_of (String c (String d EmptyString)) with
          | Some u => u ++ upper s2
          | None =>
              match s2 with
              | EmptyString => plain
              | String e s3 =>
                  match upper_of (String c (String d (String e EmptyString))) with
                  | Some u => u ++ upper s3
                  | None => plain
                  end
              end
          end
      end
  end.

(** [sub in s]: [sub] occurs as a contiguous substring of [s]. *)
Fixpoint contains (sub s : string) : bool :=
  String.prefix sub s
  || match s with
     | EmptyString => false
     | String _ s' => contains sub s'
     end.

(** [s.replace(c, "")] for a one-character [c]. *)
Fixpoint remove_char (c : ascii) (s : string) : string :=
  match s with
  | EmptyString => EmptyString
  | String d s' =>
      if Ascii.eqb d c then remove_char c s' else String d (remove_char c s')
  end.

(** [s[:n]]. *)
Definition take (n : nat) (s : string) : string := String.substring 0 n s.

(** *** [dict] with string keys: insertion-ordered, one entry per key *)

Definition dict (V : Type) := list (string * V).

(** [d[k] = v]: an existing key keeps its position and gets the new
    value; a new key goes last. *)
Fixpoint dict_set {V} (k : string) (v : V) (d : dict V) : dict V :=
  match d with
  | [] => [(k, v)]
  | (k', v') :: d' =>
      if k' =? k then (k', v) :: d' else (k', v') :: dict_set k v d'
  end.

Fixpoint dict_get {V} (k : string) (d : dict V) : option V :=
  match d with
  | [] => None
  | (k', v) :: d' => if k' =? k then Some v else dict_get k d'
  end.

(** [k in d]. *)
Definition dict_mem {V} (k : string) (d : dict V) : bool :=
  match dict_get k d with Some _ => true | None => false end.

(** [{key(x): x for x in l}]. *)
Definition dict_by {V} (key : V -> string) (l : list V) : dict V :=
  fold_left (fun d x => dict_set (key x) x d) l [].

(** *** [uuid.UUID]: a 128-bit integer printed as 8-4-4-4-12 hex digits *)

Definition UUID := N.

Definition hex_digit (n : N) : ascii :=
  if (n <? 10)%N then ascii_of_N (48 + n) else ascii_of_N (87 + n).

(** The [w] low hexadecimal digits of [n], most significant first. *)
Fixpoint hex_fixed (w : nat) (n : N) : string :=
  match w with
  | O => EmptyString
  | S w' =>
      hex_fixed w' (N.shiftr n 4) ++ String (hex_digit (N.land n 15)) EmptyString
  end.

Definition uuid_str (u : UUID) : string :=
  let h := hex_fixed 32 u in
  String.substring 0 8 h ++ "-" ++ String.substring 8 4 h ++ "-"
  ++ String.substring 12 4 h ++ "-" ++ String.substring 16 4 h ++ "-"
  ++ String.substring 20 12 h.

(** *** [float(x or 0)] for an optional JSON number *)

Definition float_or_zero (x : option float) : float :=
  match x with
  | Some f => if PrimFloat.eqb f 0%float then 0%float else f
  | None => 0%float
  end.

(** [a > b] on floats. *)
Definition float_gt (a b : float) : bool := PrimFloat.ltb b a.

(** [x or d] for an optional number: [None] and zero are falsy. *)
Definition float_or (x : option float) (d : float) : float :=
  match x with
  | Some f => if PrimFloat.eqb f 0%float then d else f
  | None => d
  end.

(** [int(f)]: truncation toward zero; [None] where Python raises
    ([ValueError] on NaN, [OverflowError] on an infinity). *)
Definition int_of_float (f : float) : option Z :=
  match FloatOps.Prim2SF f with
  | S754_zero _ => Some 0%Z
  | S754_finite s m e =>
      let v := if (0 <=? e)%Z then (Z.pos m * 2 ^ e)%Z
               else (Z.pos m / 2 ^ (- e))%Z in
      Some (if s then (- v)%Z else v)
  | S754_infinity _ | S754_nan => None
  end.

(** [str(n)] for an [int]. *)
Definition str_of_int (n : Z) : string :=
  DecimalString.NilZero.string_of_int (Z.to_int n).

(** [order_by(key.desc()).first()]: the first row with the greatest key.
    SQL leaves the choice among rows with equal keys open; the earliest
    inserted one is taken here. *)
Definition latest_step {A} (key : A -> Z) (best : option A) (r : A)
  : option A :=
  match best with
  | None => Some r
  | Some b => if (key b <? key r)%Z then Some r else Some b
  end.

Definition latest {A} (key : A -> Z) (rows : list A) : option A :=
  fold_left (latest_step key) rows None.

End Py.

(* ------------------------------------------------------------------ *)
(** ** Requests against a session: state and [HTTPException] *)
(* ------------------------------------------------------------------ *)

Module Http.

Record HTTPException := { status_code : Z; detail : string }.

Inductive result (A : Type) : Type :=
| Ok (a : A)
| Raise (e : HTTPException).
Arguments Ok {A} a.
Arguments Raise {A} e.

(** A request handler over a session of type [S]: it returns or raises,
    and leaves a session behind in both cases. *)
Definition M (S A : Type) : Type := S -> result A * S.

Definition ret {S A} (a : A) : M S A := fun s => (Ok a, s).

Definition raise {S A} (e : HTTPException) : M S A := fun s => (Raise e, s).

Definition bind {S A B} (m : M S A) (k : A -> M S B) : M S B :=
  fun s =>
    match m s with
    | (Ok a, s') => k a s'
    | (Raise e, s') => (Raise e, s')
    end.

(** Read the session. *)
Definition get {S} : M S S := fun s => (Ok s, s).

(** [db.add(row); db.commit()] and attribute writes followed by a commit:
    replace the session by its updated value. *)
Definition put {S} (s' : S) : M S unit := fun _ => (Ok tt, s').

(** What the server answers when a handler lets another Python exception
    escape. *)
Definition internal_server_error : HTTPException :=
  {| status_code := 500; detail := "Internal Server Error" |}.

(** Return a response model that its constructor accepted: [None] stands
    for the [ValidationError] a required field given [None] raises. *)
Definition validated {S A} (o : option A) : M S A :=
  match o with
  | Some a => ret a
  | None => raise internal_server_error
  end.

(** Client and not-found error classes. *)
Definition is_client_error (e : HTTPException) : bool :=
  (status_code e =? 400)%Z.
Definition is_not_found (e : HTTPException) : bool :=
  (status_code e =? 404)%Z.

End Http.

Declare Scope http_scope.
Delimit Scope http_scope with http.
Notation "x <- m ;; k" := (Http.bind m (fun x => k))
  (at level 100, m at next level, right associativity) : http_scope.
Notation "m ;;; k" := (Http.bind m (fun _ => k))
  (at level 100, right associativity) : http_scope.

(** Timestamps ([DateTime] columns): microseconds since the epoch. *)
Definition datetime := Z.

Record date := { year : Z; month : Z; day : Z }.

(* ------------------------------------------------------------------ *)
(** ** checking_api.py *)
(* ------------------------------------------------------------------ *)

Module Checking.

Import Py Http.

(** *** ORM models *)

Module Business.
Record t := {
  id : UUID;
  customer_id : option string;
  legal_name : string;
  trade_name : option string;
  entity_type : string;
  tax_id : option string;
  registration_number : option string;
  industry_code : option string;
  country : string;
  state : option string;
  city : option string;
  address : option string;
  years_in_business : option Z
}.
End Business.

(** [usage_profile] is a JSONB object; the request schema [UsageProfile]
    types every field [Optional[float]], so a value is a number or null.
    [business] is the row the NOT NULL foreign key [business_id] points
    to. The JSONB column [funding_preferences] is read by no endpoint
    below and is left out. *)
Module CheckingApplication.
Record t := {
  id : UUID;
  reference : string;
  business_id : UUID;
  customer_id : option string;
  product_id : string;
  submitted_at : datetime;
  status : string;
  usage_profile : option (dict (option float));
  business : Business.t
}.

Definition set_status (a : t) (s : string) : t :=
  {| id := id a; reference := reference a; business_id := business_id a;
     customer_id := customer_id a; product_id := product_id a;
     submitted_at := submitted_at a; status := s;
     usage_profile := usage_profile a; business := business a |}.
End CheckingApplication.

Module CheckingOwner.
Record t := {
  id : UUID;
  checking_application_id : UUID;
  full_name : string;
  dob : option date;
  national_id : option string;
  ownership_percentage : option float;
  address : option string
}.
End CheckingOwner.

Module CheckingDocument.
Record t := {
  id : UUID;
  checking_application_id : UUID;
  doc_type : string;
  status : string;
  reason_codes : option (list string);
  uploaded_at : datetime
}.
End CheckingDocument.

Module CheckingRiskScore.
Record t := {
  id : UUID;
  checking_application_id : UUID;
  risk_score : Z;
  risk_band : string;
  driver_codes : list string;
  created_at : datetime
}.
End CheckingRiskScore.

Module CheckingAccount.
Record t := {
  id : UUID;
  checking_application_id : UUID;
  account_number : string;
  routing_number : option string;
  status : string;
  created_at : datetime
}.
End CheckingAccount.

(** The tables the endpoints read and write. *)
Record Session := {
  checking_applications : list CheckingApplication.t;
  checking_owners : list CheckingOwner.t;
  checking_documents : list CheckingDocument.t;
  checking_risk_scores : list CheckingRiskScore.t;
  checking_accounts : list CheckingAccount.t
}.

(** Relationships of [CheckingApplication]. *)
Definition owners (db : Session) (app_obj : CheckingApplication.t) :=
  filter (fun o => N.eqb (CheckingOwner.checking_application_id o)
                         (CheckingApplication.id app_obj))
         (checking_owners db).

Definition documents (db : Session) (app_obj : CheckingApplication.t) :=
  filter (fun d => N.eqb (CheckingDocument.checking_application_id d)
                         (CheckingApplication.id app_obj))
         (checking_documents db).

Definition risk_scores (db : Session) (app_obj : CheckingApplication.t) :=
  filter (fun r => N.eqb (CheckingRiskScore.checking_application_id r)
                         (CheckingApplication.id app_obj))
         (checking_risk_scores db).

Definition accounts (db : Session) (app_obj : CheckingApplication.t) :=
  filter (fun a => N.eqb (CheckingAccount.checking_application_id a)
                         (CheckingApplication.id app_obj))
         (checking_accounts db).

(** [db.add(entry); db.commit()]. *)
Definition add_risk_score (r : CheckingRiskScore.t) (db : Session) : Session :=
  {| checking_applications := checking_applications db;
     checking_owners := checking_owners db;
     checking_documents := checking_documents db;
     checking_risk_scores := checking_risk_scores db ++ [r];
     checking_accounts := checking_accounts db |}.

(** [app_obj.status = s; db.add(acc); db.commit()]. *)
Definition add_account_and_set_status
    (app_obj : CheckingApplication.t) (s : string)
    (acc : CheckingAccount.t) (db : Session) : Session :=
  {| checking_applications :=
       map (fun a => if N.eqb (CheckingApplication.id a)
                              (CheckingApplication.id app_obj)
                     then CheckingApplication.set_status a s else a)
           (checking_applications db);
     checking_owners := checking_owners db;
     checking_documents := checking_documents db;
     checking_risk_scores := checking_risk_scores db;
     checking_accounts := checking_accounts db ++ [acc] |}.

(** *** Pydantic schemas *)

Inductive RiskBandLiteral := LOW | MEDIUM | HIGH.

Definition band_text (b : RiskBandLiteral) : string :=
  match b with LOW => "LOW" | MEDIUM => "MEDIUM" | HIGH => "HIGH" end.

Record EvaluateCompletenessResponse := {
  can_proceed : bool;
  missing_field_codes : list string;
  comments : option string
}.

Record EvaluateProductEligibilityRequest := {
  epe_application_id : UUID;
  epe_product_id : string
}.

Record EvaluateProductEligibilityResponse := {
  eligible : bool;
  reason_codes : list string
}.

Record EvaluateDocumentsResponse := {
  docs_ok : bool;
  missing_doc_types : list string;
  invalid_doc_types : list string;
  doc_reason_codes : list string
}.

Record ScoreRiskResponse := {
  risk_score : Z;
  risk_band : RiskBandLiteral;
  driver_codes : list string
}.

Record OpenAccountResponse := {
  account_id : UUID;
  account_number : string;
  routing_number : option string;
  status : string
}.

(** *** Helpers *)

(** [db.query(CheckingApplication).filter(id == application_id).first()]. *)
Definition query_application (db : Session) (application_id : UUID)
  : option CheckingApplication.t :=
  find (fun a => N.eqb (CheckingApplication.id a) application_id)
       (checking_applications db).

Definition require_checking_application (application_id : UUID)
  : M Session CheckingApplication.t :=
  (db <- get ;;
   match query_application db application_id with
   | Some app_obj => ret app_obj
   | None => raise {| status_code := 404;
                      detail := "Checking application not found" |}
   end)%http.

(** The restricted industry codes, [{"7995", "9999"}]. *)
Definition restricted_industries : list string := ["7995"; "9999"].

(** *** Endpoints *)

Local Open Scope http_scope.

(** One iteration of [for o in app_obj.owners] in the completeness
    check. *)
Definition owner_missing (missing : list string) (o : CheckingOwner.t)
  : list string :=
  let missing :=
    if negb (truthy_obj (CheckingOwner.dob o))
    then missing ++ ["OWNER_DOB"] else missing in
  let missing :=
    if negb (truthy_str (CheckingOwner.national_id o))
    then missing ++ ["OWNER_ID_NUMBER"] else missing in
  let missing :=
    match CheckingOwner.ownership_percentage o with
    | None => missing ++ ["OWNERSHIP_PERCENTAGE"]
    | Some _ => missing
    end in
  missing.

Definition evaluate_application_completeness (application_id : UUID)
  : M Session EvaluateCompletenessResponse :=
  app_obj <- require_checking_application application_id ;;
  db <- get ;;
  let b := CheckingApplication.business app_obj in
  let missing : list string := [] in
  let missing :=
    if negb (truthy_str (Business.tax_id b))
    then missing ++ ["BUSINESS_TAX_ID"] else missing in
  let missing :=
    if negb (truthy_str (Business.address b))
    then missing ++ ["BUSINESS_ADDRESS"] else missing in
  let missing :=
    match owners db app_obj with
    | [] => missing ++ ["OWNERS_MISSING"]
    | os => fold_left owner_missing os missing
    end in
  let missing :=
    if negb (truthy_list (CheckingApplication.usage_profile app_obj))
    then missing ++ ["USAGE_PROFILE_MISSING"] else missing in
  let missing := sorted_set missing in
  let can_proceed := Nat.eqb (List.length missing) 0 in
  let comments :=
    if can_proceed then None
    else Some "Mandatory fields missing; cannot proceed without user interaction." in
  ret {| can_proceed := can_proceed;
         missing_field_codes := missing;
         comments := comments |}.

Definition evaluate_product_eligibility
    (payload : EvaluateProductEligibilityRequest)
  : M Session EvaluateProductEligibilityResponse :=
  app_obj <- require_checking_application (epe_application_id payload) ;;
  let b := CheckingApplication.business app_obj in
  let eligible := true in
  let reason_codes : list string := [] in
  let '(eligible, reason_codes) :=
    if opt_str_in (Business.industry_code b) restricted_industries
    then (false, reason_codes ++ ["INDUSTRY_NOT_ALLOWED"])
    else (eligible, reason_codes) in
  let '(eligible, reason_codes) :=
    if match Business.years_in_business b with
       | Some y => (y <? 1)%Z
       | None => false
       end
       && contains "PREMIUM" (upper (epe_product_id payload))
    then (false, reason_codes ++ ["MIN_AGE_OF_BUSINESS_NOT_MET"])
    else (eligible, reason_codes) in
  ret {| eligible := eligible; reason_codes := reason_codes |}.

(** The required document types, [{"BUSINESS_REG_CERT", "TAX_ID_PROOF",
    "OWNER_ID_PROOF"}]. Python iterates a set in an unspecified order;
    the order written here only fixes the order of [missing_doc_types]. *)
Definition required : list string :=
  ["BUSINESS_REG_CERT"; "TAX_ID_PROOF"; "OWNER_ID_PROOF"].

(** One iteration of [for dt, doc in docs_by_type.items()]; the state is
    [(invalid_doc_types, reason_codes)]. *)
Definition document_step (acc : list string * list string)
    (item : string * CheckingDocument.t) : list string * list string :=
  let '(invalid_doc_types, reason_codes) := acc in
  let '(dt, doc) := item in
  if CheckingDocument.status doc =? "REJECTED" then
    let invalid_doc_types := invalid_doc_types ++ [dt] in
    match CheckingDocument.reason_codes doc with
    | Some (c :: cs) => (invalid_doc_types, reason_codes ++ c :: cs)
    | _ => (invalid_doc_types, reason_codes)
    end
  else (invalid_doc_types, reason_codes).

Definition evaluate_document_set_for_application (application_id : UUID)
  : M Session EvaluateDocumentsResponse :=
  app_obj <- require_checking_application application_id ;;
  db <- get ;;
  let docs_by_type := dict_by CheckingDocument.doc_type (documents db app_obj) in
  let missing := filter (fun d => negb (dict_mem d docs_by_type)) required in
  let '(invalid_doc_types, reason_codes) :=
    fold_left document_step docs_by_type ([], []) in
  let docs_ok :=
    Nat.eqb (List.length missing) 0
    && Nat.eqb (List.length invalid_doc_types) 0 in
  ret {| docs_ok := docs_ok;
         missing_doc_types := missing;
         invalid_doc_types := invalid_doc_types;
         doc_reason_codes := sorted_set reason_codes |}.

(** The band of a score: [if risk_score < 30 ... elif risk_score < 70 ...
    else ...]. *)
Definition band_of (risk_score : Z) : RiskBandLiteral :=
  if (risk_score <? 30)%Z then LOW
  else if (risk_score <? 70)%Z then MEDIUM
  else HIGH.

(** [new_id] and [now] are the values [uuid4()] and [datetime.utcnow()]
    give the inserted row. *)
Definition score_application_risk (new_id : UUID) (now : datetime)
    (application_id : UUID) : M Session ScoreRiskResponse :=
  app_obj <- require_checking_application application_id ;;
  let b := CheckingApplication.business app_obj in
  let up : dict (option float) :=
    match CheckingApplication.usage_profile app_obj with
    | Some (kv :: d) => kv :: d
    | _ => []
    end in
  let risk_score := 20%Z in
  let drivers : list string := [] in
  let '(risk_score, drivers) :=
    if match Business.years_in_business b with
       | Some y => (y <? 1)%Z
       | None => false
       end
    then ((risk_score + 30)%Z, drivers ++ ["NEW_BUSINESS"])
    else (risk_score, drivers) in
  let cash_vol :=
    float_or_zero
      (match dict_get "cash_deposit_volume_per_month" up with
       | Some v => v
       | None => None
       end) in
  let '(risk_score, drivers) :=
    if float_gt cash_vol 100000%float
    then ((risk_score + 30)%Z, drivers ++ ["HIGH_CASH_VOLUME"])
    else (risk_score, drivers) in
  let '(risk_score, drivers) :=
    if opt_str_in (Business.industry_code b) restricted_industries
    then ((risk_score + 20)%Z, drivers ++ ["HIGH_RISK_INDUSTRY"])
    else (risk_score, drivers) in
  let band := band_of risk_score in
  let drivers := match drivers with [] => ["BASELINE"] | _ => drivers end in
  let entry :=
    {| CheckingRiskScore.id := new_id;
       CheckingRiskScore.checking_application_id := CheckingApplication.id app_obj;
       CheckingRiskScore.risk_score := risk_score;
       CheckingRiskScore.risk_band := band_text band;
       CheckingRiskScore.driver_codes := drivers;
       CheckingRiskScore.created_at := now |} in
  db <- get ;;
  put (add_risk_score entry db) ;;;
  ret {| risk_score := risk_score;
         risk_band := band;
         driver_codes := drivers |}.

Definition open_account_from_application (new_id : UUID) (now : datetime)
    (application_id : UUID) : M Session OpenAccountResponse :=
  app_obj <- require_checking_application application_id ;;
  db <- get ;;
  match hd_error (accounts db app_obj) with
  | Some existing =>
      ret {| account_id := CheckingAccount.id existing;
             account_number := CheckingAccount.account_number existing;
             routing_number := CheckingAccount.routing_number existing;
             status := CheckingAccount.status existing |}
  | None =>
      let account_number :=
        ("10" ++ take 10 (remove_char "-" (uuid_str (CheckingApplication.id app_obj))))%string in
      let routing_number := "011000015" in
      let acc :=
        {| CheckingAccount.id := new_id;
           CheckingAccount.checking_application_id := CheckingApplication.id app_obj;
           CheckingAccount.account_number := account_number;
           CheckingAccount.routing_number := Some routing_number;
           CheckingAccount.status := "ACTIVE";
           CheckingAccount.created_at := now |} in
      put (add_account_and_set_status app_obj "DECIDED" acc db) ;;;
      ret {| account_id := CheckingAccount.id acc;
             account_number := CheckingAccount.account_number acc;
             routing_number := CheckingAccount.routing_number acc;
             status := CheckingAccount.status acc |}
  end.

Local Close Scope http_scope.

End Checking.

(* ------------------------------------------------------------------ *)
(** ** lending_api.py *)
(* ------------------------------------------------------------------ *)

Module Lending.

Import Py Http.

(** *** ORM models *)

Module LendingApplication.
Record t := {
  id : UUID;
  reference : string;
  customer_id : option string;
  business_id : option UUID;
  checking_account_id : option UUID;
  product_type : string;
  requested_amount : option float;
  status : string;
  submitted_at : datetime
}.
End LendingApplication.

Module LendingUnderwriting.
Record t := {
  id : UUID;
  lending_application_id : UUID;
  risk_grade : option string;
  pd_estimate : option float;
  lgd_estimate : option float;
  recommended_max_exposure : option float;
  affordability_band : option string;
  key_risk_drivers : option (list string);
  dscr : option float;
  debt_to_revenue_ratio : option float;
  created_at : datetime
}.
End LendingUnderwriting.

Module LendingOffer.
Record t := {
  id : UUID;
  lending_application_id : UUID;
  offer_code : string;
  product_type : string;
  credit_limit : float;
  min_credit_limit : option float;
  max_credit_limit : option float;
  apr : option float;
  annual_fee : option float;
  origination_fee : option float;
  tenor_months : option Z;
  repayment_terms : option string;
  collateral_required : bool;
  notes : option string;
  created_at : datetime
}.
End LendingOffer.

Module CreditFacility.
Record t := {
  id : UUID;
  lending_application_id : UUID;
  customer_id : option string;
  business_id : option UUID;
  facility_type : string;
  account_number : string;
  credit_limit : float;
  apr : option float;
  status : string;
  billing_cycle_day : option Z;
  drawdown_terms : option string;
  created_at : datetime
}.
End CreditFacility.

(** The tables the endpoints read and write. Of the column constraints
    the handlers can break one: [offer_code] is unique, see
    [insert_offer]. Primary keys are fresh [uuid4] values and the NOT
    NULL columns are always given a value. *)
Record Session := {
  lending_applications : list LendingApplication.t;
  lending_underwriting : list LendingUnderwriting.t;
  lending_offers : list LendingOffer.t;
  credit_facilities : list CreditFacility.t
}.

(** [db.query(LendingUnderwriting).filter(lending_application_id == id)]. *)
Definition underwriting_results (db : Session) (app_id : UUID) :=
  filter (fun u => N.eqb (LendingUnderwriting.lending_application_id u) app_id)
         (lending_underwriting db).

(** [db.query(LendingOffer).filter(lending_application_id == id)]. *)
Definition offers (db : Session) (app_id : UUID) :=
  filter (fun o => N.eqb (LendingOffer.lending_application_id o) app_id)
         (lending_offers db).

(** The relationship [app_obj.facilities]. *)
Definition facilities (db : Session) (app_obj : LendingApplication.t) :=
  filter (fun f => N.eqb (CreditFacility.lending_application_id f)
                         (LendingApplication.id app_obj))
         (credit_facilities db).

(** The offer table after [db.add(offer); db.commit()]. *)
Definition add_offer (o : LendingOffer.t) (db : Session) : Session :=
  {| lending_applications := lending_applications db;
     lending_underwriting := lending_underwriting db;
     lending_offers := lending_offers db ++ [o];
     credit_facilities := credit_facilities db |}.

(** [db.add(facility); db.commit()]. *)
Definition add_facility (f : CreditFacility.t) (db : Session) : Session :=
  {| lending_applications := lending_applications db;
     lending_underwriting := lending_underwriting db;
     lending_offers := lending_offers db;
     credit_facilities := credit_facilities db ++ [f] |}.

(** *** Pydantic schemas *)

Record Offer := {
  offer_id : UUID;
  product_type : string;
  credit_limit : float;
  min_credit_limit : option float;
  max_credit_limit : option float;
  apr : option float;
  annual_fee : option float;
  origination_fee : option float;
  tenor_months : option Z;
  repayment_terms : option string;
  collateral_required : bool;
  notes : option string
}.

Record GenerateCreditLineOffersRequest := {
  lending_application_id : UUID;
  underwriting_id : option UUID
}.

Record GenerateCreditLineOffersResponse := { offers_out : list Offer }.

(** [customer_id] and [business_id] are required fields. *)
Record OpenCreditFacilityResponse := {
  facility_id : UUID;
  facility_type : string;
  customer_id : string;
  business_id : UUID;
  account_number : string;
  facility_credit_limit : float;
  facility_apr : option float;
  status : string;
  billing_cycle_day : option Z;
  drawdown_terms : option string
}.

(** *** Helpers *)

Local Open Scope http_scope.

(** [db.query(LendingApplication).filter(id == app_id).first()]. *)
Definition query_application (db : Session) (app_id : UUID)
  : option LendingApplication.t :=
  find (fun a => N.eqb (LendingApplication.id a) app_id)
       (lending_applications db).

Definition require_lending_application (app_id : UUID)
  : M Session LendingApplication.t :=
  db <- get ;;
  match query_application db app_id with
  | Some app_obj => ret app_obj
  | None => raise {| status_code := 404;
                     detail := "Lending application not found" |}
  end.

(** The response model of an offer row. *)
Definition offer_model (offer : LendingOffer.t) : Offer :=
  {| offer_id := LendingOffer.id offer;
     product_type := LendingOffer.product_type offer;
     credit_limit := LendingOffer.credit_limit offer;
     min_credit_limit := LendingOffer.min_credit_limit offer;
     max_credit_limit := LendingOffer.max_credit_limit offer;
     apr := LendingOffer.apr offer;
     annual_fee := LendingOffer.annual_fee offer;
     origination_fee := LendingOffer.origination_fee offer;
     tenor_months := LendingOffer.tenor_months offer;
     repayment_terms := LendingOffer.repayment_terms offer;
     collateral_required := LendingOffer.collateral_required offer;
     notes := LendingOffer.notes offer |}.

(** The response model of a facility row; there is none for a row
    whose [customer_id] or [business_id] column is NULL. *)
Definition facility_model (f : CreditFacility.t)
  : option OpenCreditFacilityResponse :=
  match CreditFacility.customer_id f, CreditFacility.business_id f with
  | Some c, Some b =>
      Some {| facility_id := CreditFacility.id f;
              facility_type := CreditFacility.facility_type f;
              customer_id := c;
              business_id := b;
              account_number := CreditFacility.account_number f;
              facility_credit_limit := CreditFacility.credit_limit f;
              facility_apr := CreditFacility.apr f;
              status := CreditFacility.status f;
              billing_cycle_day := CreditFacility.billing_cycle_day f;
              drawdown_terms := CreditFacility.drawdown_terms f |}
  | _, _ => None
  end.

(** [db.add(offer); db.commit()]: the commit of an offer whose code is
    already stored breaks the unique constraint of [offer_code], raises
    [IntegrityError] and stores nothing. *)
Definition insert_offer (o : LendingOffer.t) : M Session unit :=
  db <- get ;;
  if existsb (fun o' => LendingOffer.offer_code o' =? LendingOffer.offer_code o)
             (lending_offers db)
  then raise internal_server_error
  else put (add_offer o db).

(** *** Endpoints *)

(** [new_id] and [now] are the values [uuid4()] and [datetime.utcnow()]
    give the inserted row. *)
Definition generate_credit_line_offers (new_id : UUID) (now : datetime)
    (payload : GenerateCreditLineOffersRequest)
  : M Session GenerateCreditLineOffersResponse :=
  app_obj <- require_lending_application (lending_application_id payload) ;;
  db <- get ;;
  match latest LendingUnderwriting.created_at
               (underwriting_results db (LendingApplication.id app_obj)) with
  | None =>
      raise {| status_code := 400; detail := "No underwriting result found" |}
  | Some uw =>
      let rec := float_or (LendingUnderwriting.recommended_max_exposure uw)
                          50000%float in
      let limit := (rec * 0.8)%float in
      match int_of_float limit with
      | None => raise internal_server_error
      | Some n =>
          let offer :=
            {| LendingOffer.id := new_id;
               LendingOffer.lending_application_id := LendingApplication.id app_obj;
               LendingOffer.offer_code := ("OFFER-LOC-" ++ str_of_int n)%string;
               LendingOffer.product_type := "REVOLVING_LOC";
               LendingOffer.credit_limit := limit;
               LendingOffer.min_credit_limit := Some (limit * 0.5)%float;
               LendingOffer.max_credit_limit := Some rec;
               LendingOffer.apr := Some 0.14%float;
               LendingOffer.annual_fee := Some 0%float;
               LendingOffer.origination_fee := Some 0.01%float;
               LendingOffer.tenor_months := None;
               LendingOffer.repayment_terms := Some "REVOLVING";
               LendingOffer.collateral_required := false;
               LendingOffer.notes := Some "Based on your revenue and bureau data.";
               LendingOffer.created_at := now |} in
          insert_offer offer ;;;
          ret {| offers_out := [offer_model offer] |}
      end
  end.

Definition open_credit_facility_from_lending_application
    (new_id : UUID) (now : datetime) (app_id : UUID)
  : M Session OpenCreditFacilityResponse :=
  app_obj <- require_lending_application app_id ;;
  db <- get ;;
  match hd_error (facilities db app_obj) with
  | Some existing => validated (facility_model existing)
  | None =>
      match latest LendingOffer.created_at
                   (offers db (LendingApplication.id app_obj)) with
      | None =>
          raise {| status_code := 400;
                   detail := "No offer available to open facility" |}
      | Some offer =>
          let acc_num :=
            ("20" ++ take 10 (remove_char "-"
                       (uuid_str (LendingApplication.id app_obj))))%string in
          let facility :=
            {| CreditFacility.id := new_id;
               CreditFacility.lending_application_id := LendingApplication.id app_obj;
               CreditFacility.customer_id := LendingApplication.customer_id app_obj;
               CreditFacility.business_id := LendingApplication.business_id app_obj;
               CreditFacility.facility_type := LendingOffer.product_type offer;
               CreditFacility.account_number := acc_num;
               CreditFacility.credit_limit := LendingOffer.credit_limit offer;
               CreditFacility.apr := LendingOffer.apr offer;
               CreditFacility.status := "ACTIVE";
               CreditFacility.billing_cycle_day := Some 15%Z;
               CreditFacility.drawdown_terms := Some "REVOLVING_NET_30";
               CreditFacility.created_at := now |} in
          put (add_facility facility db) ;;;
          validated (facility_model facility)
      end
  end.

Local Close Scope http_scope.

End Lending.

(* ------------------------------------------------------------------ *)
(** ** Vocabulary of the statements *)
(* ------------------------------------------------------------------ *)

(** The rules as the specification words them, and the values the
    statements below name. *)

Module CheckingSpec.

Import Py Http Checking.

(** "years_in_business < 1": the business has an age and it is below one
    year. *)
Definition new_business (b : Business.t) : bool :=
  match Business.years_in_business b with
  | Some y => (y <? 1)%Z
  | None => false
  end.

(** "usage_profile.cash_deposit_volume_per_month", when the profile and
    the field are there. *)
Definition cash_deposit_volume_per_month (app_obj : CheckingApplication.t)
  : option float :=
  match CheckingApplication.usage_profile app_obj with
  | Some up =>
      match dict_get "cash_deposit_volume_per_month" up with
      | Some v => v
      | None => None
      end
  | None => None
  end.

(** "cash_deposit_volume_per_month > 100 000". *)
Definition high_cash_volume (app_obj : CheckingApplication.t) : bool :=
  match cash_deposit_volume_per_month app_obj with
  | Some v => PrimFloat.ltb 100000%float v
  | None => false
  end.

(** "industry_code in the restricted set". *)
Definition high_risk_industry (b : Business.t) : bool :=
  match Business.industry_code b with
  | Some c => (c =? "7995") || (c =? "9999")
  | None => false
  end.

(** "Additive scoring starting at base 20". *)
Definition spec_risk_score (app_obj : CheckingApplication.t) : Z :=
  let b := CheckingApplication.business app_obj in
  (20 + (if new_business b then 30 else 0)
      + (if high_cash_volume app_obj then 30 else 0)
      + (if high_risk_industry b then 20 else 0))%Z.

(** The drivers of the rules that fired, ["BASELINE"] when none did. *)
Definition spec_driver_codes (app_obj : CheckingApplication.t) : list string :=
  let b := CheckingApplication.business app_obj in
  match (if new_business b then ["NEW_BUSINESS"] else [])
        ++ (if high_cash_volume app_obj then ["HIGH_CASH_VOLUME"] else [])
        ++ (if high_risk_industry b then ["HIGH_RISK_INDUSTRY"] else []) with
  | [] => ["BASELINE"]
  | ds => ds
  end.

(** The audit row of the specification's score for an application. *)
Definition risk_entry (new_id : UUID) (now : datetime)
    (app_obj : CheckingApplication.t) : CheckingRiskScore.t :=
  {| CheckingRiskScore.id := new_id;
     CheckingRiskScore.checking_application_id := CheckingApplication.id app_obj;
     CheckingRiskScore.risk_score := spec_risk_score app_obj;
     CheckingRiskScore.risk_band := band_text (band_of (spec_risk_score app_obj));
     CheckingRiskScore.driver_codes := spec_driver_codes app_obj;
     CheckingRiskScore.created_at := now |}.

(** The document of type [t] occurring last in a document collection. *)
Definition last_of_type (t : string) (docs : list CheckingDocument.t)
  : option CheckingDocument.t :=
  find (fun d => CheckingDocument.doc_type d =? t) (rev docs).

(** The reason codes a document carries. *)
Definition codes_of (d : CheckingDocument.t) : list string :=
  match CheckingDocument.reason_codes d with
  | Some cs => cs
  | None => []
  end.

(** An entry of [docs_by_type] whose document is rejected. *)
Definition rejected (item : string * CheckingDocument.t) : bool :=
  CheckingDocument.status (snd item) =? "REJECTED".

(** The response of open-account for an account row. *)
Definition account_response (a : CheckingAccount.t) : OpenAccountResponse :=
  {| account_id := CheckingAccount.id a;
     account_number := CheckingAccount.account_number a;
     routing_number := CheckingAccount.routing_number a;
     status := CheckingAccount.status a |}.

(** No application has two account rows. *)
Definition at_most_one_account (db : Session) : Prop :=
  forall a, List.length (accounts db a) <= 1.

(** U+0131, the dotless small i, whose upper case is I. *)
Definition dotless_i : string := utf8 [0xC4; 0xB1].

(** The ways of writing each letter of PREMIUM when case is ignored: the
    capital, the small letter and, for the I, the dotless small i. *)
Definition premium_spellings : list (list string) :=
  [["P"; "p"]; ["R"; "r"]; ["E"; "e"]; ["M"; "m"];
   ["I"; "i"; dotless_i]; ["U"; "u"]; ["M"; "m"]].

(** A case-insensitive substring match of "PREMIUM": a contiguous part of
    the identifier spells the seven letters, each in one of its ways. *)
Definition premium_requested (product_id : string) : Prop :=
  exists pre letters post,
    product_id = (pre ++ fold_right String.append "" letters ++ post)%string
    /\ Forall2 (fun spellings letter => In letter spellings)
               premium_spellings letters.

(** The same match as a test: [spelled_at] at the start of a text,
    [spelled_in] anywhere in it. *)
Fixpoint skip (n : nat) (s : string) : string :=
  match n, s with
  | S n', String _ s' => skip n' s'
  | _, _ => s
  end.

Fixpoint spelled_at (spellings : list (list string)) (s : string) : bool :=
  match spellings with
  | [] => true
  | ways :: rest =>
      existsb (fun w => String.prefix w s
                        && spelled_at rest (skip (String.length w) s)) ways
  end.

Fixpoint spelled_in (spellings : list (list string)) (s : string) : bool :=
  spelled_at spellings s
  || match s with
     | EmptyString => false
     | String _ s' => spelled_in spellings s'
     end.

End CheckingSpec.

Module LendingSpec.

Import Py Http Lending.

(** The exposure an offer is derived from: the recommended exposure of
    the underwriting, 50 000 when it is absent or zero. *)
Definition exposure_basis (uw : LendingUnderwriting.t) : float :=
  float_or (LendingUnderwriting.recommended_max_exposure uw) 50000%float.

(** No application has two facility rows. *)
Definition at_most_one_facility (db : Session) : Prop :=
  forall a, List.length (facilities db a) <= 1.

(** Both parties are named: neither column is NULL. *)
Definition both_named (customer : option string) (business : option UUID)
  : bool :=
  match customer, business with
  | Some _, Some _ => true
  | _, _ => false
  end.

(** The facility that opening answers with names a customer and a
    business, as the response requires: the first stored facility of the
    application when there is one, otherwise the application itself,
    from which a new facility takes both. *)
Definition parties_known (db : Session) (app_obj : LendingApplication.t)
  : bool :=
  match hd_error (facilities db app_obj) with
  | Some f =>
      both_named (CreditFacility.customer_id f) (CreditFacility.business_id f)
  | None =>
      both_named (LendingApplication.customer_id app_obj)
                 (LendingApplication.business_id app_obj)
  end.

End LendingSpec.

(* ------------------------------------------------------------------ *)
(** ** Sample data *)
(* ------------------------------------------------------------------ *)

Module Samples.

Import Py Http.

Definition business (years : option Z) (industry : option string)
  : Checking.Business.t :=
  {| Checking.Business.id := 1%N;
     Checking.Business.customer_id := Some "CUST-1";
     Checking.Business.legal_name := "Acme Tools LLC";
     Checking.Business.trade_name := None;
     Checking.Business.entity_type := "LLC";
     Checking.Business.tax_id := Some "12-3456789";
     Checking.Business.registration_number := Some "REG-77";
     Checking.Business.industry_code := industry;
     Checking.Business.country := "US";
     Checking.Business.state := None;
     Checking.Business.city := None;
     Checking.Business.address := Some "1 Main St";
     Checking.Business.years_in_business := years |}.

Definition application (years : option Z) (industry : option string)
    (cash : option float) : Checking.CheckingApplication.t :=
  {| Checking.CheckingApplication.id := 7%N;
     Checking.CheckingApplication.reference := "CHK-0007";
     Checking.CheckingApplication.business_id := 1%N;
     Checking.CheckingApplication.customer_id := Some "CUST-1";
     Checking.CheckingApplication.product_id := "BASIC_CHECKING";
     Checking.CheckingApplication.submitted_at := 0%Z;
     Checking.CheckingApplication.status := "RECEIVED";
     Checking.CheckingApplication.usage_profile :=
       Some [("cash_deposit_volume_per_month", cash)];
     Checking.CheckingApplication.business := business years industry |}.

Definition document (n : N) (t s : string) (rc : option (list string))
  : Checking.CheckingDocument.t :=
  {| Checking.CheckingDocument.id := n;
     Checking.CheckingDocument.checking_application_id := 7%N;
     Checking.CheckingDocument.doc_type := t;
     Checking.CheckingDocument.status := s;
     Checking.CheckingDocument.reason_codes := rc;
     Checking.CheckingDocument.uploaded_at := Z.of_N n |}.

Definition session (a : Checking.CheckingApplication.t)
    (docs : list Checking.CheckingDocument.t) : Checking.Session :=
  {| Checking.checking_applications := [a];
     Checking.checking_owners := [];
     Checking.checking_documents := docs;
     Checking.checking_risk_scores := [];
     Checking.checking_accounts := [] |}.

(** The scenario of the specification: five years in business, industry
    1234, 150 000 of monthly cash deposits. *)
Definition scenario_app := application (Some 5%Z) (Some "1234") (Some 150000%float).
Definition scenario_db := session scenario_app [].

(** A business in its first year, in a restricted industry, asking for a
    premium product. *)
Definition young_restricted_app := application (Some 0%Z) (Some "9999") None.
Definition young_restricted_db := session young_restricted_app [].
Definition premium_request : Checking.EvaluateProductEligibilityRequest :=
  {| Checking.epe_application_id := 7%N;
     Checking.epe_product_id := "PREMIUM_CHECKING" |}.

(** The premium product asked for in small letters, and with the dotless
    small i. *)
Definition small_letters_request : Checking.EvaluateProductEligibilityRequest :=
  {| Checking.epe_application_id := 7%N;
     Checking.epe_product_id := "smb-premium-plus" |}.
Definition dotless_request : Checking.EvaluateProductEligibilityRequest :=
  {| Checking.epe_application_id := 7%N;
     Checking.epe_product_id := ("Prem" ++ utf8 [0xC4; 0xB1] ++ "um")%string |}.

(** A business whose age is not recorded. *)
Definition ageless_app := application None (Some "9999") (Some 150000%float).
Definition ageless_db := session ageless_app [].


(** A rejected tax proof followed by a validated one. *)
Definition tax_proof_rejected :=
  document 2%N "TAX_ID_PROOF" "REJECTED" (Some ["EXPIRED"]).
Definition tax_proof_validated :=
  document 3%N "TAX_ID_PROOF" "VALIDATED" None.
Definition resubmitted_db :=
  session scenario_app [tax_proof_rejected; tax_proof_validated].

(** An application that already has two account rows. *)
Definition account (n : N) (number : string) : Checking.CheckingAccount.t :=
  {| Checking.CheckingAccount.id := n;
     Checking.CheckingAccount.checking_application_id := 7%N;
     Checking.CheckingAccount.account_number := number;
     Checking.CheckingAccount.routing_number := Some "011000015";
     Checking.CheckingAccount.status := "ACTIVE";
     Checking.CheckingAccount.created_at := Z.of_N n |}.

Definition two_accounts_db : Checking.Session :=
  {| Checking.checking_applications := [scenario_app];
     Checking.checking_owners := [];
     Checking.checking_documents := [];
     Checking.checking_risk_scores := [];
     Checking.checking_accounts :=
       [account 61%N "100000000001"; account 62%N "100000000002"] |}.

End Samples.

Module LendingSamples.

Import Py Http.

Definition lending_application : Lending.LendingApplication.t :=
  {| Lending.LendingApplication.id := 11%N;
     Lending.LendingApplication.reference := "LND-0011";
     Lending.LendingApplication.customer_id := Some "CUST-1";
     Lending.LendingApplication.business_id := Some 1%N;
     Lending.LendingApplication.checking_account_id := Some 5%N;
     Lending.LendingApplication.product_type := "REVOLVING_LOC";
     Lending.LendingApplication.requested_amount := Some 60000%float;
     Lending.LendingApplication.status := "RECEIVED";
     Lending.LendingApplication.submitted_at := 0%Z |}.

Definition underwriting (n : N) (exposure : option float) (at_ : datetime)
  : Lending.LendingUnderwriting.t :=
  {| Lending.LendingUnderwriting.id := n;
     Lending.LendingUnderwriting.lending_application_id := 11%N;
     Lending.LendingUnderwriting.risk_grade := Some "B";
     Lending.LendingUnderwriting.pd_estimate := Some 0.04%float;
     Lending.LendingUnderwriting.lgd_estimate := Some 0.45%float;
     Lending.LendingUnderwriting.recommended_max_exposure := exposure;
     Lending.LendingUnderwriting.affordability_band := Some "MEDIUM";
     Lending.LendingUnderwriting.key_risk_drivers := Some ["BASELINE"];
     Lending.LendingUnderwriting.dscr := Some 1.8%float;
     Lending.LendingUnderwriting.debt_to_revenue_ratio := Some 0.25%float;
     Lending.LendingUnderwriting.created_at := at_ |}.

Definition lending_session (uws : list Lending.LendingUnderwriting.t)
    (os : list Lending.LendingOffer.t) : Lending.Session :=
  {| Lending.lending_applications := [lending_application];
     Lending.lending_underwriting := uws;
     Lending.lending_offers := os;
     Lending.credit_facilities := [] |}.

Definition offers_request : Lending.GenerateCreditLineOffersRequest :=
  {| Lending.lending_application_id := 11%N;
     Lending.underwriting_id := None |}.

(** No underwriting has run. *)
Definition fresh_db := lending_session [] [].

(** Two underwriting runs; the later one recommends 100 000. *)
Definition underwritten_db :=
  lending_session [underwriting 21%N (Some 30000%float) 100%Z;
                   underwriting 22%N (Some 100000%float) 200%Z] [].

(** An underwriting row that recommends no exposure at all. *)
Definition zero_exposure_uw := underwriting 23%N (Some 0%float) 100%Z.
Definition zero_exposure_db := lending_session [zero_exposure_uw] [].

(** An underwriting row that recommends an unbounded exposure. *)
Definition infinite_exposure_uw := underwriting 24%N (Some infinity) 100%Z.
Definition infinite_exposure_db := lending_session [infinite_exposure_uw] [].

(** An offer generated from the later underwriting run. *)
Definition line_offer : Lending.LendingOffer.t :=
  {| Lending.LendingOffer.id := 31%N;
     Lending.LendingOffer.lending_application_id := 11%N;
     Lending.LendingOffer.offer_code := "OFFER-LOC-80000";
     Lending.LendingOffer.product_type := "REVOLVING_LOC";
     Lending.LendingOffer.credit_limit := 80000%float;
     Lending.LendingOffer.min_credit_limit := Some 40000%float;
     Lending.LendingOffer.max_credit_limit := Some 100000%float;
     Lending.LendingOffer.apr := Some 0.14%float;
     Lending.LendingOffer.annual_fee := Some 0%float;
     Lending.LendingOffer.origination_fee := Some 0.01%float;
     Lending.LendingOffer.tenor_months := None;
     Lending.LendingOffer.repayment_terms := Some "REVOLVING";
     Lending.LendingOffer.collateral_required := false;
     Lending.LendingOffer.notes := Some "Based on your revenue and bureau data.";
     Lending.LendingOffer.created_at := 300%Z |}.

Definition offered_db :=
  lending_session [underwriting 22%N (Some 100000%float) 200%Z] [line_offer].

(** An application that names no customer, with an offer. *)
Definition unnamed_application : Lending.LendingApplication.t :=
  {| Lending.LendingApplication.id := 12%N;
     Lending.LendingApplication.reference := "LND-0012";
     Lending.LendingApplication.customer_id := None;
     Lending.LendingApplication.business_id := Some 1%N;
     Lending.LendingApplication.checking_account_id := None;
     Lending.LendingApplication.product_type := "REVOLVING_LOC";
     Lending.LendingApplication.requested_amount := Some 20000%float;
     Lending.LendingApplication.status := "RECEIVED";
     Lending.LendingApplication.submitted_at := 0%Z |}.

Definition unnamed_offer : Lending.LendingOffer.t :=
  {| Lending.LendingOffer.id := 33%N;
     Lending.LendingOffer.lending_application_id := 12%N;
     Lending.LendingOffer.offer_code := "OFFER-LOC-40000";
     Lending.LendingOffer.product_type := "REVOLVING_LOC";
     Lending.LendingOffer.credit_limit := 40000%float;
     Lending.LendingOffer.min_credit_limit := Some 20000%float;
     Lending.LendingOffer.max_credit_limit := Some 50000%float;
     Lending.LendingOffer.apr := Some 0.14%float;
     Lending.LendingOffer.annual_fee := Some 0%float;
     Lending.LendingOffer.origination_fee := Some 0.01%float;
     Lending.LendingOffer.tenor_months := None;
     Lending.LendingOffer.repayment_terms := Some "REVOLVING";
     Lending.LendingOffer.collateral_required := false;
     Lending.LendingOffer.notes := Some "Based on your revenue and bureau data.";
     Lending.LendingOffer.created_at := 300%Z |}.

Definition unnamed_db : Lending.Session :=
  {| Lending.lending_applications := [unnamed_application];
     Lending.lending_underwriting := [];
     Lending.lending_offers := [unnamed_offer];
     Lending.credit_facilities := [] |}.

End LendingSamples.

(* ------------------------------------------------------------------ *)
(** ** checking_api.py: verification and notification *)
(* ------------------------------------------------------------------ *)

Module CheckingMore.

Import Py Http Checking.

(** *** Schemas *)

(** [Literal["PASSED", "FAILED", "MANUAL_REVIEW"]]. *)
Inductive VerificationStatus := PASSED | FAILED | MANUAL_REVIEW.

Module BusinessVerificationResponse.
Record t := {
  status : VerificationStatus;
  reason_codes : list string;
  matched_registry_name : option string;
  matched_registration_number : option string
}.
End BusinessVerificationResponse.

Module OwnerVerificationResult.
Record t := {
  owner_id : UUID;
  status : VerificationStatus;
  reason_codes : list string
}.
End OwnerVerificationResult.

Module OwnerVerificationResponse.
Record t := {
  overall_status : VerificationStatus;
  owners : list OwnerVerificationResult.t
}.
End OwnerVerificationResponse.

Inductive ChannelLiteral := EMAIL | SMS | APP.

Inductive DecisionLiteral := APPROVED | REJECTED.

Definition channel_text (c : ChannelLiteral) : string :=
  match c with EMAIL => "EMAIL" | SMS => "SMS" | APP => "APP" end.

Definition decision_text (d : DecisionLiteral) : string :=
  match d with APPROVED => "APPROVED" | REJECTED => "REJECTED" end.

Module SendFinalDecisionNotificationRequest.
Record t := {
  application_id : UUID;
  channel : ChannelLiteral;
  decision : DecisionLiteral;
  reason_codes : list string
}.
End SendFinalDecisionNotificationRequest.

Module SendFinalDecisionNotificationResponse.
Record t := {
  notification_id : UUID;
  delivery_status : string
}.
End SendFinalDecisionNotificationResponse.

(** *** The [notifications] table *)

Module Notification.
Record t := {
  id : UUID;
  context_type : string;
  context_id : UUID;
  channel : string;
  decision : string;
  reason_codes : list string;
  delivery_status : string;
  created_at : datetime
}.
End Notification.

(** The session together with the notification table. *)
Record Store := {
  session : Session;
  notifications : list Notification.t
}.

(** Run a handler of the application tables on the store. *)
Definition on_session {A} (m : M Session A) : M Store A :=
  fun st =>
    let (r, db) := m (session st) in
    (r, {| session := db; notifications := notifications st |}).

(** [db.add(notif); db.commit()]. *)
Definition add_notification (n : Notification.t) (st : Store) : Store :=
  {| session := session st; notifications := notifications st ++ [n] |}.

(** *** Endpoints *)

Local Open Scope http_scope.

Definition run_business_verification (application_id : UUID)
  : M Session BusinessVerificationResponse.t :=
  app_obj <- require_checking_application application_id ;;
  let b := CheckingApplication.business app_obj in
  if negb (truthy_str (Business.registration_number b)) then
    ret {| BusinessVerificationResponse.status := FAILED;
           BusinessVerificationResponse.reason_codes := ["REGISTRATION_NOT_FOUND"];
           BusinessVerificationResponse.matched_registry_name := None;
           BusinessVerificationResponse.matched_registration_number := None |}
  else
    ret {| BusinessVerificationResponse.status := PASSED;
           BusinessVerificationResponse.reason_codes := [];
           BusinessVerificationResponse.matched_registry_name :=
             Some (Business.legal_name b);
           BusinessVerificationResponse.matched_registration_number :=
             Business.registration_number b |}.

(** One iteration of [for o in app_obj.owners] in the owner verification;
    the state is [(overall_status, results)]. *)
Definition owner_step
    (acc : VerificationStatus * list OwnerVerificationResult.t)
    (o : CheckingOwner.t)
  : VerificationStatus * list OwnerVerificationResult.t :=
  let '(overall_status, results) := acc in
  let rc : list string := [] in
  let status := PASSED in
  let '(rc, status) :=
    if negb (truthy_str (CheckingOwner.national_id o))
    then (rc ++ ["MISSING_NATIONAL_ID"], FAILED) else (rc, status) in
  let '(rc, status) :=
    if negb (truthy_obj (CheckingOwner.dob o))
    then (rc ++ ["MISSING_DOB"], FAILED) else (rc, status) in
  let overall_status :=
    match status with
    | PASSED => overall_status
    | _ => FAILED
    end in
  (overall_status,
   results ++ [{| OwnerVerificationResult.owner_id := CheckingOwner.id o;
                  OwnerVerificationResult.status := status;
                  OwnerVerificationResult.reason_codes := rc |}]).

Definition run_owner_verification (application_id : UUID)
  : M Session OwnerVerificationResponse.t :=
  app_obj <- require_checking_application application_id ;;
  db <- get ;;
  match Checking.owners db app_obj with
  | [] =>
      ret {| OwnerVerificationResponse.overall_status := FAILED;
             OwnerVerificationResponse.owners := [] |}
  | os =>
      let '(overall_status, results) := fold_left owner_step os (PASSED, []) in
      ret {| OwnerVerificationResponse.overall_status := overall_status;
             OwnerVerificationResponse.owners := results |}
  end.

(** [new_id] and [now] are the values [uuid4()] and [datetime.utcnow()]
    give the inserted row. *)
Definition send_final_decision_notification (new_id : UUID) (now : datetime)
    (payload : SendFinalDecisionNotificationRequest.t)
  : M Store SendFinalDecisionNotificationResponse.t :=
  app_obj <- on_session (require_checking_application
                           (SendFinalDecisionNotificationRequest.application_id
                              payload)) ;;
  let notif :=
    {| Notification.id := new_id;
       Notification.context_type := "CHECKING_APPLICATION";
       Notification.context_id := CheckingApplication.id app_obj;
       Notification.channel :=
         channel_text (SendFinalDecisionNotificationRequest.channel payload);
       Notification.decision :=
         decision_text (SendFinalDecisionNotificationRequest.decision payload);
       Notification.reason_codes :=
         match SendFinalDecisionNotificationRequest.reason_codes payload with
         | [] => []
         | rc => rc
         end;
       Notification.delivery_status := "SENT";
       Notification.created_at := now |} in
  st <- get ;;
  put (add_notification notif st) ;;;
  ret {| SendFinalDecisionNotificationResponse.notification_id :=
           Notification.id notif;
         SendFinalDecisionNotificationResponse.delivery_status :=
           Notification.delivery_status notif |}.

Local Close Scope http_scope.

End CheckingMore.

(* ------------------------------------------------------------------ *)
(** ** lending_api.py: bureau, policy, underwriting, selection *)
(* ------------------------------------------------------------------ *)

Module LendingMore.

Import Py Http Lending.

(** *** ORM models *)

Module Customer.
Record t := {
  id : string;
  name : string;
  email : option string;
  phone : option string;
  segment : option string
}.
End Customer.

Module Business.
Record t := {
  id : UUID;
  customer_id : option string;
  legal_name : string;
  trade_name : option string;
  entity_type : string;
  tax_id : option string;
  registration_number : option string;
  industry_code : option string;
  country : string;
  state : option string;
  city : option string;
  address : option string;
  years_in_business : option Z
}.
End Business.

Module CheckingAccount.
Record t := {
  id : UUID;
  checking_application_id : UUID;
  account_number : string;
  routing_number : option string;
  status : string;
  created_at : datetime
}.
End CheckingAccount.

Module LendingTransactionSummary.
Record t := {
  id : UUID;
  lending_application_id : UUID;
  checking_account_id : UUID;
  lookback_months : Z;
  period_start : option date;
  period_end : option date;
  total_credits : option float;
  total_debits : option float;
  avg_monthly_revenue : option float;
  revenue_volatility : option float;
  max_single_month_revenue : option float;
  months_with_negative_end_balance : option Z;
  avg_end_of_month_balance : option float;
  overdraft_count : option Z;
  created_at : datetime
}.
End LendingTransactionSummary.

(** [last_updated_at] has no default and may be NULL. *)
Module BusinessCreditReport.
Record t := {
  id : UUID;
  lending_application_id : UUID;
  bureau : string;
  score : option Z;
  score_band : option string;
  delinquencies_count : option Z;
  delinquencies_last_24m : option Z;
  bankruptcies_count : option Z;
  public_records_count : option Z;
  utilization_ratio : option float;
  last_updated_at : option datetime
}.
End BusinessCreditReport.

Module Notification.
Record t := {
  id : UUID;
  context_type : string;
  context_id : UUID;
  channel : string;
  decision : string;
  reason_codes : list string;
  delivery_status : string;
  created_at : datetime
}.
End Notification.

(** The session of the offer and facility handlers together with the
    other tables of the module. *)
Record Store := {
  session : Session;
  customers : list Customer.t;
  businesses : list Business.t;
  checking_accounts : list CheckingAccount.t;
  lending_transaction_summaries : list LendingTransactionSummary.t;
  business_credit_reports : list BusinessCreditReport.t;
  notifications : list Notification.t
}.

Definition with_session (db : Session) (st : Store) : Store :=
  {| session := db;
     customers := customers st;
     businesses := businesses st;
     checking_accounts := checking_accounts st;
     lending_transaction_summaries := lending_transaction_summaries st;
     business_credit_reports := business_credit_reports st;
     notifications := notifications st |}.

(** Run a handler of the offer and facility tables on the store. *)
Definition on_session {A} (m : M Session A) : M Store A :=
  fun st => let (r, db) := m (session st) in (r, with_session db st).

(** The relationships [app_obj.customer], [app_obj.business] and
    [app_obj.checking_account]: [None] when the foreign key is NULL. *)
Definition customer (st : Store) (app_obj : LendingApplication.t)
  : option Customer.t :=
  match LendingApplication.customer_id app_obj with
  | Some k => find (fun c => Customer.id c =? k) (customers st)
  | None => None
  end.

Definition business (st : Store) (app_obj : LendingApplication.t)
  : option Business.t :=
  match LendingApplication.business_id app_obj with
  | Some k => find (fun b => N.eqb (Business.id b) k) (businesses st)
  | None => None
  end.

Definition checking_account (st : Store) (app_obj : LendingApplication.t)
  : option CheckingAccount.t :=
  match LendingApplication.checking_account_id app_obj with
  | Some k => find (fun a => N.eqb (CheckingAccount.id a) k) (checking_accounts st)
  | None => None
  end.

(** [db.query(LendingTransactionSummary).filter(lending_application_id == id)]. *)
Definition transaction_summaries (st : Store) (app_id : UUID) :=
  filter (fun s => N.eqb (LendingTransactionSummary.lending_application_id s) app_id)
         (lending_transaction_summaries st).

(** [db.query(BusinessCreditReport).filter(lending_application_id == id)]. *)
Definition credit_reports (st : Store) (app_id : UUID) :=
  filter (fun r => N.eqb (BusinessCreditReport.lending_application_id r) app_id)
         (business_credit_reports st).

(** [order_by(key.desc()).first()] on a nullable column: PostgreSQL puts
    NULL before every value in descending order. [later a b] says that
    [b] comes strictly before [a] in that order. *)
Definition later (a b : option datetime) : bool :=
  match a, b with
  | None, _ => false
  | Some _, None => true
  | Some x, Some y => (x <? y)%Z
  end.

Definition latest_nulls_first_step {A} (key : A -> option datetime)
    (best : option A) (r : A) : option A :=
  match best with
  | None => Some r
  | Some b => if later (key b) (key r) then Some r else Some b
  end.

Definition latest_nulls_first {A} (key : A -> option datetime) (rows : list A)
  : option A :=
  fold_left (latest_nulls_first_step key) rows None.

(** The latest summary and the latest report of an application. *)
Definition latest_summary (st : Store) (app_id : UUID) :=
  latest LendingTransactionSummary.created_at (transaction_summaries st app_id).

Definition latest_report (st : Store) (app_id : UUID) :=
  latest_nulls_first BusinessCreditReport.last_updated_at (credit_reports st app_id).

(** [db.add(row); db.commit()] for the three tables written here. *)
Definition add_report (r : BusinessCreditReport.t) (st : Store) : Store :=
  {| session := session st;
     customers := customers st;
     businesses := businesses st;
     checking_accounts := checking_accounts st;
     lending_transaction_summaries := lending_transaction_summaries st;
     business_credit_reports := business_credit_reports st ++ [r];
     notifications := notifications st |}.

Definition add_underwriting (uw : LendingUnderwriting.t) (st : Store) : Store :=
  with_session
    {| lending_applications := lending_applications (session st);
       lending_underwriting := lending_underwriting (session st) ++ [uw];
       lending_offers := lending_offers (session st);
       credit_facilities := credit_facilities (session st) |}
    st.

Definition add_notification (n : Notification.t) (st : Store) : Store :=
  {| session := session st;
     customers := customers st;
     businesses := businesses st;
     checking_accounts := checking_accounts st;
     lending_transaction_summaries := lending_transaction_summaries st;
     business_credit_reports := business_credit_reports st;
     notifications := notifications st ++ [n] |}.

(** *** Pydantic schemas *)

Module CustomerSnapshot.
Record t := {
  customer_id : string;
  segment : option string;
  is_existing_borrower : option bool;
  has_prior_defaults : option bool;
  total_existing_exposure : option float
}.
End CustomerSnapshot.

Module BusinessSnapshot.
Record t := {
  business_id : UUID;
  legal_name : string;
  trade_name : option string;
  industry_code : option string;
  entity_type : string;
  years_in_business : option Z;
  country : string;
  state : option string;
  city : option string
}.
End BusinessSnapshot.

Module CheckingSnapshot.
Record t := {
  checking_account_id : UUID;
  tenure_months : option Z;
  avg_balance_last_6m : option float;
  overdrafts_last_12m : option Z;
  is_primary_operating_account : option bool
}.
End CheckingSnapshot.

Module LendingProductSnapshot.
Record t := {
  product_type : string;
  requested_amount : option float
}.
End LendingProductSnapshot.

Module LendingApplicationFull.
Record t := {
  lending_application_id : UUID;
  reference : string;
  status : string;
  submitted_at : datetime;
  customer : CustomerSnapshot.t;
  business : BusinessSnapshot.t;
  checking_account : CheckingSnapshot.t;
  lending_product : LendingProductSnapshot.t
}.
End LendingApplicationFull.

(** [checking_account_id] is a required field. *)
Module CheckingTransactionSummaryResponse.
Record t := {
  checking_account_id : UUID;
  period_start : option date;
  period_end : option date;
  total_credits : option float;
  total_debits : option float;
  avg_monthly_revenue : option float;
  revenue_volatility : option float;
  max_single_month_revenue : option float;
  months_with_negative_end_balance : option Z;
  avg_end_of_month_balance : option float;
  overdraft_count : option Z
}.
End CheckingTransactionSummaryResponse.

Module GetCheckingTransactionSummaryRequest.
Record t := {
  lending_application_id : UUID;
  lookback_months : option Z
}.
End GetCheckingTransactionSummaryRequest.

Module PullBusinessCreditReportRequest.
Record t := {
  lending_application_id : UUID;
  bureau : string
}.
End PullBusinessCreditReportRequest.

Module BusinessCreditReportResponse.
Record t := {
  report_id : UUID;
  bureau : string;
  score : option Z;
  score_band : option string;
  delinquencies_count : option Z;
  delinquencies_last_24m : option Z;
  bankruptcies_count : option Z;
  public_records_count : option Z;
  utilization_ratio : option float;
  last_updated_at : option datetime
}.
End BusinessCreditReportResponse.

Module EvaluateLendingPolicyEligibilityResponse.
Record t := {
  eligible : bool;
  reason_codes : list string
}.
End EvaluateLendingPolicyEligibilityResponse.

Module RunLendingUnderwritingResponse.
Record t := {
  underwriting_id : UUID;
  risk_grade : string;
  pd_estimate : float;
  lgd_estimate : float;
  recommended_max_exposure : float;
  affordability_band : string;
  key_risk_drivers : list string;
  supporting_metrics : dict float
}.
End RunLendingUnderwritingResponse.

Module SelectCreditOfferRequest.
Record t := {
  lending_application_id : UUID;
  offer_id : UUID
}.
End SelectCreditOfferRequest.

Module SelectCreditOfferResponse.
Record t := {
  status : string;
  selected_offer_snapshot : Offer
}.
End SelectCreditOfferResponse.

Inductive ChannelLiteral := EMAIL | SMS | APP.

Inductive DecisionLiteral := APPROVED | REJECTED.

Definition channel_text (c : ChannelLiteral) : string :=
  match c with EMAIL => "EMAIL" | SMS => "SMS" | APP => "APP" end.

Definition decision_text (d : DecisionLiteral) : string :=
  match d with APPROVED => "APPROVED" | REJECTED => "REJECTED" end.

Module SendLendingDecisionNotificationRequest.
Record t := {
  lending_application_id : UUID;
  channel : ChannelLiteral;
  decision : DecisionLiteral;
  reason_codes : list string
}.
End SendLendingDecisionNotificationRequest.

Module SendLendingDecisionNotificationResponse.
Record t := {
  notification_id : UUID;
  delivery_status : string
}.
End SendLendingDecisionNotificationResponse.

(** *** Helpers *)

Local Open Scope http_scope.

(** Reading an attribute of a relationship that is [None] raises
    [AttributeError], which the server answers with status 500. *)
Definition attr_of {S A} (o : option A) : M S A :=
  match o with
  | Some a => ret a
  | None => raise internal_server_error
  end.

Definition build_lending_application_full (app_obj : LendingApplication.t)
  : M Store LendingApplicationFull.t :=
  st <- get ;;
  c <- attr_of (customer st app_obj) ;;
  b <- attr_of (business st app_obj) ;;
  ca <- attr_of (checking_account st app_obj) ;;
  ret {| LendingApplicationFull.lending_application_id :=
           LendingApplication.id app_obj;
         LendingApplicationFull.reference := LendingApplication.reference app_obj;
         LendingApplicationFull.status := LendingApplication.status app_obj;
         LendingApplicationFull.submitted_at :=
           LendingApplication.submitted_at app_obj;
         LendingApplicationFull.customer :=
           {| CustomerSnapshot.customer_id := Customer.id c;
              CustomerSnapshot.segment := Customer.segment c;
              CustomerSnapshot.is_existing_borrower := Some false;
              CustomerSnapshot.has_prior_defaults := Some false;
              CustomerSnapshot.total_existing_exposure := None |};
         LendingApplicationFull.business :=
           {| BusinessSnapshot.business_id := Business.id b;
              BusinessSnapshot.legal_name := Business.legal_name b;
              BusinessSnapshot.trade_name := Business.trade_name b;
              BusinessSnapshot.industry_code := Business.industry_code b;
              BusinessSnapshot.entity_type := Business.entity_type b;
              BusinessSnapshot.years_in_business := Business.years_in_business b;
              BusinessSnapshot.country := Business.country b;
              BusinessSnapshot.state := Business.state b;
              BusinessSnapshot.city := Business.city b |};
         LendingApplicationFull.checking_account :=
           {| CheckingSnapshot.checking_account_id := CheckingAccount.id ca;
              CheckingSnapshot.tenure_months := None;
              CheckingSnapshot.avg_balance_last_6m := None;
              CheckingSnapshot.overdrafts_last_12m := None;
              CheckingSnapshot.is_primary_operating_account := Some true |};
         LendingApplicationFull.lending_product :=
           {| LendingProductSnapshot.product_type :=
                LendingApplication.product_type app_obj;
              LendingProductSnapshot.requested_amount :=
                LendingApplication.requested_amount app_obj |} |}.

(** The response model of a credit report row. *)
Definition report_model (r : BusinessCreditReport.t)
  : BusinessCreditReportResponse.t :=
  {| BusinessCreditReportResponse.report_id := BusinessCreditReport.id r;
     BusinessCreditReportResponse.bureau := BusinessCreditReport.bureau r;
     BusinessCreditReportResponse.score := BusinessCreditReport.score r;
     BusinessCreditReportResponse.score_band := BusinessCreditReport.score_band r;
     BusinessCreditReportResponse.delinquencies_count :=
       BusinessCreditReport.delinquencies_count r;
     BusinessCreditReportResponse.delinquencies_last_24m :=
       BusinessCreditReport.delinquencies_last_24m r;
     BusinessCreditReportResponse.bankruptcies_count :=
       BusinessCreditReport.bankruptcies_count r;
     BusinessCreditReportResponse.public_records_count :=
       BusinessCreditReport.public_records_count r;
     BusinessCreditReportResponse.utilization_ratio :=
       BusinessCreditReport.utilization_ratio r;
     BusinessCreditReportResponse.last_updated_at :=
       BusinessCreditReport.last_updated_at r |}.

(** The response for an application without a summary: the account of
    the application and no figure. The account is the nullable foreign
    key of the application, and the response has none when it is NULL. *)
Definition empty_summary (checking_account_id : UUID)
  : CheckingTransactionSummaryResponse.t :=
  {| CheckingTransactionSummaryResponse.checking_account_id :=
       checking_account_id;
     CheckingTransactionSummaryResponse.period_start := None;
     CheckingTransactionSummaryResponse.period_end := None;
     CheckingTransactionSummaryResponse.total_credits := None;
     CheckingTransactionSummaryResponse.total_debits := None;
     CheckingTransactionSummaryResponse.avg_monthly_revenue := None;
     CheckingTransactionSummaryResponse.revenue_volatility := None;
     CheckingTransactionSummaryResponse.max_single_month_revenue := None;
     CheckingTransactionSummaryResponse.months_with_negative_end_balance := None;
     CheckingTransactionSummaryResponse.avg_end_of_month_balance := None;
     CheckingTransactionSummaryResponse.overdraft_count := None |}.

(** *** Endpoints *)

Definition get_lending_application_by_reference
    (lending_application_reference : string)
  : M Store LendingApplicationFull.t :=
  st <- get ;;
  match find (fun a => LendingApplication.reference a
                       =? lending_application_reference)
             (lending_applications (session st)) with
  | None =>
      raise {| status_code := 404;
               detail := "Lending application with given reference not found" |}
  | Some app_obj => build_lending_application_full app_obj
  end.

Definition get_checking_transaction_summary_for_lending
    (payload : GetCheckingTransactionSummaryRequest.t)
  : M Store CheckingTransactionSummaryResponse.t :=
  app_obj <- on_session
               (require_lending_application
                  (GetCheckingTransactionSummaryRequest.lending_application_id
                     payload)) ;;
  st <- get ;;
  match latest_summary st (LendingApplication.id app_obj) with
  | None =>
      validated
        (option_map empty_summary
           (LendingApplication.checking_account_id app_obj))
  | Some summary =>
      ret {| CheckingTransactionSummaryResponse.checking_account_id :=
               LendingTransactionSummary.checking_account_id summary;
             CheckingTransactionSummaryResponse.period_start :=
               LendingTransactionSummary.period_start summary;
             CheckingTransactionSummaryResponse.period_end :=
               LendingTransactionSummary.period_end summary;
             CheckingTransactionSummaryResponse.total_credits :=
               LendingTransactionSummary.total_credits summary;
             CheckingTransactionSummaryResponse.total_debits :=
               LendingTransactionSummary.total_debits summary;
             CheckingTransactionSummaryResponse.avg_monthly_revenue :=
               LendingTransactionSummary.avg_monthly_revenue summary;
             CheckingTransactionSummaryResponse.revenue_volatility :=
               LendingTransactionSummary.revenue_volatility summary;
             CheckingTransactionSummaryResponse.max_single_month_revenue :=
               LendingTransactionSummary.max_single_month_revenue summary;
             CheckingTransactionSummaryResponse.months_with_negative_end_balance :=
               LendingTransactionSummary.months_with_negative_end_balance summary;
             CheckingTransactionSummaryResponse.avg_end_of_month_balance :=
               LendingTransactionSummary.avg_end_of_month_balance summary;
             CheckingTransactionSummaryResponse.overdraft_count :=
               LendingTransactionSummary.overdraft_count summary |}
  end.

(** [new_id] and [now] are the values [uuid4()] and [datetime.utcnow()]
    give the inserted row. *)
Definition pull_business_credit_report (new_id : UUID) (now : datetime)
    (payload : PullBusinessCreditReportRequest.t)
  : M Store BusinessCreditReportResponse.t :=
  app_obj <- on_session
               (require_lending_application
                  (PullBusinessCreditReportRequest.lending_application_id
                     payload)) ;;
  st <- get ;;
  match latest_nulls_first BusinessCreditReport.last_updated_at
          (filter (fun r => BusinessCreditReport.bureau r
                            =? PullBusinessCreditReportRequest.bureau payload)
                  (credit_reports st (LendingApplication.id app_obj))) with
  | Some existing => ret (report_model existing)
  | None =>
      let report :=
        {| BusinessCreditReport.id := new_id;
           BusinessCreditReport.lending_application_id :=
             LendingApplication.id app_obj;
           BusinessCreditReport.bureau :=
             PullBusinessCreditReportRequest.bureau payload;
           BusinessCreditReport.score := Some 80%Z;
           BusinessCreditReport.score_band := Some "GOOD";
           BusinessCreditReport.delinquencies_count := Some 0%Z;
           BusinessCreditReport.delinquencies_last_24m := Some 0%Z;
           BusinessCreditReport.bankruptcies_count := Some 0%Z;
           BusinessCreditReport.public_records_count := Some 0%Z;
           BusinessCreditReport.utilization_ratio := Some 0.3%float;
           BusinessCreditReport.last_updated_at := Some now |} in
      put (add_report report st) ;;;
      ret (report_model report)
  end.

Definition get_latest_business_credit_report (lending_application_id : UUID)
  : M Store (option BusinessCreditReportResponse.t) :=
  app_obj <- on_session (require_lending_application lending_application_id) ;;
  st <- get ;;
  match latest_report st (LendingApplication.id app_obj) with
  | None => ret None
  | Some report => ret (Some (report_model report))
  end.

Definition evaluate_lending_policy_eligibility (lending_application_id : UUID)
  : M Store EvaluateLendingPolicyEligibilityResponse.t :=
  app_obj <- on_session (require_lending_application lending_application_id) ;;
  st <- get ;;
  let reason_codes : list string := [] in
  let eligible := true in
  let requested :=
    match LendingApplication.requested_amount app_obj with
    | Some a => a
    | None => 0%float
    end in
  b <- attr_of (business st app_obj) ;;
  let '(eligible, reason_codes) :=
    if match Business.years_in_business b with
       | Some y => (y <? 1)%Z
       | None => false
       end
       && float_gt requested 50000%float
    then (false, reason_codes ++ ["INSUFFICIENT_TENURE_FOR_REQUESTED_AMOUNT"])
    else (eligible, reason_codes) in
  let report := latest_report st (LendingApplication.id app_obj) in
  let '(eligible, reason_codes) :=
    if match report with
       | Some r =>
           match BusinessCreditReport.score r with
           | Some s => (s <? 50)%Z
           | None => false
           end
       | None => false
       end
    then (false, reason_codes ++ ["LOW_BUREAU_SCORE"])
    else (eligible, reason_codes) in
  ret {| EvaluateLendingPolicyEligibilityResponse.eligible := eligible;
         EvaluateLendingPolicyEligibilityResponse.reason_codes := reason_codes |}.

Definition run_lending_underwriting (new_id : UUID) (now : datetime)
    (lending_application_id : UUID)
  : M Store RunLendingUnderwritingResponse.t :=
  app_obj <- on_session (require_lending_application lending_application_id) ;;
  st <- get ;;
  let summary := latest_summary st (LendingApplication.id app_obj) in
  let report := latest_report st (LendingApplication.id app_obj) in
  let avg_rev :=
    match summary with
    | Some s =>
        match LendingTransactionSummary.avg_monthly_revenue s with
        | Some v => v
        | None => 0%float
        end
    | None => 0%float
    end in
  let score :=
    match report with
    | Some r =>
        match BusinessCreditReport.score r with
        | Some s => s
        | None => 75%Z
        end
    | None => 75%Z
    end in
  let risk_grade := "B" in
  let pd_estimate := 0.04%float in
  let lgd_estimate := 0.45%float in
  let rec_max_exposure :=
    if float_gt avg_rev 0%float then (avg_rev * 2)%float else 50000%float in
  let affordability_band := "MEDIUM" in
  let drivers : list string := [] in
  let '(risk_grade, pd_estimate, drivers) :=
    if (80 <=? score)%Z
    then ("A", 0.02%float, drivers ++ ["GOOD_BUREAU_SCORE"])
    else if (score <? 60)%Z
    then ("C", 0.08%float, drivers ++ ["LOW_BUREAU_SCORE"])
    else (risk_grade, pd_estimate, drivers) in
  b <- attr_of (business st app_obj) ;;
  let drivers :=
    if match Business.years_in_business b with
       | Some y => (y <? 1)%Z
       | None => false
       end
    then drivers ++ ["SHORT_OPERATING_HISTORY"] else drivers in
  let dscr := 1.8%float in
  let debt_to_revenue := 0.25%float in
  let drivers := match drivers with [] => ["BASELINE"] | _ => drivers end in
  let uw :=
    {| LendingUnderwriting.id := new_id;
       LendingUnderwriting.lending_application_id := LendingApplication.id app_obj;
       LendingUnderwriting.risk_grade := Some risk_grade;
       LendingUnderwriting.pd_estimate := Some pd_estimate;
       LendingUnderwriting.lgd_estimate := Some lgd_estimate;
       LendingUnderwriting.recommended_max_exposure := Some rec_max_exposure;
       LendingUnderwriting.affordability_band := Some affordability_band;
       LendingUnderwriting.key_risk_drivers := Some drivers;
       LendingUnderwriting.dscr := Some dscr;
       LendingUnderwriting.debt_to_revenue_ratio := Some debt_to_revenue;
       LendingUnderwriting.created_at := now |} in
  put (add_underwriting uw st) ;;;
  ret {| RunLendingUnderwritingResponse.underwriting_id :=
           LendingUnderwriting.id uw;
         RunLendingUnderwritingResponse.risk_grade := risk_grade;
         RunLendingUnderwritingResponse.pd_estimate := pd_estimate;
         RunLendingUnderwritingResponse.lgd_estimate := lgd_estimate;
         RunLendingUnderwritingResponse.recommended_max_exposure :=
           rec_max_exposure;
         RunLendingUnderwritingResponse.affordability_band := affordability_band;
         RunLendingUnderwritingResponse.key_risk_drivers := drivers;
         RunLendingUnderwritingResponse.supporting_metrics :=
           [("dscr", dscr); ("debt_to_revenue_ratio", debt_to_revenue)] |}.

Definition select_credit_offer_for_application
    (payload : SelectCreditOfferRequest.t)
  : M Session SelectCreditOfferResponse.t :=
  app_obj <- require_lending_application
               (SelectCreditOfferRequest.lending_application_id payload) ;;
  db <- get ;;
  match find (fun o =>
                N.eqb (LendingOffer.id o) (SelectCreditOfferRequest.offer_id payload)
                && N.eqb (LendingOffer.lending_application_id o)
                         (LendingApplication.id app_obj))
             (lending_offers db) with
  | None =>
      raise {| status_code := 404;
               detail := "Offer not found for this application" |}
  | Some offer =>
      ret {| SelectCreditOfferResponse.status := "OFFER_SELECTED";
             SelectCreditOfferResponse.selected_offer_snapshot :=
               offer_model offer |}
  end.

Definition send_lending_decision_notification (new_id : UUID) (now : datetime)
    (payload : SendLendingDecisionNotificationRequest.t)
  : M Store SendLendingDecisionNotificationResponse.t :=
  app_obj <- on_session
               (require_lending_application
                  (SendLendingDecisionNotificationRequest.lending_application_id
                     payload)) ;;
  let notif :=
    {| Notification.id := new_id;
       Notification.context_type := "LENDING_APPLICATION";
       Notification.context_id := LendingApplication.id app_obj;
       Notification.channel :=
         channel_text (SendLendingDecisionNotificationRequest.channel payload);
       Notification.decision :=
         decision_text (SendLendingDecisionNotificationRequest.decision payload);
       Notification.reason_codes :=
         match SendLendingDecisionNotificationRequest.reason_codes payload with
         | [] => []
         | rc => rc
         end;
       Notification.delivery_status := "SENT";
       Notification.created_at := now |} in
  st <- get ;;
  put (add_notification notif st) ;;;
  ret {| SendLendingDecisionNotificationResponse.notification_id :=
           Notification.id notif;
         SendLendingDecisionNotificationResponse.delivery_status :=
           Notification.delivery_status notif |}.

Local Close Scope http_scope.

End LendingMore.

(* ------------------------------------------------------------------ *)
(** ** Vocabulary of the further statements *)
(* ------------------------------------------------------------------ *)

Module CheckingMoreSpec.

Import Py Http Checking CheckingSpec CheckingMore.

(** An owner with a national id and a date of birth. *)
Definition owner_identified (o : CheckingOwner.t) : bool :=
  truthy_str (CheckingOwner.national_id o) && truthy_obj (CheckingOwner.dob o).

(** The codes the completeness check gives for one owner. *)
Definition owner_codes (o : CheckingOwner.t) : list string :=
  (if truthy_obj (CheckingOwner.dob o) then [] else ["OWNER_DOB"])
  ++ (if truthy_str (CheckingOwner.national_id o) then [] else ["OWNER_ID_NUMBER"])
  ++ (match CheckingOwner.ownership_percentage o with
      | Some _ => []
      | None => ["OWNERSHIP_PERCENTAGE"]
      end).

(** Why a completeness code is due for an application. *)
Definition code_due (db : Session) (app_obj : CheckingApplication.t)
    (c : string) : Prop :=
  let b := CheckingApplication.business app_obj in
  (c = "BUSINESS_TAX_ID" /\ truthy_str (Business.tax_id b) = false)
  \/ (c = "BUSINESS_ADDRESS" /\ truthy_str (Business.address b) = false)
  \/ (c = "OWNERS_MISSING" /\ owners db app_obj = [])
  \/ (exists o, In o (owners db app_obj) /\ In c (owner_codes o))
  \/ (c = "USAGE_PROFILE_MISSING"
      /\ truthy_list (CheckingApplication.usage_profile app_obj) = false).

(** The codes of the completeness check before sorting. *)
Definition completeness_raw (db : Session) (app_obj : CheckingApplication.t)
  : list string :=
  let b := CheckingApplication.business app_obj in
  (if truthy_str (Business.tax_id b) then [] else ["BUSINESS_TAX_ID"])
  ++ (if truthy_str (Business.address b) then [] else ["BUSINESS_ADDRESS"])
  ++ (match owners db app_obj with
      | [] => ["OWNERS_MISSING"]
      | os => flat_map owner_codes os
      end)
  ++ (if truthy_list (CheckingApplication.usage_profile app_obj)
      then [] else ["USAGE_PROFILE_MISSING"]).

(** The response of the completeness check for a list of codes. *)
Definition completeness_response (codes : list string)
  : EvaluateCompletenessResponse :=
  {| can_proceed := Nat.eqb (List.length codes) 0;
     missing_field_codes := codes;
     comments :=
       if Nat.eqb (List.length codes) 0 then None
       else Some "Mandatory fields missing; cannot proceed without user interaction." |}.

(** The number of scoring rules that fire for an application. *)
Definition rules_fired (app_obj : CheckingApplication.t) : nat :=
  let b := CheckingApplication.business app_obj in
  (if new_business b then 1 else 0)
  + (if high_cash_volume app_obj then 1 else 0)
  + (if high_risk_industry b then 1 else 0).

(** The error of an unknown application id. *)
Definition application_not_found : HTTPException :=
  {| status_code := 404; detail := "Checking application not found" |}.

(** The account row opened for an application. *)
Definition new_account (new_id : UUID) (now : datetime)
    (app_obj : CheckingApplication.t) : CheckingAccount.t :=
  {| CheckingAccount.id := new_id;
     CheckingAccount.checking_application_id := CheckingApplication.id app_obj;
     CheckingAccount.account_number :=
       ("10" ++ hex_fixed 10 (N.shiftr (CheckingApplication.id app_obj) 88))%string;
     CheckingAccount.routing_number := Some "011000015";
     CheckingAccount.status := "ACTIVE";
     CheckingAccount.created_at := now |}.

(** The notification row of a final decision. *)
Definition decision_notification (new_id : UUID) (now : datetime)
    (payload : SendFinalDecisionNotificationRequest.t) : Notification.t :=
  {| Notification.id := new_id;
     Notification.context_type := "CHECKING_APPLICATION";
     Notification.context_id :=
       SendFinalDecisionNotificationRequest.application_id payload;
     Notification.channel :=
       channel_text (SendFinalDecisionNotificationRequest.channel payload);
     Notification.decision :=
       decision_text (SendFinalDecisionNotificationRequest.decision payload);
     Notification.reason_codes :=
       SendFinalDecisionNotificationRequest.reason_codes payload;
     Notification.delivery_status := "SENT";
     Notification.created_at := now |}.

End CheckingMoreSpec.

Module MoreSamples.

Import Py Http Samples.

Definition owner (n : N) (dob : option date) (national_id : option string)
    (pct : option float) : Checking.CheckingOwner.t :=
  {| Checking.CheckingOwner.id := n;
     Checking.CheckingOwner.checking_application_id := 7%N;
     Checking.CheckingOwner.full_name := "Owner";
     Checking.CheckingOwner.dob := dob;
     Checking.CheckingOwner.national_id := national_id;
     Checking.CheckingOwner.ownership_percentage := pct;
     Checking.CheckingOwner.address := None |}.

Definition born := {| year := 1980; month := 5; day := 17 |}.

(** A fully identified owner and one without a national id. *)
Definition owner_a := owner 71%N (Some born) (Some "ID-1") (Some 60%float).
Definition owner_b := owner 72%N (Some born) None None.

Definition with_owners (os : list Checking.CheckingOwner.t) : Checking.Session :=
  {| Checking.checking_applications := [scenario_app];
     Checking.checking_owners := os;
     Checking.checking_documents := [];
     Checking.checking_risk_scores := [];
     Checking.checking_accounts := [] |}.

Definition owners_db := with_owners [owner_a; owner_b].
Definition owners_db_swapped := with_owners [owner_b; owner_a].
Definition identified_db := with_owners [owner_a].

(** Two applications whose ids differ only below the leading 40 bits. *)
Definition twin_a : Checking.CheckingApplication.t :=
  {| Checking.CheckingApplication.id := 0x123e4567e89b12d3a456426614174000%N;
     Checking.CheckingApplication.reference := "CHK-A";
     Checking.CheckingApplication.business_id := 1%N;
     Checking.CheckingApplication.customer_id := None;
     Checking.CheckingApplication.product_id := "BASIC_CHECKING";
     Checking.CheckingApplication.submitted_at := 0%Z;
     Checking.CheckingApplication.status := "RECEIVED";
     Checking.CheckingApplication.usage_profile := None;
     Checking.CheckingApplication.business := business (Some 5%Z) None |}.

Definition twin_b : Checking.CheckingApplication.t :=
  {| Checking.CheckingApplication.id := 0x123e4567e8ffffffffffffffffffffff%N;
     Checking.CheckingApplication.reference := "CHK-B";
     Checking.CheckingApplication.business_id := 1%N;
     Checking.CheckingApplication.customer_id := None;
     Checking.CheckingApplication.product_id := "BASIC_CHECKING";
     Checking.CheckingApplication.submitted_at := 0%Z;
     Checking.CheckingApplication.status := "RECEIVED";
     Checking.CheckingApplication.usage_profile := None;
     Checking.CheckingApplication.business := business (Some 5%Z) None |}.

Definition twins_db : Checking.Session :=
  {| Checking.checking_applications := [twin_a; twin_b];
     Checking.checking_owners := [];
     Checking.checking_documents := [];
     Checking.checking_risk_scores := [];
     Checking.checking_accounts := [] |}.

(** A store with no notification yet, and a decision to send. *)
Definition quiet_store : CheckingMore.Store :=
  {| CheckingMore.session := scenario_db; CheckingMore.notifications := [] |}.

Definition approval : CheckingMore.SendFinalDecisionNotificationRequest.t :=
  {| CheckingMore.SendFinalDecisionNotificationRequest.application_id := 7%N;
     CheckingMore.SendFinalDecisionNotificationRequest.channel := CheckingMore.EMAIL;
     CheckingMore.SendFinalDecisionNotificationRequest.decision :=
       CheckingMore.APPROVED;
     CheckingMore.SendFinalDecisionNotificationRequest.reason_codes := [] |}.

(** The three required documents, the tax proof uploaded again after a
    rejection. *)
Definition documented_db :=
  session scenario_app
    [document 81%N "BUSINESS_REG_CERT" "VALIDATED" None;
     document 82%N "TAX_ID_PROOF" "REJECTED" (Some ["EXPIRED"]);
     document 83%N "OWNER_ID_PROOF" "UPLOADED" None;
     document 84%N "TAX_ID_PROOF" "VALIDATED" None].

End MoreSamples.

Module LendingMoreSpec.

Import Py Http Lending LendingSpec LendingMore.

(** The error of an unknown application id. *)
Definition lending_not_found : HTTPException :=
  {| status_code := 404; detail := "Lending application not found" |}.

(** The bureau score underwriting works from: the score of the latest
    report, 75 without a report or without a score. *)
Definition bureau_score (st : Store) (app_id : UUID) : Z :=
  match latest_report st app_id with
  | Some r =>
      match BusinessCreditReport.score r with
      | Some s => s
      | None => 75%Z
      end
  | None => 75%Z
  end.

(** The average monthly revenue of the latest summary, if any. *)
Definition reported_revenue (st : Store) (app_id : UUID) : option float :=
  match latest_summary st app_id with
  | Some s => LendingTransactionSummary.avg_monthly_revenue s
  | None => None
  end.

(** Twice a positive revenue, 50 000 otherwise. *)
Definition exposure_of (revenue : option float) : float :=
  match revenue with
  | Some v => if PrimFloat.ltb 0%float v then (v * 2)%float else 50000%float
  | None => 50000%float
  end.

(** A business with an age below one year. *)
Definition short_history (b : Business.t) : bool :=
  match Business.years_in_business b with
  | Some y => (y <? 1)%Z
  | None => false
  end.

Definition grade_of (score : Z) : string :=
  if (80 <=? score)%Z then "A" else if (score <? 60)%Z then "C" else "B".

Definition pd_of (score : Z) : float :=
  if (80 <=? score)%Z then 0.02%float
  else if (score <? 60)%Z then 0.08%float else 0.04%float.

Definition drivers_of (score : Z) (b : Business.t) : list string :=
  match (if (80 <=? score)%Z then ["GOOD_BUREAU_SCORE"]
         else if (score <? 60)%Z then ["LOW_BUREAU_SCORE"] else [])
        ++ (if short_history b then ["SHORT_OPERATING_HISTORY"] else []) with
  | [] => ["BASELINE"]
  | ds => ds
  end.

(** The underwriting row of a run. *)
Definition underwriting_row (new_id : UUID) (now : datetime) (st : Store)
    (app_id : UUID) (b : Business.t) : LendingUnderwriting.t :=
  {| LendingUnderwriting.id := new_id;
     LendingUnderwriting.lending_application_id := app_id;
     LendingUnderwriting.risk_grade := Some (grade_of (bureau_score st app_id));
     LendingUnderwriting.pd_estimate := Some (pd_of (bureau_score st app_id));
     LendingUnderwriting.lgd_estimate := Some 0.45%float;
     LendingUnderwriting.recommended_max_exposure :=
       Some (exposure_of (reported_revenue st app_id));
     LendingUnderwriting.affordability_band := Some "MEDIUM";
     LendingUnderwriting.key_risk_drivers :=
       Some (drivers_of (bureau_score st app_id) b);
     LendingUnderwriting.dscr := Some 1.8%float;
     LendingUnderwriting.debt_to_revenue_ratio := Some 0.25%float;
     LendingUnderwriting.created_at := now |}.

(** The response of a run. *)
Definition underwriting_response (new_id : UUID) (st : Store) (app_id : UUID)
    (b : Business.t) : RunLendingUnderwritingResponse.t :=
  {| RunLendingUnderwritingResponse.underwriting_id := new_id;
     RunLendingUnderwritingResponse.risk_grade :=
       grade_of (bureau_score st app_id);
     RunLendingUnderwritingResponse.pd_estimate := pd_of (bureau_score st app_id);
     RunLendingUnderwritingResponse.lgd_estimate := 0.45%float;
     RunLendingUnderwritingResponse.recommended_max_exposure :=
       exposure_of (reported_revenue st app_id);
     RunLendingUnderwritingResponse.affordability_band := "MEDIUM";
     RunLendingUnderwritingResponse.key_risk_drivers :=
       drivers_of (bureau_score st app_id) b;
     RunLendingUnderwritingResponse.supporting_metrics :=
       [("dscr", 1.8%float); ("debt_to_revenue_ratio", 0.25%float)] |}.

(** The toy report a pull creates. *)
Definition pulled_report (new_id : UUID) (now : datetime) (app_id : UUID)
    (bureau : string) : BusinessCreditReport.t :=
  {| BusinessCreditReport.id := new_id;
     BusinessCreditReport.lending_application_id := app_id;
     BusinessCreditReport.bureau := bureau;
     BusinessCreditReport.score := Some 80%Z;
     BusinessCreditReport.score_band := Some "GOOD";
     BusinessCreditReport.delinquencies_count := Some 0%Z;
     BusinessCreditReport.delinquencies_last_24m := Some 0%Z;
     BusinessCreditReport.bankruptcies_count := Some 0%Z;
     BusinessCreditReport.public_records_count := Some 0%Z;
     BusinessCreditReport.utilization_ratio := Some 0.3%float;
     BusinessCreditReport.last_updated_at := Some now |}.

(** The reports of an application from one bureau. *)
Definition bureau_reports (st : Store) (app_id : UUID) (bureau : string) :=
  filter (fun r => BusinessCreditReport.bureau r =? bureau)
         (credit_reports st app_id).

(** The offer generated from an exposure basis. *)
Definition offer_row (new_id : UUID) (now : datetime) (app_id : UUID)
    (basis : float) (n : Z) : LendingOffer.t :=
  {| LendingOffer.id := new_id;
     LendingOffer.lending_application_id := app_id;
     LendingOffer.offer_code := ("OFFER-LOC-" ++ str_of_int n)%string;
     LendingOffer.product_type := "REVOLVING_LOC";
     LendingOffer.credit_limit := (basis * 0.8)%float;
     LendingOffer.min_credit_limit := Some (basis * 0.8 * 0.5)%float;
     LendingOffer.max_credit_limit := Some basis;
     LendingOffer.apr := Some 0.14%float;
     LendingOffer.annual_fee := Some 0%float;
     LendingOffer.origination_fee := Some 0.01%float;
     LendingOffer.tenor_months := None;
     LendingOffer.repayment_terms := Some "REVOLVING";
     LendingOffer.collateral_required := false;
     LendingOffer.notes := Some "Based on your revenue and bureau data.";
     LendingOffer.created_at := now |}.

(** The facility opened from an offer. *)
Definition facility_row (new_id : UUID) (now : datetime)
    (app_obj : LendingApplication.t) (offer : LendingOffer.t)
  : CreditFacility.t :=
  {| CreditFacility.id := new_id;
     CreditFacility.lending_application_id := LendingApplication.id app_obj;
     CreditFacility.customer_id := LendingApplication.customer_id app_obj;
     CreditFacility.business_id := LendingApplication.business_id app_obj;
     CreditFacility.facility_type := LendingOffer.product_type offer;
     CreditFacility.account_number :=
       ("20" ++ hex_fixed 10 (N.shiftr (LendingApplication.id app_obj) 88))%string;
     CreditFacility.credit_limit := LendingOffer.credit_limit offer;
     CreditFacility.apr := LendingOffer.apr offer;
     CreditFacility.status := "ACTIVE";
     CreditFacility.billing_cycle_day := Some 15%Z;
     CreditFacility.drawdown_terms := Some "REVOLVING_NET_30";
     CreditFacility.created_at := now |}.

(** The notification row of a lending decision. *)
Definition lending_notification (new_id : UUID) (now : datetime)
    (payload : SendLendingDecisionNotificationRequest.t) : Notification.t :=
  {| Notification.id := new_id;
     Notification.context_type := "LENDING_APPLICATION";
     Notification.context_id :=
       SendLendingDecisionNotificationRequest.lending_application_id payload;
     Notification.channel :=
       channel_text (SendLendingDecisionNotificationRequest.channel payload);
     Notification.decision :=
       decision_text (SendLendingDecisionNotificationRequest.decision payload);
     Notification.reason_codes :=
       SendLendingDecisionNotificationRequest.reason_codes payload;
     Notification.delivery_status := "SENT";
     Notification.created_at := now |}.

End LendingMoreSpec.

Module LendingMoreSamples.

Import Py Http LendingSamples.

Definition acme : LendingMore.Business.t :=
  {| LendingMore.Business.id := 1%N;
     LendingMore.Business.customer_id := Some "CUST-1";
     LendingMore.Business.legal_name := "Acme Tools LLC";
     LendingMore.Business.trade_name := None;
     LendingMore.Business.entity_type := "LLC";
     LendingMore.Business.tax_id := Some "12-3456789";
     LendingMore.Business.registration_number := Some "REG-77";
     LendingMore.Business.industry_code := Some "1234";
     LendingMore.Business.country := "US";
     LendingMore.Business.state := None;
     LendingMore.Business.city := None;
     LendingMore.Business.address := Some "1 Main St";
     LendingMore.Business.years_in_business := Some 0%Z |}.

Definition customer_1 : LendingMore.Customer.t :=
  {| LendingMore.Customer.id := "CUST-1";
     LendingMore.Customer.name := "Acme";
     LendingMore.Customer.email := None;
     LendingMore.Customer.phone := None;
     LendingMore.Customer.segment := Some "SMB" |}.

Definition operating_account : LendingMore.CheckingAccount.t :=
  {| LendingMore.CheckingAccount.id := 5%N;
     LendingMore.CheckingAccount.checking_application_id := 7%N;
     LendingMore.CheckingAccount.account_number := "100000000000";
     LendingMore.CheckingAccount.routing_number := Some "011000015";
     LendingMore.CheckingAccount.status := "ACTIVE";
     LendingMore.CheckingAccount.created_at := 0%Z |}.

Definition summary (n : N) (revenue : option float) (at_ : datetime)
  : LendingMore.LendingTransactionSummary.t :=
  {| LendingMore.LendingTransactionSummary.id := n;
     LendingMore.LendingTransactionSummary.lending_application_id := 11%N;
     LendingMore.LendingTransactionSummary.checking_account_id := 5%N;
     LendingMore.LendingTransactionSummary.lookback_months := 12%Z;
     LendingMore.LendingTransactionSummary.period_start := None;
     LendingMore.LendingTransactionSummary.period_end := None;
     LendingMore.LendingTransactionSummary.total_credits := None;
     LendingMore.LendingTransactionSummary.total_debits := None;
     LendingMore.LendingTransactionSummary.avg_monthly_revenue := revenue;
     LendingMore.LendingTransactionSummary.revenue_volatility := None;
     LendingMore.LendingTransactionSummary.max_single_month_revenue := None;
     LendingMore.LendingTransactionSummary.months_with_negative_end_balance := None;
     LendingMore.LendingTransactionSummary.avg_end_of_month_balance := None;
     LendingMore.LendingTransactionSummary.overdraft_count := None;
     LendingMore.LendingTransactionSummary.created_at := at_ |}.

Definition report (n : N) (bureau : string) (score : option Z)
    (at_ : option datetime) : LendingMore.BusinessCreditReport.t :=
  {| LendingMore.BusinessCreditReport.id := n;
     LendingMore.BusinessCreditReport.lending_application_id := 11%N;
     LendingMore.BusinessCreditReport.bureau := bureau;
     LendingMore.BusinessCreditReport.score := score;
     LendingMore.BusinessCreditReport.score_band := None;
     LendingMore.BusinessCreditReport.delinquencies_count := None;
     LendingMore.BusinessCreditReport.delinquencies_last_24m := None;
     LendingMore.BusinessCreditReport.bankruptcies_count := None;
     LendingMore.BusinessCreditReport.public_records_count := None;
     LendingMore.BusinessCreditReport.utilization_ratio := None;
     LendingMore.BusinessCreditReport.last_updated_at := at_ |}.

Definition store (db : Lending.Session)
    (summaries : list LendingMore.LendingTransactionSummary.t)
    (reports : list LendingMore.BusinessCreditReport.t) : LendingMore.Store :=
  {| LendingMore.session := db;
     LendingMore.customers := [customer_1];
     LendingMore.businesses := [acme];
     LendingMore.checking_accounts := [operating_account];
     LendingMore.lending_transaction_summaries := summaries;
     LendingMore.business_credit_reports := reports;
     LendingMore.notifications := [] |}.

(** A new application: no summary, no report, no underwriting. *)
Definition new_store := store fresh_db [] [].

(** Revenue of 30 000 a month and a bureau score of 45. *)
Definition weak_store :=
  store fresh_db [summary 91%N (Some 30000%float) 50%Z]
        [report 92%N "EXPERIAN" (Some 45%Z) (Some 60%Z)].

(** An application whose business is not recorded. *)
Definition orphan_application : Lending.LendingApplication.t :=
  {| Lending.LendingApplication.id := 12%N;
     Lending.LendingApplication.reference := "LND-0012";
     Lending.LendingApplication.customer_id := None;
     Lending.LendingApplication.business_id := None;
     Lending.LendingApplication.checking_account_id := None;
     Lending.LendingApplication.product_type := "TERM_LOAN";
     Lending.LendingApplication.requested_amount := None;
     Lending.LendingApplication.status := "RECEIVED";
     Lending.LendingApplication.submitted_at := 0%Z |}.

Definition orphan_store :=
  store {| Lending.lending_applications := [orphan_application];
           Lending.lending_underwriting := [];
           Lending.lending_offers := [];
           Lending.credit_facilities := [] |} [] [].

End LendingMoreSamples.

(* ------------------------------------------------------------------ *)
(** ** Facts about the Python built-ins *)
(* ------------------------------------------------------------------ *)

Unset Implicit Arguments.

Module PyFacts.
Import Py.

(** *** [sorted(set(l))] *)

Lemma compare_eq_eq (x y : string) : String_as_OT.compare x y = Eq -> x = y.
Proof.
  destruct (String_as_OT.compare_spec x y); congruence.
Qed.

Lemma compare_gt_lt (x y : string) :
  String_as_OT.compare x y = Gt -> String_as_OT.lt y x.
Proof.
  destruct (String_as_OT.compare_spec x y); congruence.
Qed.

Lemma insert_uniq_In (x y : string) (l : list string) :
  In y (insert_uniq x l) <-> y = x \/ In y l.
Proof.
  induction l as [|z l IH]; simpl.
  - intuition.
  - destruct (String_as_OT.compare x z) eqn:E; simpl.
    + apply compare_eq_eq in E. subst z. intuition.
    + intuition.
    + rewrite IH. intuition.
Qed.

Lemma sorted_set_In (x : string) (l : list string) :
  In x (sorted_set l) <-> In x l.
Proof.
  induction l as [|y l IH]; simpl.
  - tauto.
  - rewrite insert_uniq_In, IH. intuition.
Qed.

Lemma insert_uniq_sorted (x : string) (l : list string) :
  StronglySorted String_as_OT.lt l ->
  StronglySorted String_as_OT.lt (insert_uniq x l).
Proof.
  induction 1 as [|z l Hs IH Hz]; simpl.
  - repeat constructor.
  - destruct (String_as_OT.compare x z) eqn:E.
    + now constructor.
    + constructor; [now constructor|].
      constructor; [exact E|].
      eapply Forall_impl; [|exact Hz].
      intros a Ha. etransitivity; [exact E|exact Ha].
    + constructor; [exact IH|].
      apply Forall_forall. intros a Ha.
      apply insert_uniq_In in Ha. destruct Ha as [->|Ha].
      * now apply compare_gt_lt.
      * rewrite Forall_forall in Hz. now apply Hz.
Qed.

Lemma sorted_set_sorted (l : list string) :
  StronglySorted String_as_OT.lt (sorted_set l).
Proof.
  induction l; simpl; [constructor | now apply insert_uniq_sorted].
Qed.

Lemma strictly_sorted_NoDup (l : list string) :
  StronglySorted String_as_OT.lt l -> NoDup l.
Proof.
  induction 1 as [|z l Hs IH Hz]; constructor; auto.
  intro Hin. rewrite Forall_forall in Hz. specialize (Hz _ Hin).
  exact (irreflexivity Hz).
Qed.

(** *** [sub in s] and [str.upper] *)

Lemma prefix_app (a s : string) :
  String.prefix a s = true <-> exists post, s = (a ++ post)%string.
Proof.
  revert s. induction a as [|c a IH]; intros s; simpl.
  - destruct s; split; eauto.
  - destruct s as [|d s]; simpl.
    + split; [discriminate | intros [post H]; discriminate].
    + destruct (ascii_dec c d) as [->|Hne].
      * rewrite IH. split; intros [post H]; exists post; congruence.
      * split; [discriminate | intros [post H]; congruence].
Qed.

Lemma contains_app (sub s : string) :
  contains sub s = true <->
  exists pre post, s = (pre ++ sub ++ post)%string.
Proof.
  induction s as [|c s IH]; cbn [contains].
  - rewrite orb_false_r, prefix_app. split.
    + intros [post H]. now exists EmptyString, post.
    + intros [[|d pre] [post H]]; [now exists post | discriminate].
  - rewrite orb_true_iff, prefix_app, IH. split.
    + intros [[post H] | [pre [post H]]].
      * now exists EmptyString, post.
      * exists (String c pre), post. simpl. now rewrite H.
    + intros [[|d pre] [post H]].
      * left. now exists post.
      * right. exists pre, post. simpl in H. congruence.
Qed.

Lemma append_assoc (a b c : string) :
  ((a ++ b) ++ c = a ++ (b ++ c))%string.
Proof. induction a as [|x a IH]; simpl; [reflexivity | now rewrite IH]. Qed.

Lemma prefix_nil (s : string) : String.prefix "" s = true.
Proof. now destruct s. Qed.

Lemma prefix_cons (a b : ascii) (x y : string) :
  String.prefix (String a x) (String b y) = Ascii.eqb a b && String.prefix x y.
Proof.
  cbn [String.prefix]. destruct (ascii_dec a b) as [->|Hne].
  - now rewrite Ascii.eqb_refl.
  - apply Ascii.eqb_neq in Hne. now rewrite Hne.
Qed.

Lemma upper_char_letter (c : ascii) (U l : ascii) :
  In (U, l) [("P", "p"); ("R", "r"); ("E", "e"); ("M", "m");
             ("I", "i"); ("U", "u")]%char ->
  Ascii.eqb U (upper_char c) = Ascii.eqb U c || Ascii.eqb l c.
Proof.
  intros H.
  destruct c as [[] [] [] [] [] [] [] []];
    repeat (destruct H as [H|H]; [injection H as <- <-; reflexivity|]);
    destruct H.
Qed.

Lemma upper_of_In (k u : string) :
  upper_of k = Some u -> In (k, u) upper_special.
Proof.
  unfold upper_of. destruct (find _ upper_special) as [[k' u']|] eqn:E;
    [|discriminate].
  apply find_some in E. destruct E as [Hin Hk]. cbn [fst] in Hk.
  apply String.eqb_eq in Hk. subst k'. intros [= <-]. exact Hin.
Qed.

Lemma upper_of_none (k : string) :
  upper_of k = None -> forall u, ~ In (k, u) upper_special.
Proof.
  unfold upper_of. destruct (find _ upper_special) as [[k' u']|] eqn:E;
    [discriminate|].
  intros _ u Hin. pose proof (find_none _ _ E _ Hin) as Hk. cbn [fst] in Hk.
  now rewrite String.eqb_refl in Hk.
Qed.

(** Every special character is two or three bytes long. *)
Lemma upper_special_keys (k u : string) :
  In (k, u) upper_special ->
  exists a b, k = String a (String b "")
              \/ exists c, k = String a (String b (String c "")).
Proof.
  intros H. vm_compute in H.
  repeat (destruct H as [H|H];
          [injection H as <- <-; eexists; eexists;
           first [left; reflexivity | right; eexists; reflexivity]|]).
  destruct H.
Qed.

Lemma prefix_two (a b c d : ascii) (x : string) :
  String.prefix (String a (String b "")) (String c (String d x)) = true ->
  String a (String b "") = String c (String d "").
Proof.
  rewrite !prefix_cons. intros H.
  apply andb_true_iff in H. destruct H as [Ha H].
  apply andb_true_iff in H. destruct H as [Hb _].
  apply Ascii.eqb_eq in Ha, Hb. now subst.
Qed.

Lemma prefix_three (a b c d e f : ascii) (x : string) :
  String.prefix (String a (String b (String c "")))
                (String d (String e (String f x))) = true ->
  String a (String b (String c "")) = String d (String e (String f "")).
Proof.
  rewrite !prefix_cons. intros H.
  apply andb_true_iff in H. destruct H as [Ha H].
  apply andb_true_iff in H. destruct H as [Hb H].
  apply andb_true_iff in H. destruct H as [Hc _].
  apply Ascii.eqb_eq in Ha, Hb, Hc. now subst.
Qed.

(** How [upper] treats the head of a text: nothing, a special character,
    or one byte of another character. *)
Lemma upper_cases (s : string) :
  s = ""
  \/ (exists k u rest,
        In (k, u) upper_special /\ s = (k ++ rest)%string
        /\ upper s = (u ++ upper rest)%string)
  \/ (exists c s1,
        s = String c s1 /\ upper s = String (upper_char c) (upper s1)
        /\ forall k u, In (k, u) upper_special -> String.prefix k s = false).
Proof.
  destruct s as [|c s1]; [now left | right].
  destruct s1 as [|d s2].
  { right. exists c, "". split; [reflexivity|]. split; [reflexivity|].
    intros k u Hin.
    destruct (upper_special_keys k u Hin) as (a & b & [-> | [e ->]]);
      rewrite prefix_cons; cbn [String.prefix]; apply andb_false_r. }
  cbn [upper].
  destruct (upper_of (String c (String d ""))) as [u|] eqn:E2.
  { left. exists (String c (String d "")), u, s2.
    split; [now apply upper_of_In|]. split; reflexivity. }
  destruct s2 as [|e s3].
  { right. exists c, (String d ""). split; [reflexivity|]. split; [reflexivity|].
    intros k u Hin.
    destruct (String.prefix k (String c (String d ""))) eqn:Hp; [|reflexivity].
    destruct (upper_special_keys k u Hin) as (a & b & [-> | [e ->]]).
    - apply prefix_two in Hp. rewrite Hp in Hin.
      now elim (upper_of_none _ E2 u).
    - rewrite !prefix_cons in Hp. cbn [String.prefix] in Hp.
      now rewrite !andb_false_r in Hp. }
  destruct (upper_of (String c (String d (String e "")))) as [u|] eqn:E3.
  { left. exists (String c (String d (String e ""))), u, s3.
    split; [now apply upper_of_In|]. split; reflexivity. }
  right. exists c, (String d (String e s3)).
  split; [reflexivity|]. split; [reflexivity|].
  intros k u Hin.
  destruct (String.prefix k (String c (String d (String e s3)))) eqn:Hp;
    [|reflexivity].
  destruct (upper_special_keys k u Hin) as (a & b & [-> | [f ->]]).
  - apply prefix_two in Hp. rewrite Hp in Hin.
    now elim (upper_of_none _ E2 u).
  - apply prefix_three in Hp. rewrite Hp in Hin.
    now elim (upper_of_none _ E3 u).
Qed.


(** *** Insertion-ordered dictionaries *)

Lemma find_app {A} (p : A -> bool) (l1 l2 : list A) :
  find p (l1 ++ l2)
  = match find p l1 with Some x => Some x | None => find p l2 end.
Proof.
  induction l1 as [|a l1 IH]; simpl; [reflexivity|].
  now destruct (p a).
Qed.

Section Dict.
Context {V : Type}.

Lemma dict_get_set (k k' : string) (v : V) (d : dict V) :
  dict_get k (dict_set k' v d) = if k' =? k then Some v else dict_get k d.
Proof.
  induction d as [|[k0 v0] d IH]; simpl.
  - reflexivity.
  - destruct (k0 =? k') eqn:E0; simpl.
    + apply String.eqb_eq in E0. subst k0.
      now destruct (k' =? k).
    + destruct (k0 =? k) eqn:E1.
      * apply String.eqb_eq in E1. subst k0.
        rewrite String.eqb_sym, E0. reflexivity.
      * exact IH.
Qed.

Lemma dict_set_keys_In (k k' : string) (v : V) (d : dict V) :
  In k (map fst (dict_set k' v d)) <-> k = k' \/ In k (map fst d).
Proof.
  induction d as [|[k0 v0] d IH]; simpl.
  - intuition.
  - destruct (k0 =? k') eqn:E0; simpl.
    + apply String.eqb_eq in E0. subst k0. intuition.
    + rewrite IH. intuition.
Qed.

Lemma dict_set_keys_NoDup (k : string) (v : V) (d : dict V) :
  NoDup (map fst d) -> NoDup (map fst (dict_set k v d)).
Proof.
  induction d as [|[k0 v0] d IH]; simpl; intros H.
  - repeat constructor. intros [].
  - inversion H as [|? ? Hn Hd]; subst.
    destruct (k0 =? k) eqn:E0; simpl.
    + now constructor.
    + constructor; [|now apply IH].
      rewrite dict_set_keys_In. intros [->|Hin]; [|contradiction].
      now rewrite String.eqb_refl in E0.
Qed.

Lemma dict_get_In (k : string) (v : V) (d : dict V) :
  NoDup (map fst d) -> (dict_get k d = Some v <-> In (k, v) d).
Proof.
  induction d as [|[k0 v0] d IH]; simpl; intros H.
  - split; [discriminate | tauto].
  - inversion H as [|? ? Hn Hd]; subst.
    destruct (k0 =? k) eqn:E0.
    + apply String.eqb_eq in E0. subst k0. split.
      * intros [= ->]. now left.
      * intros [[= ->]|Hin]; [reflexivity|].
        exfalso. apply Hn. now apply (in_map fst) in Hin.
    + rewrite (IH Hd). split; [now right|].
      intros [[= -> ->]|Hin]; [|exact Hin].
      now rewrite String.eqb_refl in E0.
Qed.

Variable key : V -> string.

Lemma dict_fold_get (t : string) (l : list V) (d : dict V) :
  dict_get t (fold_left (fun d x => dict_set (key x) x d) l d)
  = match find (fun x => key x =? t) (rev l) with
    | Some x => Some x
    | None => dict_get t d
    end.
Proof.
  revert d. induction l as [|a l IH]; intros d; simpl.
  - reflexivity.
  - rewrite IH, find_app.
    destruct (find (fun x => key x =? t) (rev l)); [reflexivity|].
    simpl. rewrite dict_get_set. now destruct (key a =? t).
Qed.

Lemma dict_by_get (t : string) (l : list V) :
  dict_get t (dict_by key l) = find (fun x => key x =? t) (rev l).
Proof.
  unfold dict_by. rewrite dict_fold_get.
  now destruct (find _ _).
Qed.

Lemma dict_fold_NoDup (l : list V) (d : dict V) :
  NoDup (map fst d) ->
  NoDup (map fst (fold_left (fun d x => dict_set (key x) x d) l d)).
Proof.
  revert d. induction l as [|a l IH]; intros d H; simpl; [exact H|].
  apply IH. now apply dict_set_keys_NoDup.
Qed.

Lemma dict_by_NoDup (l : list V) : NoDup (map fst (dict_by key l)).
Proof. apply dict_fold_NoDup. constructor. Qed.

End Dict.

(** *** [order_by(key.desc()).first()] *)

Section Latest.
Context {A : Type} (key : A -> Z).

Lemma latest_fold_some (l : list A) (b : A) :
  exists x, fold_left (latest_step key) l (Some b) = Some x
            /\ (x = b \/ In x l)
            /\ (key b <= key x)%Z
            /\ Forall (fun y => (key y <= key x)%Z) l.
Proof.
  revert b. induction l as [|a l IH]; intros b; simpl.
  - exists b. repeat split; auto. lia.
  - destruct (key b <? key a)%Z eqn:E.
    + apply Z.ltb_lt in E.
      destruct (IH a) as (x & Hx & Hin & Hle & Hall).
      exists x. repeat split; auto.
      * destruct Hin; auto.
      * lia.
    + apply Z.ltb_ge in E.
      destruct (IH b) as (x & Hx & Hin & Hle & Hall).
      exists x. repeat split; auto.
      * destruct Hin; auto.
      * constructor; [lia | exact Hall].
Qed.

Lemma latest_nil (l : list A) : latest key l = None <-> l = [].
Proof.
  split; [|now intros ->].
  destruct l as [|a l]; [reflexivity|]. unfold latest. simpl.
  destruct (latest_fold_some l a) as (x & Hx & _).
  rewrite Hx. discriminate.
Qed.

Lemma latest_spec (l : list A) (x : A) :
  latest key l = Some x ->
  In x l /\ Forall (fun y => (key y <= key x)%Z) l.
Proof.
  destruct l as [|a l]; [discriminate|]. unfold latest. simpl.
  destruct (latest_fold_some l a) as (x' & Hx & Hin & Hle & Hall).
  rewrite Hx. intros [= <-]. split.
  - destruct Hin; [left; congruence | now right].
  - now constructor.
Qed.

End Latest.

(** *** Floats *)

Lemma eqb_zero_not_gt (v c : float) :
  PrimFloat.eqb v 0%float = true ->
  PrimFloat.ltb 0%float c = true ->
  PrimFloat.ltb c v = false.
Proof.
  rewrite eqb_spec, !ltb_spec.
  change (FloatOps.Prim2SF 0%float) with (S754_zero false).
  destruct (FloatOps.Prim2SF v) as [s| s | | s m e];
    try discriminate; try (destruct s; discriminate).
  intros _.
  destruct (FloatOps.Prim2SF c) as [s'| [|] | | [|] m' e'];
    try discriminate; reflexivity.
Qed.

Lemma float_gt_or_zero (v : float) :
  float_gt (float_or_zero (Some v)) 100000%float = PrimFloat.ltb 100000%float v.
Proof.
  unfold float_gt, float_or_zero.
  destruct (PrimFloat.eqb v 0%float) eqn:E; [|reflexivity].
  symmetry. apply eqb_zero_not_gt; [exact E | reflexivity].
Qed.

End PyFacts.

(* ------------------------------------------------------------------ *)
(** ** The checking pipeline *)
(* ------------------------------------------------------------------ *)

Module CheckingProofs.

Import Py Http Checking CheckingSpec PyFacts.

(** *** Looking an application up *)

Lemma require_found (db : Session) (application_id : UUID)
    (app_obj : CheckingApplication.t) :
  query_application db application_id = Some app_obj ->
  require_checking_application application_id db = (Ok app_obj, db).
Proof.
  intros H. unfold require_checking_application, bind, get. now rewrite H.
Qed.

Lemma require_not_found (db : Session) (application_id : UUID) :
  query_application db application_id = None ->
  exists e, require_checking_application application_id db = (Raise e, db)
            /\ is_not_found e = true.
Proof.
  intros H. unfold require_checking_application, bind, get. rewrite H.
  eexists. split; reflexivity.
Qed.

Lemma query_application_id (db : Session) (application_id : UUID)
    (app_obj : CheckingApplication.t) :
  query_application db application_id = Some app_obj ->
  CheckingApplication.id app_obj = application_id.
Proof.
  intros H. apply find_some in H. now apply N.eqb_eq.
Qed.

(** Unfold an endpoint up to the application it found. *)
Ltac enter H :=
  unfold bind at 1; rewrite (require_found _ _ _ H); cbn beta iota.

(** *** Risk scoring *)

Lemma band_of_LOW (s : Z) : band_of s = LOW <-> (s < 30)%Z.
Proof.
  unfold band_of.
  destruct (s <? 30)%Z eqn:E1; [|destruct (s <? 70)%Z eqn:E2];
    rewrite ?Z.ltb_lt, ?Z.ltb_ge in *; split; intros; try discriminate;
    try reflexivity; lia.
Qed.

Lemma band_of_MEDIUM (s : Z) : band_of s = MEDIUM <-> (30 <= s < 70)%Z.
Proof.
  unfold band_of.
  destruct (s <? 30)%Z eqn:E1; [|destruct (s <? 70)%Z eqn:E2];
    rewrite ?Z.ltb_lt, ?Z.ltb_ge in *; split; intros; try discriminate;
    try reflexivity; lia.
Qed.

Lemma band_of_HIGH (s : Z) : band_of s = HIGH <-> (70 <= s)%Z.
Proof.
  unfold band_of.
  destruct (s <? 30)%Z eqn:E1; [|destruct (s <? 70)%Z eqn:E2];
    rewrite ?Z.ltb_lt, ?Z.ltb_ge in *; split; intros; try discriminate;
    try reflexivity; lia.
Qed.

(** The cash-volume test of the scorer is the comparison of the stored
    value: a null, absent or zero value never exceeds the threshold. *)
Lemma cash_rule (app_obj : CheckingApplication.t) :
  float_gt
    (float_or_zero
       (match dict_get "cash_deposit_volume_per_month"
                match CheckingApplication.usage_profile app_obj with
                | Some (kv :: d) => kv :: d
                | _ => []
                end with
        | Some v => v
        | None => None
        end)) 100000%float
  = high_cash_volume app_obj.
Proof.
  unfold high_cash_volume, cash_deposit_volume_per_month.
  destruct (CheckingApplication.usage_profile app_obj) as [[|kv d]|];
    try reflexivity.
  destruct (dict_get _ _) as [[v|]|]; try reflexivity.
  apply float_gt_or_zero.
Qed.

Lemma industry_rule (b : Business.t) :
  opt_str_in (Business.industry_code b) restricted_industries
  = high_risk_industry b.
Proof.
  unfold high_risk_industry, opt_str_in, str_in, restricted_industries.
  destruct (Business.industry_code b) as [c|]; [|reflexivity].
  simpl. now rewrite orb_false_r.
Qed.

Lemma score_application_risk_run (db : Session) (new_id : UUID) (now : datetime)
    (application_id : UUID) (app_obj : CheckingApplication.t) :
  query_application db application_id = Some app_obj ->
  score_application_risk new_id now application_id db
  = (Ok {| risk_score := spec_risk_score app_obj;
           risk_band := band_of (spec_risk_score app_obj);
           driver_codes := spec_driver_codes app_obj |},
     add_risk_score (risk_entry new_id now app_obj) db).
Proof.
  intros H. unfold score_application_risk. enter H.
  rewrite cash_rule, industry_rule.
  unfold risk_entry, spec_risk_score, spec_driver_codes, new_business.
  destruct (Business.years_in_business (CheckingApplication.business app_obj))
    as [y|]; [destruct (y <? 1)%Z|];
    destruct (high_cash_volume app_obj);
    destruct (high_risk_industry (CheckingApplication.business app_obj));
    reflexivity.
Qed.


(** C4. The score returned and persisted by the risk scorer is 20, plus 30
    for a business younger than one year (NEW_BUSINESS), plus 30 for a
    monthly cash deposit volume above 100000 (HIGH_CASH_VOLUME), plus 20
    for an industry code in the restricted set (HIGH_RISK_INDUSTRY); the
    drivers are those of the rules that fired, or BASELINE alone.
    Persisted: the risk-score table of the session left behind is the
    old one followed by one row, which carries the id and the time of
    the call, the application, and the score, band and drivers of the
    response; the other tables are unchanged. With a cash volume of
    150000, five years in business and industry 1234 the score is 50,
    the band MEDIUM and the drivers are HIGH_CASH_VOLUME. *)
Theorem C4_risk_score_additive (db : Session) (new_id : UUID) (now : datetime)
    (application_id : UUID) (app_obj : CheckingApplication.t) :
  query_application db application_id = Some app_obj ->
  exists resp row db1,
    score_application_risk new_id now application_id db = (Ok resp, db1)
    /\ checking_risk_scores db1 = checking_risk_scores db ++ [row]
    /\ checking_applications db1 = checking_applications db
    /\ checking_owners db1 = checking_owners db
    /\ checking_documents db1 = checking_documents db
    /\ checking_accounts db1 = checking_accounts db
    /\ CheckingRiskScore.id row = new_id
    /\ CheckingRiskScore.created_at row = now
    /\ risk_score resp = spec_risk_score app_obj
    /\ driver_codes resp = spec_driver_codes app_obj
    /\ risk_band resp = band_of (risk_score resp)
    /\ CheckingRiskScore.checking_application_id row = application_id
    /\ CheckingRiskScore.risk_score row = risk_score resp
    /\ CheckingRiskScore.risk_band row = band_text (risk_band resp)
    /\ CheckingRiskScore.driver_codes row = driver_codes resp
    /\ (cash_deposit_volume_per_month app_obj = Some 150000%float ->
        Business.years_in_business (CheckingApplication.business app_obj)
        = Some 5%Z ->
        Business.industry_code (CheckingApplication.business app_obj)
        = Some "1234" ->
        risk_score resp = 50%Z /\ risk_band resp = MEDIUM
        /\ driver_codes resp = ["HIGH_CASH_VOLUME"]).
Proof.
  intros H. eexists. exists (risk_entry new_id now app_obj). eexists.
  split; [apply (score_application_risk_run _ _ _ _ _ H)|].
  cbn [add_risk_score checking_risk_scores checking_applications
       checking_owners checking_documents checking_accounts].
  do 5 (split; [reflexivity|]).
  cbn [risk_score driver_codes risk_band risk_entry
       CheckingRiskScore.id CheckingRiskScore.created_at
       CheckingRiskScore.checking_application_id CheckingRiskScore.risk_score
       CheckingRiskScore.risk_band CheckingRiskScore.driver_codes].
  split; [reflexivity|]. split; [reflexivity|].
  split; [reflexivity|]. split; [reflexivity|]. split; [reflexivity|].
  split; [now apply query_application_id with db|].
  split; [reflexivity|]. split; [reflexivity|]. split; [reflexivity|].
  intros Hc Hy Hi.
  unfold spec_risk_score, spec_driver_codes, new_business, high_cash_volume,
    high_risk_industry.
  rewrite Hc, Hy, Hi. repeat split.
Qed.

Lemma C4_risk_score_additive_witness :
  exists resp row db1,
    score_application_risk 99%N 1000%Z 7%N Samples.scenario_db = (Ok resp, db1)
    /\ checking_risk_scores db1 = [row]
    /\ risk_score resp = 50%Z /\ risk_band resp = MEDIUM
    /\ driver_codes resp = ["HIGH_CASH_VOLUME"]
    /\ CheckingRiskScore.risk_score row = 50%Z.
Proof.
  destruct (C4_risk_score_additive Samples.scenario_db 99%N 1000%Z 7%N
              Samples.scenario_app eq_refl)
    as (resp & row & db1 & Hrun & Hrows & _ & _ & _ & _ & _ & _ & _ & _ & _ & _
        & Hrow & _ & _ & Hsc).
  destruct (Hsc eq_refl eq_refl eq_refl) as (H1 & H2 & H3).
  exists resp, row, db1. rewrite Hrow, H1. repeat split; assumption.
Defined.

(** C5. The band follows the score with thresholds at 30 and 70: LOW
    exactly below 30, MEDIUM exactly from 30 to 69, HIGH exactly from 70;
    so 29 is LOW, 30 and 69 are MEDIUM, 70 is HIGH; and the band the
    scorer returns and persists is the band of the score it returns. *)
Theorem C5_risk_band_boundaries :
  (forall s, band_of s = LOW <-> (s < 30)%Z)
  /\ (forall s, band_of s = MEDIUM <-> (30 <= s < 70)%Z)
  /\ (forall s, band_of s = HIGH <-> (70 <= s)%Z)
  /\ band_of 29 = LOW /\ band_of 30 = MEDIUM
  /\ band_of 69 = MEDIUM /\ band_of 70 = HIGH
  /\ (forall db new_id now application_id app_obj,
        query_application db application_id = Some app_obj ->
        exists resp row,
          score_application_risk new_id now application_id db
          = (Ok resp, add_risk_score row db)
          /\ risk_band resp = band_of (risk_score resp)
          /\ CheckingRiskScore.risk_band row
             = band_text (band_of (CheckingRiskScore.risk_score row))).
Proof.
  split; [exact band_of_LOW|]. split; [exact band_of_MEDIUM|].
  split; [exact band_of_HIGH|]. do 4 (split; [reflexivity|]).
  intros db new_id now application_id app_obj H.
  eexists. exists (risk_entry new_id now app_obj).
  split; [apply (score_application_risk_run _ _ _ _ _ H)|].
  split; reflexivity.
Qed.

Lemma C5_risk_band_boundaries_witness :
  exists resp row,
    score_application_risk 99%N 1000%Z 7%N Samples.scenario_db
    = (Ok resp, add_risk_score row Samples.scenario_db)
    /\ risk_band resp = band_of (risk_score resp)
    /\ CheckingRiskScore.risk_band row
       = band_text (band_of (CheckingRiskScore.risk_score row)).
Proof.
  destruct C5_risk_band_boundaries as (_ & _ & _ & _ & _ & _ & _ & H).
  exact (H Samples.scenario_db 99%N 1000%Z 7%N Samples.scenario_app eq_refl).
Defined.

(** *** Product eligibility *)

(** The match of PREMIUM, as a test and as a statement. *)

Lemma skip_app (a s : string) : skip (String.length a) (a ++ s) = s.
Proof. induction a as [|c a IH]; simpl; [now destruct s | exact IH]. Qed.

Lemma spelled_at_spec (spellings : list (list string)) (s : string) :
  spelled_at spellings s = true
  <-> exists letters post,
        s = (fold_right String.append "" letters ++ post)%string
        /\ Forall2 (fun ways w => In w ways) spellings letters.
Proof.
  revert s. induction spellings as [|ways rest IH]; intros s; cbn [spelled_at].
  - split; [intros _; exists [], s; split; [reflexivity | constructor]|].
    reflexivity.
  - rewrite existsb_exists. split.
    + intros (w & Hw & Hm). apply andb_true_iff in Hm. destruct Hm as [Hp Hr].
      apply prefix_app in Hp. destruct Hp as [post0 ->].
      rewrite skip_app in Hr. apply IH in Hr.
      destruct Hr as (letters & post & -> & Hall).
      exists (w :: letters), post. split.
      * cbn [fold_right]. now rewrite append_assoc.
      * now constructor.
    + intros (letters & post & -> & Hall).
      inversion Hall as [|ways' w rest' letters' Hw Hrest]; subst.
      exists w. split; [exact Hw|].
      cbn [fold_right]. rewrite append_assoc. apply andb_true_iff. split.
      * apply prefix_app. eauto.
      * rewrite skip_app. apply IH. eauto.
Qed.

Lemma spelled_in_spec (spellings : list (list string)) (s : string) :
  spelled_in spellings s = true
  <-> exists pre letters post,
        s = (pre ++ fold_right String.append "" letters ++ post)%string
        /\ Forall2 (fun ways w => In w ways) spellings letters.
Proof.
  induction s as [|c s IH]; cbn [spelled_in].
  - rewrite orb_false_r, spelled_at_spec. split.
    + intros (letters & post & H & Hall). now exists "", letters, post.
    + intros ([|d pre] & letters & post & H & Hall); [|discriminate].
      now exists letters, post.
  - rewrite orb_true_iff, spelled_at_spec, IH. split.
    + intros [(letters & post & H & Hall) | (pre & letters & post & H & Hall)].
      * now exists "", letters, post.
      * exists (String c pre), letters, post. split; [|exact Hall].
        cbn [String.append]. now rewrite H.
    + intros ([|d pre] & letters & post & H & Hall).
      * left. now exists letters, post.
      * right. cbn [String.append] in H. injection H as _ H.
        now exists pre, letters, post.
Qed.

(** One letter of the needle against the head of the upper-cased text. *)
Lemma prefix_upper_letter (U l : ascii) (needle : string)
    (spellings : list (list string)) :
  In (U, l) [("P", "p"); ("R", "r"); ("E", "e"); ("M", "m"); ("U", "u")]%char ->
  (forall s, String.prefix needle (upper s) = spelled_at spellings s) ->
  forall s,
    String.prefix (String U needle) (upper s)
    = spelled_at ([String U ""; String l ""] :: spellings) s.
Proof.
  intros HL IH s.
  destruct (upper_cases s)
    as [-> | [(k & u & rest & Hin & -> & ->) | (c & s1 & -> & -> & _)]].
  - reflexivity.
  - vm_compute in Hin.
    repeat (destruct HL as [HL|HL]; [injection HL as <- <-|]);
      try (destruct HL);
      repeat (destruct Hin as [Hin|Hin];
              [injection Hin as <- <-; vm_compute; reflexivity|]);
      destruct Hin.
  - cbn [spelled_at existsb String.length skip].
    rewrite !prefix_cons, !prefix_nil, !andb_true_r, orb_false_r.
    rewrite IH, (upper_char_letter c U l).
    + now destruct (Ascii.eqb U c), (Ascii.eqb l c),
        (spelled_at spellings s1).
    + simpl in HL |- *. tauto.
Qed.

Lemma prefix_upper_i (needle : string) (spellings : list (list string)) :
  (forall s, String.prefix needle (upper s) = spelled_at spellings s) ->
  forall s,
    String.prefix (String "I" needle) (upper s)
    = spelled_at (["I"; "i"; dotless_i] :: spellings) s.
Proof.
  intros IH s.
  destruct (upper_cases s)
    as [-> | [(k & u & rest & Hin & -> & ->) | (c & s1 & -> & -> & Hkeys)]].
  - reflexivity.
  - vm_compute in Hin.
    destruct Hin as [Hin|Hin]; [injection Hin as <- <-; vm_compute; reflexivity|].
    destruct Hin as [Hin|Hin].
    { injection Hin as <- <-.
      change dotless_i with (String "196" (String "177" "")).
      cbn [spelled_at existsb String.append String.length skip].
      rewrite !prefix_cons, !prefix_nil.
      cbn [Ascii.eqb Bool.eqb andb orb]. rewrite orb_false_r.
      apply IH. }
    repeat (destruct Hin as [Hin|Hin];
            [injection Hin as <- <-; vm_compute; reflexivity|]).
    destruct Hin.
  - cbn [spelled_at existsb String.length skip].
    rewrite (Hkeys dotless_i "I") by (vm_compute; tauto).
    rewrite !prefix_cons, !prefix_nil, !andb_true_r, !orb_false_r.
    rewrite IH, (upper_char_letter c "I" "i").
    + now destruct (Ascii.eqb "I" c), (Ascii.eqb "i" c),
        (spelled_at spellings s1).
    + simpl. tauto.
Qed.

Lemma prefix_premium (s : string) :
  String.prefix "PREMIUM" (upper s) = spelled_at premium_spellings s.
Proof.
  revert s. unfold premium_spellings.
  apply (prefix_upper_letter "P" "p"); [simpl; tauto|].
  apply (prefix_upper_letter "R" "r"); [simpl; tauto|].
  apply (prefix_upper_letter "E" "e"); [simpl; tauto|].
  apply (prefix_upper_letter "M" "m"); [simpl; tauto|].
  apply prefix_upper_i.
  apply (prefix_upper_letter "U" "u"); [simpl; tauto|].
  apply (prefix_upper_letter "M" "m"); [simpl; tauto|].
  intros s. apply prefix_nil.
Qed.


Lemma contains_skip (needle x : string) (a : ascii) :
  Ascii.eqb "P" a = false ->
  contains (String "P" needle) (String a x) = contains (String "P" needle) x.
Proof.
  intros Ha. cbn [contains]. now rewrite prefix_cons, Ha.
Qed.

Lemma spelled_in_skip (x : string) (a : ascii) :
  Ascii.eqb "P" a = false -> Ascii.eqb "p" a = false ->
  spelled_in premium_spellings (String a x) = spelled_in premium_spellings x.
Proof.
  intros HP Hp. cbn [spelled_in]. unfold premium_spellings at 1.
  cbn [spelled_at existsb]. now rewrite !prefix_cons, HP, Hp.
Qed.

Lemma contains_premium_bounded (n : nat) (s : string) :
  String.length s <= n ->
  contains "PREMIUM" (upper s) = spelled_in premium_spellings s.
Proof.
  revert s. induction n as [|n IH]; intros s Hlen.
  - destruct s; [reflexivity | simpl in Hlen; lia].
  - destruct (upper_cases s)
      as [-> | [(k & u & rest & Hin & -> & Hup) | (c & s1 & -> & Hup & _)]].
    + reflexivity.
    + rewrite Hup. vm_compute in Hin.
      repeat (destruct Hin as [Hin|Hin];
              [injection Hin as <- <-; cbn [String.append];
               rewrite !contains_skip by reflexivity;
               rewrite !spelled_in_skip by reflexivity;
               apply IH; simpl in Hlen; lia|]).
      destruct Hin.
    + cbn [spelled_in]. rewrite <- prefix_premium, Hup. cbn [contains].
      f_equal. apply IH. simpl in Hlen. lia.
Qed.

Lemma contains_premium (s : string) :
  contains "PREMIUM" (upper s) = spelled_in premium_spellings s.
Proof. now apply (contains_premium_bounded (String.length s)). Qed.

(** The PREMIUM test of the code is the case-insensitive match. *)
Lemma premium_test (product_id : string) :
  contains "PREMIUM" (upper product_id) = true <-> premium_requested product_id.
Proof.
  rewrite contains_premium. apply spelled_in_spec.
Qed.

Lemma evaluate_product_eligibility_run (db : Session)
    (payload : EvaluateProductEligibilityRequest)
    (app_obj : CheckingApplication.t) :
  query_application db (epe_application_id payload) = Some app_obj ->
  let b := CheckingApplication.business app_obj in
  let industry := high_risk_industry b in
  let age := new_business b && contains "PREMIUM" (upper (epe_product_id payload)) in
  evaluate_product_eligibility payload db
  = (Ok {| eligible := negb (industry || age);
           reason_codes :=
             (if industry then ["INDUSTRY_NOT_ALLOWED"] else [])
             ++ (if age then ["MIN_AGE_OF_BUSINESS_NOT_MET"] else []) |},
     db).
Proof.
  intros H b industry age. unfold evaluate_product_eligibility. enter H.
  rewrite industry_rule. subst industry age b. unfold new_business.
  destruct (high_risk_industry (CheckingApplication.business app_obj));
    destruct (match Business.years_in_business _ with Some _ => _ | None => _ end
              && contains "PREMIUM" (upper (epe_product_id payload)));
    reflexivity.
Qed.

(** C8. With zero years in business, industry 9999 and the product
    PREMIUM_CHECKING, the product is not eligible and both
    INDUSTRY_NOT_ALLOWED and MIN_AGE_OF_BUSINESS_NOT_MET are given. In
    general the product is ineligible exactly when a reason code was
    added, and the age rule tests PREMIUM as a case-insensitive substring
    of the requested product identifier: the code is given exactly when
    the business is younger than one year and a contiguous part of the
    identifier spells P, R, E, M, I, U, M, each as a capital or a small
    letter, the I also as the dotless small i. *)
Theorem C8_product_eligibility (db : Session)
    (payload : EvaluateProductEligibilityRequest)
    (app_obj : CheckingApplication.t) :
  query_application db (epe_application_id payload) = Some app_obj ->
  let b := CheckingApplication.business app_obj in
  exists resp,
    evaluate_product_eligibility payload db = (Ok resp, db)
    /\ (eligible resp = false <-> reason_codes resp <> [])
    /\ (In "INDUSTRY_NOT_ALLOWED" (reason_codes resp)
        <-> high_risk_industry b = true)
    /\ (In "MIN_AGE_OF_BUSINESS_NOT_MET" (reason_codes resp)
        <-> new_business b = true /\ premium_requested (epe_product_id payload))
    /\ (Business.years_in_business b = Some 0%Z ->
        Business.industry_code b = Some "9999" ->
        epe_product_id payload = "PREMIUM_CHECKING" ->
        eligible resp = false
        /\ In "INDUSTRY_NOT_ALLOWED" (reason_codes resp)
        /\ In "MIN_AGE_OF_BUSINESS_NOT_MET" (reason_codes resp)).
Proof.
  intros H b. eexists.
  split; [apply (evaluate_product_eligibility_run _ _ _ H)|].
  fold b. cbn [eligible reason_codes].
  rewrite <- premium_test.
  split; [|split; [|split]].
  - destruct (high_risk_industry b), (new_business b),
      (contains "PREMIUM" (upper (epe_product_id payload)));
      simpl; split; intros; congruence.
  - destruct (high_risk_industry b), (new_business b),
      (contains "PREMIUM" (upper (epe_product_id payload)));
      simpl; split; intros; try congruence; intuition congruence.
  - destruct (high_risk_industry b), (new_business b),
      (contains "PREMIUM" (upper (epe_product_id payload)));
      simpl; split; intros; try congruence; intuition congruence.
  - intros Hy Hi Hp. unfold high_risk_industry, new_business.
    rewrite Hy, Hi, Hp. simpl. auto.
Qed.


Lemma C8_product_eligibility_witness :
  (exists resp,
      evaluate_product_eligibility Samples.premium_request
        Samples.young_restricted_db
      = (Ok resp, Samples.young_restricted_db)
      /\ eligible resp = false
      /\ In "INDUSTRY_NOT_ALLOWED" (reason_codes resp)
      /\ In "MIN_AGE_OF_BUSINESS_NOT_MET" (reason_codes resp))
  /\ (exists resp,
         evaluate_product_eligibility Samples.small_letters_request
           Samples.young_restricted_db
         = (Ok resp, Samples.young_restricted_db)
         /\ In "MIN_AGE_OF_BUSINESS_NOT_MET" (reason_codes resp))
  /\ (exists resp,
         evaluate_product_eligibility Samples.dotless_request
           Samples.young_restricted_db
         = (Ok resp, Samples.young_restricted_db)
         /\ In "MIN_AGE_OF_BUSINESS_NOT_MET" (reason_codes resp)).
Proof.
  split; [|split].
  - destruct (C8_product_eligibility Samples.young_restricted_db
                Samples.premium_request Samples.young_restricted_app eq_refl)
      as (resp & Hrun & _ & _ & _ & Hsc).
    exists resp. split; [exact Hrun | exact (Hsc eq_refl eq_refl eq_refl)].
  - destruct (C8_product_eligibility Samples.young_restricted_db
                Samples.small_letters_request Samples.young_restricted_app
                eq_refl)
      as (resp & Hrun & _ & _ & Hage & _).
    exists resp. split; [exact Hrun|]. apply Hage. split; [reflexivity|].
    exists "smb-", ["p"; "r"; "e"; "m"; "i"; "u"; "m"], "-plus".
    split; [reflexivity|].
    repeat (constructor; [simpl; tauto|]). constructor.
  - destruct (C8_product_eligibility Samples.young_restricted_db
                Samples.dotless_request Samples.young_restricted_app eq_refl)
      as (resp & Hrun & _ & _ & Hage & _).
    exists resp. split; [exact Hrun|]. apply Hage. split; [reflexivity|].
    exists "", ["P"; "r"; "e"; "m"; dotless_i; "u"; "m"], "".
    split; [reflexivity|].
    repeat (constructor; [simpl; tauto|]). constructor.
Defined.

(** C10. A business whose years_in_business is absent is never treated as
    younger than one year: product eligibility never gives
    MIN_AGE_OF_BUSINESS_NOT_MET, whatever product is requested, and the
    risk scorer gives neither the NEW_BUSINESS driver nor its 30 points. *)
Theorem C10_absent_age_is_not_new (db : Session) (app_obj : CheckingApplication.t) :
  Business.years_in_business (CheckingApplication.business app_obj) = None ->
  (forall payload,
      query_application db (epe_application_id payload) = Some app_obj ->
      exists resp,
        evaluate_product_eligibility payload db = (Ok resp, db)
        /\ ~ In "MIN_AGE_OF_BUSINESS_NOT_MET" (reason_codes resp))
  /\ (forall new_id now application_id,
         query_application db application_id = Some app_obj ->
         exists resp row,
           score_application_risk new_id now application_id db
           = (Ok resp, add_risk_score row db)
           /\ ~ In "NEW_BUSINESS" (driver_codes resp)
           /\ ~ In "NEW_BUSINESS" (CheckingRiskScore.driver_codes row)
           /\ risk_score resp
              = (20 + (if high_cash_volume app_obj then 30 else 0)
                    + (if high_risk_industry (CheckingApplication.business app_obj)
                       then 20 else 0))%Z
           /\ CheckingRiskScore.risk_score row = risk_score resp).
Proof.
  intros Hnone. split.
  - intros payload H. eexists.
    split; [apply (evaluate_product_eligibility_run _ _ _ H)|].
    cbn [reason_codes]. unfold new_business. rewrite Hnone. simpl.
    destruct (high_risk_industry _); simpl; intuition congruence.
  - intros new_id now application_id H.
    eexists. exists (risk_entry new_id now app_obj).
    split; [apply (score_application_risk_run _ _ _ _ _ H)|].
    cbn [driver_codes risk_score risk_entry CheckingRiskScore.driver_codes
         CheckingRiskScore.risk_score].
    assert (Hd : ~ In "NEW_BUSINESS" (spec_driver_codes app_obj)).
    { unfold spec_driver_codes, new_business. rewrite Hnone.
      destruct (high_cash_volume app_obj), (high_risk_industry _);
        simpl; intuition congruence. }
    split; [exact Hd|]. split; [exact Hd|]. split; [|reflexivity].
    unfold spec_risk_score, new_business. now rewrite Hnone.
Qed.

Lemma C10_absent_age_is_not_new_witness :
  (exists resp,
      evaluate_product_eligibility Samples.premium_request Samples.ageless_db
      = (Ok resp, Samples.ageless_db)
      /\ ~ In "MIN_AGE_OF_BUSINESS_NOT_MET" (reason_codes resp))
  /\ (exists resp row,
         score_application_risk 99%N 1000%Z 7%N Samples.ageless_db
         = (Ok resp, add_risk_score row Samples.ageless_db)
         /\ ~ In "NEW_BUSINESS" (driver_codes resp)
         /\ risk_score resp = 70%Z).
Proof.
  destruct (C10_absent_age_is_not_new Samples.ageless_db Samples.ageless_app
              eq_refl) as (He & Hs).
  split.
  - exact (He Samples.premium_request eq_refl).
  - destruct (Hs 99%N 1000%Z 7%N eq_refl) as (resp & row & Hrun & Hd & _ & Hsc & _).
    exists resp, row. repeat split; assumption.
Defined.

(** *** Completeness *)

Lemma owner_missing_In (c : string) (o : CheckingOwner.t) (acc : list string) :
  In c (owner_missing acc o) ->
  In c acc \/ In c ["OWNER_DOB"; "OWNER_ID_NUMBER"; "OWNERSHIP_PERCENTAGE"].
Proof.
  unfold owner_missing.
  destruct (negb (truthy_obj (CheckingOwner.dob o)));
    destruct (negb (truthy_str (CheckingOwner.national_id o)));
    destruct (CheckingOwner.ownership_percentage o);
    rewrite ?in_app_iff; simpl; intuition.
Qed.

Lemma owners_missing_In (c : string) (os : list CheckingOwner.t)
    (acc : list string) :
  In c (fold_left owner_missing os acc) ->
  In c acc \/ In c ["OWNER_DOB"; "OWNER_ID_NUMBER"; "OWNERSHIP_PERCENTAGE"].
Proof.
  revert acc. induction os as [|o os IH]; intros acc H; simpl in H.
  - now left.
  - destruct (IH _ H) as [H'|H']; [|now right].
    now apply owner_missing_In in H'.
Qed.

Lemma length_eqb_0 {A} (l : list A) : Nat.eqb (List.length l) 0 = true <-> l = [].
Proof. destruct l; simpl; split; congruence. Qed.

(** C7. With no owner the completeness check cannot proceed and reports
    OWNERS_MISSING. In general the returned codes are sorted in strictly
    increasing lexical order, hence without duplicates; can_proceed is
    true exactly when there is no code; and the fixed comment is attached
    exactly when can_proceed is false. *)
Theorem C7_completeness (db : Session) (application_id : UUID)
    (app_obj : CheckingApplication.t) :
  query_application db application_id = Some app_obj ->
  exists resp,
    evaluate_application_completeness application_id db = (Ok resp, db)
    /\ (owners db app_obj = [] ->
        can_proceed resp = false
        /\ In "OWNERS_MISSING" (missing_field_codes resp))
    /\ (In "OWNERS_MISSING" (missing_field_codes resp) ->
        owners db app_obj = [])
    /\ StronglySorted String_as_OT.lt (missing_field_codes resp)
    /\ NoDup (missing_field_codes resp)
    /\ (can_proceed resp = true <-> missing_field_codes resp = [])
    /\ (can_proceed resp = false <->
        comments resp
        = Some "Mandatory fields missing; cannot proceed without user interaction.")
    /\ (can_proceed resp = true <-> comments resp = None).
Proof.
  intros H. unfold evaluate_application_completeness. enter H.
  unfold bind, get, ret. cbn beta iota zeta.
  match goal with
  | |- context [sorted_set ?r] => set (raw := r)
  end.
  eexists. split; [reflexivity|].
  cbn [can_proceed missing_field_codes comments].
  assert (Hown : In "OWNERS_MISSING" raw <-> owners db app_obj = []).
  { subst raw.
    destruct (owners db app_obj) as [|o os] eqn:Eo.
    - split; [reflexivity|]. intros _.
      destruct (negb (truthy_list _)); rewrite ?in_app_iff; simpl; tauto.
    - split; [|discriminate]. intros Hin. exfalso.
      match type of Hin with
      | context [fold_left owner_missing ?l ?m] =>
          assert (Hin' : In "OWNERS_MISSING" (fold_left owner_missing l m))
      end.
      { destruct (negb (truthy_list _)); rewrite ?in_app_iff in Hin;
          simpl in Hin; intuition congruence. }
      apply owners_missing_In in Hin'.
      destruct Hin' as [Hin'|Hin']; [|simpl in Hin'; intuition congruence].
      destruct (negb (truthy_str (Business.address _)));
        destruct (negb (truthy_str (Business.tax_id _)));
        simpl in Hin'; intuition congruence. }
  split; [|split; [|split; [|split; [|split; [|split]]]]].
  - intros Ho. apply Hown in Ho. apply (sorted_set_In _ raw) in Ho.
    split; [|exact Ho].
    destruct (sorted_set raw); [destruct Ho | reflexivity].
  - intros Hin. apply Hown. now apply sorted_set_In.
  - apply sorted_set_sorted.
  - apply strictly_sorted_NoDup, sorted_set_sorted.
  - apply length_eqb_0.
  - destruct (Nat.eqb (List.length (sorted_set raw)) 0); split; congruence.
  - destruct (Nat.eqb (List.length (sorted_set raw)) 0); split; congruence.
Qed.

Lemma C7_completeness_witness :
  exists resp,
    evaluate_application_completeness 7%N Samples.scenario_db
    = (Ok resp, Samples.scenario_db)
    /\ can_proceed resp = false
    /\ In "OWNERS_MISSING" (missing_field_codes resp).
Proof.
  destruct (C7_completeness Samples.scenario_db 7%N Samples.scenario_app eq_refl)
    as (resp & Hrun & Hown & _).
  exists resp. split; [exact Hrun | exact (Hown eq_refl)].
Defined.

(** *** Documents *)

Lemma document_step_eq (acc : list string * list string)
    (item : string * CheckingDocument.t) :
  document_step acc item
  = if rejected item
    then (fst acc ++ [fst item], snd acc ++ codes_of (snd item))
    else acc.
Proof.
  destruct acc as [inv rc], item as [dt doc].
  unfold document_step, rejected, codes_of. simpl.
  destruct (CheckingDocument.status doc =? "REJECTED"); [|reflexivity].
  destruct (CheckingDocument.reason_codes doc) as [[|c cs]|];
    rewrite ?app_nil_r; reflexivity.
Qed.

Lemma document_fold (d : dict CheckingDocument.t) (inv rc : list string) :
  fold_left document_step d (inv, rc)
  = (inv ++ map fst (filter rejected d),
     rc ++ flat_map (fun it => codes_of (snd it)) (filter rejected d)).
Proof.
  revert inv rc. induction d as [|item d IH]; intros inv rc.
  - simpl. now rewrite !app_nil_r.
  - cbn [fold_left filter]. rewrite document_step_eq.
    destruct (rejected item); cbn [fst snd map flat_map].
    + rewrite IH, <- !app_assoc. reflexivity.
    + apply IH.
Qed.

Lemma NoDup_keys_filter {V} (p : string * V -> bool) (d : dict V) :
  NoDup (map fst d) -> NoDup (map fst (filter p d)).
Proof.
  induction d as [|[k v] d IH]; simpl; intros H; [constructor|].
  inversion H as [|? ? Hn Hd]; subst.
  destruct (p (k, v)); simpl; [|now apply IH].
  constructor; [|now apply IH].
  rewrite in_map_iff. intros ([k' v'] & Hk & Hin). simpl in Hk. subst k'.
  apply filter_In in Hin. apply Hn. rewrite in_map_iff.
  exists (k, v'). tauto.
Qed.

Lemma find_all_false {A} (p : A -> bool) (l : list A) :
  (forall x, In x l -> p x = false) -> find p l = None.
Proof.
  induction l as [|a l IH]; simpl; intros H; [reflexivity|].
  rewrite (H a) by now left. apply IH. intros x Hx. apply H. now right.
Qed.

Lemma last_of_type_app (l l3 : list CheckingDocument.t) (d : CheckingDocument.t) :
  (forall x, In x l3 -> CheckingDocument.doc_type x <> CheckingDocument.doc_type d) ->
  last_of_type (CheckingDocument.doc_type d) (l ++ d :: l3) = Some d.
Proof.
  intros Hl3. unfold last_of_type.
  rewrite rev_app_distr. simpl. rewrite <- app_assoc, find_app.
  rewrite find_all_false.
  - simpl. now rewrite String.eqb_refl.
  - intros x Hx. apply in_rev in Hx. apply String.eqb_neq. now apply Hl3.
Qed.

(** The entries of [docs_by_type] are the last documents of their
    types. *)
Lemma docs_by_type_In (docs : list CheckingDocument.t) (t : string)
    (d : CheckingDocument.t) :
  In (t, d) (dict_by CheckingDocument.doc_type docs)
  <-> last_of_type t docs = Some d.
Proof.
  rewrite <- dict_get_In by apply dict_by_NoDup.
  now rewrite dict_by_get.
Qed.

Lemma evaluate_documents_run (db : Session) (application_id : UUID)
    (app_obj : CheckingApplication.t) :
  query_application db application_id = Some app_obj ->
  let d := dict_by CheckingDocument.doc_type (documents db app_obj) in
  let missing := filter (fun t => negb (dict_mem t d)) required in
  let invalid := map fst (filter rejected d) in
  evaluate_document_set_for_application application_id db
  = (Ok {| docs_ok := Nat.eqb (List.length missing) 0
                      && Nat.eqb (List.length invalid) 0;
           missing_doc_types := missing;
           invalid_doc_types := invalid;
           doc_reason_codes :=
             sorted_set (flat_map (fun it => codes_of (snd it))
                                  (filter rejected d)) |},
     db).
Proof.
  intros H d missing invalid.
  unfold evaluate_document_set_for_application. enter H.
  unfold bind, get, ret. cbn beta iota zeta.
  fold d. rewrite document_fold. reflexivity.
Qed.

Lemma invalid_In (docs : list CheckingDocument.t) (t : string) :
  In t (map fst (filter rejected (dict_by CheckingDocument.doc_type docs)))
  <-> exists d, last_of_type t docs = Some d
                /\ CheckingDocument.status d = "REJECTED".
Proof.
  rewrite in_map_iff. split.
  - intros ([t' d] & Ht & Hin). simpl in Ht. subst t'.
    apply filter_In in Hin. destruct Hin as [Hin Hrej].
    exists d. split; [now apply docs_by_type_In|].
    now apply String.eqb_eq.
  - intros (d & Hlast & Hst). exists (t, d). split; [reflexivity|].
    apply filter_In. split; [now apply docs_by_type_In|].
    unfold rejected. simpl. now apply String.eqb_eq.
Qed.

Lemma reason_codes_In (docs : list CheckingDocument.t) (c : string) :
  In c (sorted_set
          (flat_map (fun it => codes_of (snd it))
             (filter rejected (dict_by CheckingDocument.doc_type docs))))
  <-> exists t d, last_of_type t docs = Some d
                  /\ CheckingDocument.status d = "REJECTED"
                  /\ In c (codes_of d).
Proof.
  rewrite sorted_set_In, in_flat_map. split.
  - intros ([t d] & Hin & Hc). simpl in Hc.
    apply filter_In in Hin. destruct Hin as [Hin Hrej].
    exists t, d. split; [now apply docs_by_type_In|].
    split; [now apply String.eqb_eq | exact Hc].
  - intros (t & d & Hlast & Hst & Hc). exists (t, d). split; [|exact Hc].
    apply filter_In. split; [now apply docs_by_type_In|].
    unfold rejected. simpl. now apply String.eqb_eq.
Qed.

(** C9. The document evaluator looks at one document per doc_type, the one
    occurring last among the application's documents: a type is invalid
    exactly when its last document is REJECTED, every aggregated reason
    code comes from such a last document, no type is listed twice, and a
    later document of a type that is not REJECTED masks any earlier
    document of that type. *)
Theorem C9_last_document_per_type (db : Session) (application_id : UUID)
    (app_obj : CheckingApplication.t) :
  query_application db application_id = Some app_obj ->
  let docs := documents db app_obj in
  exists resp,
    evaluate_document_set_for_application application_id db = (Ok resp, db)
    /\ NoDup (invalid_doc_types resp)
    /\ (forall t,
           In t (invalid_doc_types resp)
           <-> exists d, last_of_type t docs = Some d
                         /\ CheckingDocument.status d = "REJECTED")
    /\ (forall c,
           In c (doc_reason_codes resp)
           <-> exists t d, last_of_type t docs = Some d
                           /\ CheckingDocument.status d = "REJECTED"
                           /\ In c (codes_of d))
    /\ (forall l1 d1 l2 d2 l3,
           docs = l1 ++ d1 :: l2 ++ d2 :: l3 ->
           CheckingDocument.doc_type d1 = CheckingDocument.doc_type d2 ->
           (forall x, In x l3 ->
                      CheckingDocument.doc_type x <> CheckingDocument.doc_type d2) ->
           CheckingDocument.status d2 <> "REJECTED" ->
           ~ In (CheckingDocument.doc_type d1) (invalid_doc_types resp)
           /\ forall c, In c (doc_reason_codes resp) ->
                exists t d, t <> CheckingDocument.doc_type d1
                            /\ last_of_type t docs = Some d
                            /\ CheckingDocument.status d = "REJECTED"
                            /\ In c (codes_of d)).
Proof.
  intros H docs. eexists.
  split; [apply (evaluate_documents_run _ _ _ H)|].
  cbn [invalid_doc_types doc_reason_codes]. fold docs.
  split; [apply NoDup_keys_filter, dict_by_NoDup|].
  split; [apply invalid_In|].
  split; [apply reason_codes_In|].
  intros l1 d1 l2 d2 l3 Hdocs Hty Hl3 Hst.
  assert (Hlast : last_of_type (CheckingDocument.doc_type d1) docs = Some d2).
  { rewrite Hdocs, Hty.
    replace (l1 ++ d1 :: l2 ++ d2 :: l3) with ((l1 ++ d1 :: l2) ++ d2 :: l3)
      by now rewrite <- app_assoc.
    now apply last_of_type_app. }
  split.
  - rewrite invalid_In. intros (d & Hd & Hrej). congruence.
  - intros c Hc. apply reason_codes_In in Hc.
    destruct Hc as (t & d & Hd & Hrej & Hin).
    exists t, d. repeat split; try assumption.
    intros ->. congruence.
Qed.

Lemma C9_last_document_per_type_witness :
  exists resp,
    evaluate_document_set_for_application 7%N Samples.resubmitted_db
    = (Ok resp, Samples.resubmitted_db)
    /\ ~ In "TAX_ID_PROOF" (invalid_doc_types resp).
Proof.
  destruct (C9_last_document_per_type Samples.resubmitted_db 7%N
              Samples.scenario_app eq_refl)
    as (resp & Hrun & _ & _ & _ & Hmask).
  exists resp. split; [exact Hrun|].
  refine (proj1 (Hmask [] Samples.tax_proof_rejected []
                   Samples.tax_proof_validated [] eq_refl eq_refl _ _)).
  - intros x [].
  - discriminate.
Defined.





(** *** Account opening *)

Lemma open_account_existing (db : Session) (application_id : UUID)
    (app_obj : CheckingApplication.t) (existing : CheckingAccount.t)
    (new_id : UUID) (now : datetime) :
  query_application db application_id = Some app_obj ->
  hd_error (accounts db app_obj) = Some existing ->
  open_account_from_application new_id now application_id db
  = (Ok (account_response existing), db).
Proof.
  intros H Hex. unfold open_account_from_application. enter H.
  unfold bind at 1, get. cbn beta iota. now rewrite Hex.
Qed.

Lemma open_account_fresh (db : Session) (application_id : UUID)
    (app_obj : CheckingApplication.t) (new_id : UUID) (now : datetime) :
  query_application db application_id = Some app_obj ->
  accounts db app_obj = [] ->
  exists acc,
    open_account_from_application new_id now application_id db
    = (Ok (account_response acc),
       add_account_and_set_status app_obj "DECIDED" acc db)
    /\ CheckingAccount.id acc = new_id
    /\ CheckingAccount.checking_application_id acc = CheckingApplication.id app_obj.
Proof.
  intros H Hnone. unfold open_account_from_application. enter H.
  unfold bind at 1, get. cbn beta iota. rewrite Hnone. cbn [hd_error].
  unfold bind, put, ret. cbn beta iota zeta.
  eexists. split; [reflexivity|]. split; reflexivity.
Qed.

Lemma query_after_status (db : Session) (application_id : UUID)
    (app_obj : CheckingApplication.t) (s : string) (acc : CheckingAccount.t) :
  query_application db application_id = Some app_obj ->
  query_application (add_account_and_set_status app_obj s acc db) application_id
  = Some (CheckingApplication.set_status app_obj s).
Proof.
  unfold query_application, add_account_and_set_status.
  cbn [checking_applications].
  induction (checking_applications db) as [|a l IH]; simpl; [discriminate|].
  destruct (N.eqb (CheckingApplication.id a) application_id) eqn:E.
  - intros [= ->]. rewrite N.eqb_refl. simpl. now rewrite E.
  - intros Hl. destruct (N.eqb (CheckingApplication.id a)
                               (CheckingApplication.id app_obj));
      simpl; rewrite E; now apply IH.
Qed.

Lemma accounts_after_add (db : Session) (app_obj : CheckingApplication.t)
    (s : string) (acc : CheckingAccount.t) (a : CheckingApplication.t) :
  CheckingApplication.id a = CheckingApplication.id app_obj ->
  CheckingAccount.checking_application_id acc = CheckingApplication.id app_obj ->
  accounts (add_account_and_set_status app_obj s acc db) a
  = accounts db app_obj ++ [acc].
Proof.
  intros Ha Hacc. unfold accounts, add_account_and_set_status.
  cbn [checking_accounts]. rewrite filter_app, Ha. simpl.
  now rewrite Hacc, N.eqb_refl.
Qed.

(** Opening a checking account twice. *)
Lemma open_account_twice (db : Session) (application_id : UUID)
    (app_obj : CheckingApplication.t) (new_id1 new_id2 : UUID)
    (now1 now2 : datetime) :
  query_application db application_id = Some app_obj ->
  exists resp db1 acc,
    open_account_from_application new_id1 now1 application_id db = (Ok resp, db1)
    /\ open_account_from_application new_id2 now2 application_id db1
       = (Ok resp, db1)
    /\ hd_error (accounts db1 app_obj) = Some acc
    /\ account_id resp = CheckingAccount.id acc
    /\ account_number resp = CheckingAccount.account_number acc
    /\ (List.length (accounts db app_obj) <= 1 ->
        accounts db1 app_obj = [acc]).
Proof.
  intros H. destruct (accounts db app_obj) as [|existing rest] eqn:Eacc.
  - destruct (open_account_fresh db application_id app_obj new_id1 now1 H Eacc)
      as (acc & Hrun & _ & Hfk).
    pose proof (query_after_status db application_id app_obj "DECIDED" acc H)
      as Hq.
    assert (Hacc1 : accounts (add_account_and_set_status app_obj "DECIDED" acc db)
                      app_obj = [acc]).
    { rewrite (accounts_after_add db app_obj "DECIDED" acc app_obj eq_refl Hfk).
      now rewrite Eacc. }
    assert (Hacc2 : accounts (add_account_and_set_status app_obj "DECIDED" acc db)
                      (CheckingApplication.set_status app_obj "DECIDED") = [acc]).
    { rewrite (accounts_after_add db app_obj "DECIDED" acc
                 (CheckingApplication.set_status app_obj "DECIDED") eq_refl Hfk).
      now rewrite Eacc. }
    exists (account_response acc),
      (add_account_and_set_status app_obj "DECIDED" acc db), acc.
    split; [exact Hrun|].
    split.
    { apply (open_account_existing _ _ _ acc _ _ Hq). now rewrite Hacc2. }
    rewrite Hacc1. repeat split.
  - exists (account_response existing), db, existing.
    assert (Hhd : hd_error (accounts db app_obj) = Some existing)
      by now rewrite Eacc.
    split; [now apply (open_account_existing _ _ _ existing) with (1 := H)|].
    split; [now apply (open_account_existing _ _ _ existing) with (1 := H)|].
    rewrite Eacc. repeat split.
    simpl. intros Hlen. destruct rest; [reflexivity | simpl in Hlen; lia].
Qed.

(** Opening an account keeps account rows unique per application. *)
Lemma open_account_keeps_one (db db1 : Session) (application_id : UUID)
    (new_id : UUID) (now : datetime) (r : result OpenAccountResponse) :
  at_most_one_account db ->
  open_account_from_application new_id now application_id db = (r, db1) ->
  at_most_one_account db1.
Proof.
  intros Hinv Hrun.
  destruct (query_application db application_id) as [app_obj|] eqn:H.
  - destruct (accounts db app_obj) as [|existing rest] eqn:Eacc.
    + destruct (open_account_fresh db application_id app_obj new_id now H Eacc)
        as (acc & Hrun' & _ & Hfk).
      rewrite Hrun' in Hrun. injection Hrun as _ <-.
      intros a. unfold accounts, add_account_and_set_status.
      cbn [checking_accounts]. rewrite filter_app. simpl.
      rewrite Hfk.
      destruct (N.eqb (CheckingApplication.id app_obj) (CheckingApplication.id a))
        eqn:E.
      * apply N.eqb_eq in E.
        unfold accounts in Eacc. rewrite <- E, Eacc. simpl. lia.
      * rewrite app_nil_r. apply Hinv.
    + rewrite (open_account_existing db application_id app_obj existing
                 new_id now H) in Hrun by now rewrite Eacc.
      now injection Hrun as _ <-.
  - destruct (require_not_found db application_id H) as (e & He & _).
    unfold open_account_from_application, bind in Hrun. rewrite He in Hrun.
    now injection Hrun as _ <-.
Qed.

End CheckingProofs.

(* ------------------------------------------------------------------ *)
(** ** The lending pipeline, and opening in both pipelines *)
(* ------------------------------------------------------------------ *)

Module LendingProofs.

Import Py Http Lending CheckingSpec LendingSpec PyFacts.

Lemma require_lending_found (db : Session) (app_id : UUID)
    (app_obj : LendingApplication.t) :
  query_application db app_id = Some app_obj ->
  require_lending_application app_id db = (Ok app_obj, db).
Proof.
  intros H. unfold require_lending_application, bind, get. now rewrite H.
Qed.

Lemma require_lending_not_found (db : Session) (app_id : UUID) :
  query_application db app_id = None ->
  exists e, require_lending_application app_id db = (Raise e, db)
            /\ is_not_found e = true.
Proof.
  intros H. unfold require_lending_application, bind, get. rewrite H.
  eexists. split; reflexivity.
Qed.

Lemma lending_application_id_found (db : Session) (app_id : UUID)
    (app_obj : LendingApplication.t) :
  query_application db app_id = Some app_obj ->
  LendingApplication.id app_obj = app_id.
Proof.
  intros H. apply find_some in H. now apply N.eqb_eq.
Qed.

(** Unfold an endpoint up to the application it found. *)
Ltac enter_lending H :=
  unfold bind at 1; rewrite (require_lending_found _ _ _ H); cbn beta iota;
  rewrite (lending_application_id_found _ _ _ H).

(** C3. When the application has no Underwriting row, generate-offers
    raises the client error (status 400) and leaves the session, hence
    the Offer table, as it was. *)
Theorem C3_offers_require_underwriting (db : Session)
    (payload : GenerateCreditLineOffersRequest)
    (app_obj : LendingApplication.t) (new_id : UUID) (now : datetime) :
  query_application db (lending_application_id payload) = Some app_obj ->
  underwriting_results db (lending_application_id payload) = [] ->
  exists e,
    generate_credit_line_offers new_id now payload db = (Raise e, db)
    /\ is_client_error e = true
    /\ status_code e = 400%Z.
Proof.
  intros H Hnone. unfold generate_credit_line_offers. enter_lending H.
  unfold bind at 1, get. cbn beta iota. rewrite Hnone.
  eexists. split; [reflexivity|]. split; reflexivity.
Qed.

Lemma C3_offers_require_underwriting_witness :
  exists e,
    generate_credit_line_offers 31%N 300%Z LendingSamples.offers_request
      LendingSamples.fresh_db
    = (Raise e, LendingSamples.fresh_db)
    /\ is_client_error e = true
    /\ status_code e = 400%Z.
Proof.
  exact (C3_offers_require_underwriting LendingSamples.fresh_db
           LendingSamples.offers_request LendingSamples.lending_application
           31%N 300%Z eq_refl eq_refl).
Defined.


(** C6, as the specification states it, fails twice. From an underwriting
    that recommends a zero exposure the offer is not 0.8 times that
    exposure but 40 000, with a maximum of 50 000. From an underwriting
    that recommends an infinite exposure no offer is appended: the offer
    code cannot be derived and the request fails. *)
Lemma C6_counterexample :
  ~ (forall db payload app_obj uw r new_id now resp db',
        query_application db (lending_application_id payload) = Some app_obj ->
        latest LendingUnderwriting.created_at
          (underwriting_results db (lending_application_id payload)) = Some uw ->
        LendingUnderwriting.recommended_max_exposure uw = Some r ->
        generate_credit_line_offers new_id now payload db = (Ok resp, db') ->
        exists o,
          offers_out resp = [o]
          /\ credit_limit o = (r * 0.8)%float
          /\ max_credit_limit o = Some r)
  /\ ~ (forall db payload app_obj uw new_id now,
          query_application db (lending_application_id payload) = Some app_obj ->
          latest LendingUnderwriting.created_at
            (underwriting_results db (lending_application_id payload)) = Some uw ->
          exists resp o,
            generate_credit_line_offers new_id now payload db
            = (Ok resp, add_offer o db)).
Proof.
  split.
  - intros Hclaim.
    destruct (Hclaim LendingSamples.zero_exposure_db LendingSamples.offers_request
                LendingSamples.lending_application LendingSamples.zero_exposure_uw
                0%float 31%N 300%Z _ _ eq_refl eq_refl eq_refl eq_refl)
      as (o & Ho & Hlimit & _).
    injection Ho as <-.
    apply (f_equal (PrimFloat.ltb 0%float)) in Hlimit.
    vm_compute in Hlimit. discriminate.
  - intros Hclaim.
    destruct (Hclaim LendingSamples.infinite_exposure_db
                LendingSamples.offers_request LendingSamples.lending_application
                LendingSamples.infinite_exposure_uw 31%N 300%Z eq_refl eq_refl)
      as (resp & o & Hrun).
    vm_compute in Hrun. discriminate.
Qed.

(** *** Offer generation *)

Lemma insert_offer_fresh (db : Session) (o : LendingOffer.t) :
  Forall (fun o' => LendingOffer.offer_code o' <> LendingOffer.offer_code o)
         (lending_offers db) ->
  insert_offer o db = (Ok tt, add_offer o db).
Proof.
  intros Hfree. unfold insert_offer, bind, get. cbn beta iota.
  destruct (existsb _ (lending_offers db)) eqn:E; [|reflexivity].
  apply existsb_exists in E. destruct E as (o' & Hin & Hcode).
  apply String.eqb_eq in Hcode. rewrite Forall_forall in Hfree.
  now elim (Hfree o' Hin).
Qed.

Lemma insert_offer_taken (db : Session) (o : LendingOffer.t) :
  Exists (fun o' => LendingOffer.offer_code o' = LendingOffer.offer_code o)
         (lending_offers db) ->
  insert_offer o db = (Raise internal_server_error, db).
Proof.
  intros Htaken. unfold insert_offer, bind, get. cbn beta iota.
  destruct (existsb _ (lending_offers db)) eqn:E; [reflexivity|].
  apply Exists_exists in Htaken. destruct Htaken as (o' & Hin & Hcode).
  assert (Ht : existsb (fun o' => LendingOffer.offer_code o'
                                  =? LendingOffer.offer_code o)
                       (lending_offers db) = true).
  { apply existsb_exists. exists o'. split; [exact Hin|].
    now apply String.eqb_eq. }
  congruence.
Qed.

(** Generation up to the insertion of the offer. *)
Lemma generate_insert (db : Session) (payload : GenerateCreditLineOffersRequest)
    (app_obj : LendingApplication.t) (uw : LendingUnderwriting.t) (n : Z)
    (new_id : UUID) (now : datetime) :
  query_application db (lending_application_id payload) = Some app_obj ->
  latest LendingUnderwriting.created_at
    (underwriting_results db (lending_application_id payload)) = Some uw ->
  int_of_float (exposure_basis uw * 0.8)%float = Some n ->
  let offer := LendingMoreSpec.offer_row new_id now (lending_application_id payload)
                 (exposure_basis uw) n in
  generate_credit_line_offers new_id now payload db
  = match insert_offer offer db with
    | (Ok _, db1) => (Ok {| offers_out := [offer_model offer] |}, db1)
    | (Raise e, db1) => (Raise e, db1)
    end.
Proof.
  intros H Hlatest Hint. unfold generate_credit_line_offers. enter_lending H.
  unfold bind at 1, get. cbn beta iota. rewrite Hlatest.
  fold (exposure_basis uw). cbn zeta. rewrite Hint. reflexivity.
Qed.

Lemma generate_run (db : Session) (payload : GenerateCreditLineOffersRequest)
    (app_obj : LendingApplication.t) (uw : LendingUnderwriting.t) (n : Z)
    (new_id : UUID) (now : datetime) :
  query_application db (lending_application_id payload) = Some app_obj ->
  latest LendingUnderwriting.created_at
    (underwriting_results db (lending_application_id payload)) = Some uw ->
  int_of_float (exposure_basis uw * 0.8)%float = Some n ->
  Forall (fun o => LendingOffer.offer_code o
                   <> ("OFFER-LOC-" ++ str_of_int n)%string)
         (lending_offers db) ->
  let offer := LendingMoreSpec.offer_row new_id now (lending_application_id payload)
                 (exposure_basis uw) n in
  generate_credit_line_offers new_id now payload db
  = (Ok {| offers_out := [offer_model offer] |}, add_offer offer db).
Proof.
  intros H Hlatest Hint Hfree offer.
  rewrite (generate_insert db payload app_obj uw n new_id now H Hlatest Hint).
  fold offer. now rewrite (insert_offer_fresh db offer Hfree).
Qed.

Lemma generate_taken (db : Session) (payload : GenerateCreditLineOffersRequest)
    (app_obj : LendingApplication.t) (uw : LendingUnderwriting.t) (n : Z)
    (new_id : UUID) (now : datetime) :
  query_application db (lending_application_id payload) = Some app_obj ->
  latest LendingUnderwriting.created_at
    (underwriting_results db (lending_application_id payload)) = Some uw ->
  int_of_float (exposure_basis uw * 0.8)%float = Some n ->
  Exists (fun o => LendingOffer.offer_code o
                   = ("OFFER-LOC-" ++ str_of_int n)%string)
         (lending_offers db) ->
  generate_credit_line_offers new_id now payload db
  = (Raise internal_server_error, db).
Proof.
  intros H Hlatest Hint Htaken.
  rewrite (generate_insert db payload app_obj uw n new_id now H Hlatest Hint).
  now rewrite (insert_offer_taken db
                 (LendingMoreSpec.offer_row new_id now
                    (lending_application_id payload) (exposure_basis uw) n)
                 Htaken).
Qed.

(** C6, amended. For an application whose latest Underwriting row exists,
    generate-offers works from that row's recommended_max_exposure, or
    from 50 000 when that value is absent or zero. When 0.8 times this
    basis is a finite number, the offer code is OFFER-LOC- followed by
    that limit truncated to an integer. When no stored offer carries the
    code, the call appends exactly one revolving-line Offer with
    credit_limit 0.8 times the basis, min_credit_limit 0.5 times the
    credit_limit, max_credit_limit the basis, apr 0.14, origination_fee
    0.01, annual_fee 0 and no collateral, and returns that offer. When a
    stored offer carries the code, offer codes being unique, the call
    fails with a server error and appends nothing. *)
Theorem C6_offer_terms (db : Session) (payload : GenerateCreditLineOffersRequest)
    (app_obj : LendingApplication.t) (uw : LendingUnderwriting.t) (n : Z)
    (new_id : UUID) (now : datetime) :
  query_application db (lending_application_id payload) = Some app_obj ->
  latest LendingUnderwriting.created_at
    (underwriting_results db (lending_application_id payload)) = Some uw ->
  int_of_float (exposure_basis uw * 0.8)%float = Some n ->
  let code := ("OFFER-LOC-" ++ str_of_int n)%string in
  (Forall (fun o => LendingOffer.offer_code o <> code) (lending_offers db) ->
   exists offer,
     generate_credit_line_offers new_id now payload db
     = (Ok {| offers_out := [offer_model offer] |}, add_offer offer db)
     /\ lending_offers (add_offer offer db) = lending_offers db ++ [offer]
     /\ LendingOffer.id offer = new_id
     /\ LendingOffer.lending_application_id offer = lending_application_id payload
     /\ LendingOffer.offer_code offer = code
     /\ LendingOffer.product_type offer = "REVOLVING_LOC"
     /\ LendingOffer.repayment_terms offer = Some "REVOLVING"
     /\ LendingOffer.credit_limit offer = (exposure_basis uw * 0.8)%float
     /\ LendingOffer.min_credit_limit offer
        = Some (LendingOffer.credit_limit offer * 0.5)%float
     /\ LendingOffer.max_credit_limit offer = Some (exposure_basis uw)
     /\ LendingOffer.apr offer = Some 0.14%float
     /\ LendingOffer.origination_fee offer = Some 0.01%float
     /\ LendingOffer.annual_fee offer = Some 0%float
     /\ LendingOffer.collateral_required offer = false)
  /\ (Exists (fun o => LendingOffer.offer_code o = code) (lending_offers db) ->
      generate_credit_line_offers new_id now payload db
      = (Raise internal_server_error, db))
  /\ (forall r, LendingUnderwriting.recommended_max_exposure uw = Some r ->
                PrimFloat.eqb r 0%float = false ->
                exposure_basis uw = r)
  /\ (LendingUnderwriting.recommended_max_exposure uw = None ->
      exposure_basis uw = 50000%float)
  /\ (forall r, LendingUnderwriting.recommended_max_exposure uw = Some r ->
                PrimFloat.eqb r 0%float = true ->
                exposure_basis uw = 50000%float)
  /\ In uw (underwriting_results db (lending_application_id payload))
  /\ Forall (fun u => (LendingUnderwriting.created_at u
                       <= LendingUnderwriting.created_at uw)%Z)
            (underwriting_results db (lending_application_id payload)).
Proof.
  intros H Hlatest Hint code.
  split; [|split; [|split; [|split; [|split]]]].
  - intros Hfree. eexists.
    split; [apply (generate_run db payload app_obj uw n new_id now
                     H Hlatest Hint Hfree)|].
    cbn [LendingMoreSpec.offer_row add_offer lending_offers
         LendingOffer.id LendingOffer.lending_application_id
         LendingOffer.offer_code
         LendingOffer.product_type LendingOffer.repayment_terms
         LendingOffer.credit_limit LendingOffer.min_credit_limit
         LendingOffer.max_credit_limit LendingOffer.apr
         LendingOffer.origination_fee LendingOffer.annual_fee
         LendingOffer.collateral_required].
    repeat split.
  - intros Htaken.
    apply (generate_taken db payload app_obj uw n new_id now
             H Hlatest Hint Htaken).
  - intros r Hr Hz. unfold exposure_basis, float_or. now rewrite Hr, Hz.
  - intros Hr. unfold exposure_basis, float_or. now rewrite Hr.
  - intros r Hr Hz. unfold exposure_basis, float_or. now rewrite Hr, Hz.
  - apply (latest_spec _ _ _ Hlatest).
Qed.

Lemma C6_offer_terms_witness :
  (exists offer,
      generate_credit_line_offers 31%N 300%Z LendingSamples.offers_request
        LendingSamples.underwritten_db
      = (Ok {| offers_out := [offer_model offer] |},
         add_offer offer LendingSamples.underwritten_db)
      /\ LendingOffer.offer_code offer = "OFFER-LOC-80000"
      /\ LendingOffer.credit_limit offer = 80000%float
      /\ LendingOffer.min_credit_limit offer = Some 40000%float
      /\ LendingOffer.max_credit_limit offer = Some 100000%float)
  /\ generate_credit_line_offers 32%N 400%Z LendingSamples.offers_request
       LendingSamples.offered_db
     = (Raise internal_server_error, LendingSamples.offered_db).
Proof.
  split.
  - destruct (C6_offer_terms LendingSamples.underwritten_db
                LendingSamples.offers_request LendingSamples.lending_application
                (LendingSamples.underwriting 22%N (Some 100000%float) 200%Z)
                80000%Z 31%N 300%Z eq_refl eq_refl eq_refl) as (Hfresh & _).
    destruct (Hfresh (Forall_nil _))
      as (offer & Hrun & _ & _ & _ & Hcode & _ & _ & Hl & Hmin & Hmax & _).
    exists offer. split; [exact Hrun|]. split; [exact Hcode|].
    rewrite Hmin, Hmax, Hl. repeat split.
  - destruct (C6_offer_terms LendingSamples.offered_db
                LendingSamples.offers_request LendingSamples.lending_application
                (LendingSamples.underwriting 22%N (Some 100000%float) 200%Z)
                80000%Z 32%N 400%Z eq_refl eq_refl eq_refl) as (_ & Htaken & _).
    apply Htaken. apply Exists_cons_hd. reflexivity.
Defined.

(** *** Facility opening *)

Lemma validated_state {S A : Type} (o : option A) (s s1 : S) (r : result A) :
  validated o s = (r, s1) -> s1 = s.
Proof. destruct o; unfold validated, ret, raise; now intros [= _ <-]. Qed.

Lemma facility_model_known (f : CreditFacility.t) :
  both_named (CreditFacility.customer_id f) (CreditFacility.business_id f)
  = true ->
  exists resp, facility_model f = Some resp
               /\ facility_id resp = CreditFacility.id f
               /\ account_number resp = CreditFacility.account_number f.
Proof.
  unfold facility_model.
  destruct (CreditFacility.customer_id f), (CreditFacility.business_id f);
    try discriminate.
  intros _. eexists. split; [reflexivity|]. split; reflexivity.
Qed.

Lemma facility_model_unknown (f : CreditFacility.t) :
  both_named (CreditFacility.customer_id f) (CreditFacility.business_id f)
  = false ->
  facility_model f = None.
Proof.
  unfold facility_model.
  now destruct (CreditFacility.customer_id f), (CreditFacility.business_id f).
Qed.

Lemma open_facility_existing (db : Session) (app_id : UUID)
    (app_obj : LendingApplication.t) (existing : CreditFacility.t)
    (new_id : UUID) (now : datetime) :
  query_application db app_id = Some app_obj ->
  hd_error (facilities db app_obj) = Some existing ->
  open_credit_facility_from_lending_application new_id now app_id db
  = validated (facility_model existing) db.
Proof.
  intros H Hex. unfold open_credit_facility_from_lending_application.
  unfold bind at 1; rewrite (require_lending_found _ _ _ H); cbn beta iota.
  unfold bind at 1, get. cbn beta iota. now rewrite Hex.
Qed.

Lemma open_facility_fresh (db : Session) (app_id : UUID)
    (app_obj : LendingApplication.t) (offer : LendingOffer.t)
    (new_id : UUID) (now : datetime) :
  query_application db app_id = Some app_obj ->
  facilities db app_obj = [] ->
  latest LendingOffer.created_at (offers db app_id) = Some offer ->
  exists f,
    open_credit_facility_from_lending_application new_id now app_id db
    = validated (facility_model f) (add_facility f db)
    /\ CreditFacility.id f = new_id
    /\ CreditFacility.lending_application_id f = LendingApplication.id app_obj
    /\ CreditFacility.customer_id f = LendingApplication.customer_id app_obj
    /\ CreditFacility.business_id f = LendingApplication.business_id app_obj.
Proof.
  intros H Hnone Hoffer. unfold open_credit_facility_from_lending_application.
  unfold bind at 1; rewrite (require_lending_found _ _ _ H); cbn beta iota.
  unfold bind at 1, get. cbn beta iota. rewrite Hnone. cbn [hd_error].
  rewrite <- (lending_application_id_found db app_id app_obj H) in Hoffer.
  rewrite Hoffer.
  unfold bind, put. cbn beta iota zeta.
  eexists. split; [reflexivity|]. repeat split.
Qed.

Lemma open_facility_no_offer (db : Session) (app_id : UUID)
    (app_obj : LendingApplication.t) (new_id : UUID) (now : datetime) :
  query_application db app_id = Some app_obj ->
  facilities db app_obj = [] ->
  offers db app_id = [] ->
  exists e,
    open_credit_facility_from_lending_application new_id now app_id db
    = (Raise e, db)
    /\ is_client_error e = true.
Proof.
  intros H Hnone Hoffers. unfold open_credit_facility_from_lending_application.
  unfold bind at 1; rewrite (require_lending_found _ _ _ H); cbn beta iota.
  unfold bind at 1, get. cbn beta iota. rewrite Hnone. cbn [hd_error].
  rewrite (lending_application_id_found db app_id app_obj H), Hoffers.
  eexists. split; reflexivity.
Qed.

Lemma facilities_after_add (db : Session) (app_obj : LendingApplication.t)
    (f : CreditFacility.t) :
  CreditFacility.lending_application_id f = LendingApplication.id app_obj ->
  facilities (add_facility f db) app_obj = facilities db app_obj ++ [f].
Proof.
  intros Hf. unfold facilities, add_facility. cbn [credit_facilities].
  rewrite filter_app. simpl. now rewrite Hf, N.eqb_refl.
Qed.

(** Opening a credit facility twice, when the first call can succeed or
    fail on its response: both calls answer the same, with the session
    the first call left. *)
Lemma open_facility_both (db : Session) (app_id : UUID)
    (app_obj : LendingApplication.t) (new_id1 new_id2 : UUID)
    (now1 now2 : datetime) :
  query_application db app_id = Some app_obj ->
  facilities db app_obj <> [] \/ offers db app_id <> [] ->
  exists db1 f,
    open_credit_facility_from_lending_application new_id1 now1 app_id db
    = validated (facility_model f) db1
    /\ open_credit_facility_from_lending_application new_id2 now2 app_id db1
       = validated (facility_model f) db1
    /\ hd_error (facilities db1 app_obj) = Some f
    /\ both_named (CreditFacility.customer_id f) (CreditFacility.business_id f)
       = parties_known db app_obj
    /\ (List.length (facilities db app_obj) <= 1 ->
        facilities db1 app_obj = [f]).
Proof.
  intros H Hcan. unfold parties_known.
  destruct (facilities db app_obj) as [|existing rest] eqn:Efac.
  - destruct Hcan as [Hcan|Hcan]; [congruence|].
    destruct (latest LendingOffer.created_at (offers db app_id)) as [offer|]
      eqn:Eoffer; [|now apply latest_nil in Eoffer].
    destruct (open_facility_fresh db app_id app_obj offer new_id1 now1
                H Efac Eoffer) as (f & Hrun & _ & Hfk & Hc & Hb).
    assert (Hfac1 : facilities (add_facility f db) app_obj = [f]).
    { rewrite (facilities_after_add db app_obj f Hfk). now rewrite Efac. }
    exists (add_facility f db), f.
    split; [exact Hrun|].
    split.
    { apply (open_facility_existing (add_facility f db) app_id app_obj f);
        [exact H | now rewrite Hfac1]. }
    rewrite Hfac1, Hc, Hb. repeat split.
  - exists db, existing.
    assert (Hhd : hd_error (facilities db app_obj) = Some existing)
      by now rewrite Efac.
    split; [now apply (open_facility_existing db app_id app_obj existing)|].
    split; [now apply (open_facility_existing db app_id app_obj existing)|].
    rewrite Efac. cbn [hd_error]. repeat split.
    simpl. intros Hlen. destruct rest; [reflexivity | simpl in Hlen; lia].
Qed.

(** Opening a facility keeps facility rows unique per application. *)
Lemma open_facility_keeps_one (db db1 : Session) (app_id : UUID)
    (new_id : UUID) (now : datetime) (r : result OpenCreditFacilityResponse) :
  at_most_one_facility db ->
  open_credit_facility_from_lending_application new_id now app_id db = (r, db1) ->
  at_most_one_facility db1.
Proof.
  intros Hinv Hrun.
  destruct (query_application db app_id) as [app_obj|] eqn:H.
  - destruct (facilities db app_obj) as [|existing rest] eqn:Efac.
    + destruct (latest LendingOffer.created_at (offers db app_id)) as [offer|]
        eqn:Eoffer.
      * destruct (open_facility_fresh db app_id app_obj offer new_id now
                    H Efac Eoffer) as (f & Hrun' & _ & Hfk & _).
        rewrite Hrun' in Hrun. apply validated_state in Hrun. subst db1.
        intros a. unfold facilities, add_facility.
        cbn [credit_facilities]. rewrite filter_app. simpl.
        rewrite Hfk.
        destruct (N.eqb (LendingApplication.id app_obj) (LendingApplication.id a))
          eqn:E.
        -- apply N.eqb_eq in E.
           unfold facilities in Efac. rewrite <- E, Efac. simpl. lia.
        -- rewrite app_nil_r. apply Hinv.
      * apply latest_nil in Eoffer.
        destruct (open_facility_no_offer db app_id app_obj new_id now
                    H Efac Eoffer) as (e & Hrun' & _).
        rewrite Hrun' in Hrun. now injection Hrun as _ <-.
    + rewrite (open_facility_existing db app_id app_obj existing
                 new_id now H) in Hrun by now rewrite Efac.
      apply validated_state in Hrun. now subst db1.
  - destruct (require_lending_not_found db app_id H) as (e & He & _).
    unfold open_credit_facility_from_lending_application, bind in Hrun.
    rewrite He in Hrun. now injection Hrun as _ <-.
Qed.

(** C2, as the specification states it, fails twice. For lending, an
    application with no offer gets no facility, from the first call or the
    second. For checking, an application that already has two account
    rows still has two after both calls. *)
Lemma C2_counterexample :
  ~ (forall db app_id app_obj new_id1 now1 new_id2 now2,
        query_application db app_id = Some app_obj ->
        exists resp db1,
          open_credit_facility_from_lending_application new_id1 now1 app_id db
          = (Ok resp, db1)
          /\ open_credit_facility_from_lending_application new_id2 now2 app_id db1
             = (Ok resp, db1)
          /\ List.length (facilities db1 app_obj) = 1)
  /\ ~ (forall db application_id app_obj new_id1 now1 new_id2 now2,
          Checking.query_application db application_id = Some app_obj ->
          exists resp db1,
            Checking.open_account_from_application new_id1 now1 application_id db
            = (Ok resp, db1)
            /\ Checking.open_account_from_application new_id2 now2
                 application_id db1
               = (Ok resp, db1)
            /\ List.length (Checking.accounts db1 app_obj) = 1).
Proof.
  split.
  - intros Hclaim.
    destruct (Hclaim LendingSamples.fresh_db 11%N
                LendingSamples.lending_application
                41%N 400%Z 42%N 500%Z eq_refl) as (resp & db1 & Hrun & _).
    discriminate Hrun.
  - intros Hclaim.
    destruct (Hclaim Samples.two_accounts_db 7%N Samples.scenario_app
                51%N 600%Z 52%N 700%Z eq_refl) as (resp & db1 & Hrun & _ & Hlen).
    injection Hrun as _ <-. discriminate Hlen.
Qed.

(** C2, amended. Opening is idempotent whenever the first call succeeds:
    always for a checking application, and for a lending application that
    already has a facility or has at least one offer and whose facility
    names a customer and a business, which the response requires. The
    second call returns the response of the first, so the same id and
    account number, and leaves the session unchanged, so it creates no
    second row; when the application had at most one account or facility
    row before, it has exactly one afterwards. A lending application
    with neither a facility nor an offer gets the client error and no
    row. One whose facility lacks the customer or the business gets a
    server error from both calls, the first of which still stores the
    facility when there was none. Opening never gives an application a
    second row when none had two. *)
Theorem C2_opening_idempotent :
  (forall db application_id app_obj new_id1 now1 new_id2 now2,
      Checking.query_application db application_id = Some app_obj ->
      exists resp db1 acc,
        Checking.open_account_from_application new_id1 now1 application_id db
        = (Ok resp, db1)
        /\ Checking.open_account_from_application new_id2 now2 application_id db1
           = (Ok resp, db1)
        /\ hd_error (Checking.accounts db1 app_obj) = Some acc
        /\ Checking.account_id resp = Checking.CheckingAccount.id acc
        /\ Checking.account_number resp
           = Checking.CheckingAccount.account_number acc
        /\ (List.length (Checking.accounts db app_obj) <= 1 ->
            List.length (Checking.accounts db1 app_obj) = 1))
  /\ (forall db app_id app_obj new_id1 now1 new_id2 now2,
         query_application db app_id = Some app_obj ->
         facilities db app_obj <> [] \/ offers db app_id <> [] ->
         parties_known db app_obj = true ->
         exists resp db1 f,
           open_credit_facility_from_lending_application new_id1 now1 app_id db
           = (Ok resp, db1)
           /\ open_credit_facility_from_lending_application new_id2 now2 app_id db1
              = (Ok resp, db1)
           /\ hd_error (facilities db1 app_obj) = Some f
           /\ facility_id resp = CreditFacility.id f
           /\ account_number resp = CreditFacility.account_number f
           /\ (List.length (facilities db app_obj) <= 1 ->
               List.length (facilities db1 app_obj) = 1))
  /\ (forall db app_id app_obj new_id1 now1 new_id2 now2,
         query_application db app_id = Some app_obj ->
         facilities db app_obj <> [] \/ offers db app_id <> [] ->
         parties_known db app_obj = false ->
         exists db1,
           open_credit_facility_from_lending_application new_id1 now1 app_id db
           = (Raise internal_server_error, db1)
           /\ open_credit_facility_from_lending_application new_id2 now2 app_id db1
              = (Raise internal_server_error, db1)
           /\ (List.length (facilities db app_obj) <= 1 ->
               List.length (facilities db1 app_obj) = 1))
  /\ (forall db app_id app_obj new_id now,
         query_application db app_id = Some app_obj ->
         facilities db app_obj = [] ->
         offers db app_id = [] ->
         exists e,
           open_credit_facility_from_lending_application new_id now app_id db
           = (Raise e, db)
           /\ is_client_error e = true
           /\ facilities db app_obj = [])
  /\ (forall db db1 application_id new_id now r,
         at_most_one_account db ->
         Checking.open_account_from_application new_id now application_id db
         = (r, db1) ->
         at_most_one_account db1)
  /\ (forall db db1 app_id new_id now r,
         at_most_one_facility db ->
         open_credit_facility_from_lending_application new_id now app_id db
         = (r, db1) ->
         at_most_one_facility db1).
Proof.
  split; [|split; [|split; [|split; [|split]]]].
  - intros db application_id app_obj new_id1 now1 new_id2 now2 H.
    destruct (CheckingProofs.open_account_twice db application_id app_obj
                new_id1 new_id2 now1 now2 H)
      as (resp & db1 & acc & H1 & H2 & Hhd & Hid & Hnum & Hone).
    exists resp, db1, acc. repeat split; try assumption.
    intros Hlen. now rewrite (Hone Hlen).
  - intros db app_id app_obj new_id1 now1 new_id2 now2 H Hcan Hknown.
    destruct (open_facility_both db app_id app_obj new_id1 new_id2 now1 now2
                H Hcan)
      as (db1 & f & H1 & H2 & Hhd & Hparties & Hone).
    rewrite Hknown in Hparties.
    destruct (facility_model_known f Hparties) as (resp & Hresp & Hid & Hnum).
    rewrite Hresp in H1, H2.
    exists resp, db1, f. repeat split; try assumption.
    intros Hlen. now rewrite (Hone Hlen).
  - intros db app_id app_obj new_id1 now1 new_id2 now2 H Hcan Hunknown.
    destruct (open_facility_both db app_id app_obj new_id1 new_id2 now1 now2
                H Hcan)
      as (db1 & f & H1 & H2 & Hhd & Hparties & Hone).
    rewrite Hunknown in Hparties.
    rewrite (facility_model_unknown f Hparties) in H1, H2.
    exists db1. repeat split; try assumption.
    intros Hlen. now rewrite (Hone Hlen).
  - intros db app_id app_obj new_id now H Hfac Hoff.
    destruct (open_facility_no_offer db app_id app_obj new_id now H Hfac Hoff)
      as (e & Hrun & He).
    exists e. repeat split; assumption.
  - intros db db1 application_id new_id now r.
    apply CheckingProofs.open_account_keeps_one.
  - intros db db1 app_id new_id now r. apply open_facility_keeps_one.
Qed.

Lemma C2_opening_idempotent_witness :
  (exists resp db1,
      Checking.open_account_from_application 51%N 600%Z 7%N Samples.scenario_db
      = (Ok resp, db1)
      /\ Checking.open_account_from_application 52%N 700%Z 7%N db1
         = (Ok resp, db1)
      /\ List.length (Checking.accounts db1 Samples.scenario_app) = 1)
  /\ (exists resp db1,
         open_credit_facility_from_lending_application 41%N 400%Z 11%N
           LendingSamples.offered_db
         = (Ok resp, db1)
         /\ open_credit_facility_from_lending_application 42%N 500%Z 11%N db1
            = (Ok resp, db1)
         /\ List.length (facilities db1 LendingSamples.lending_application) = 1)
  /\ (exists db1,
         open_credit_facility_from_lending_application 43%N 400%Z 12%N
           LendingSamples.unnamed_db
         = (Raise internal_server_error, db1)
         /\ open_credit_facility_from_lending_application 44%N 500%Z 12%N db1
            = (Raise internal_server_error, db1)
         /\ List.length (facilities db1 LendingSamples.unnamed_application) = 1).
Proof.
  destruct C2_opening_idempotent as (Hc & Hl & Hu & _). split; [|split].
  - destruct (Hc Samples.scenario_db 7%N Samples.scenario_app
                51%N 600%Z 52%N 700%Z eq_refl)
      as (resp & db1 & acc & H1 & H2 & _ & _ & _ & Hone).
    exists resp, db1. split; [exact H1|]. split; [exact H2|].
    apply Hone. simpl. lia.
  - destruct (Hl LendingSamples.offered_db 11%N LendingSamples.lending_application
                41%N 400%Z 42%N 500%Z eq_refl)
      as (resp & db1 & f & H1 & H2 & _ & _ & _ & Hone).
    + right. discriminate.
    + reflexivity.
    + exists resp, db1. split; [exact H1|]. split; [exact H2|].
      apply Hone. simpl. lia.
  - destruct (Hu LendingSamples.unnamed_db 12%N LendingSamples.unnamed_application
                43%N 400%Z 44%N 500%Z eq_refl)
      as (db1 & H1 & H2 & Hone).
    + right. discriminate.
    + reflexivity.
    + exists db1. split; [exact H1|]. split; [exact H2|].
      apply Hone. simpl. lia.
Defined.

End LendingProofs.

(* ------------------------------------------------------------------ *)
(** ** Facts about identifiers and their text *)
(* ------------------------------------------------------------------ *)

Module UuidFacts.

Import Py.

Lemma length_app (a b : string) :
  String.length (a ++ b) = String.length a + String.length b.
Proof.
  induction a as [|c a IH]; simpl; [reflexivity | now rewrite IH].
Qed.

Lemma app_assoc_str (a b c : string) :
  ((a ++ b) ++ c = a ++ b ++ c)%string.
Proof.
  induction a as [|x a IH]; simpl; [reflexivity | now rewrite IH].
Qed.

Lemma hex_fixed_length (w : nat) (n : N) : String.length (hex_fixed w n) = w.
Proof.
  revert n. induction w as [|w IH]; intros n; simpl; [reflexivity|].
  rewrite length_app, IH. simpl. lia.
Qed.

(** The digits of a number split into its high and its low digits. *)
Lemma hex_fixed_add (a b : nat) (n : N) :
  hex_fixed (a + b) n
  = (hex_fixed a (N.shiftr n (4 * N.of_nat b)) ++ hex_fixed b n)%string.
Proof.
  revert n. induction b as [|b IH]; intros n.
  - rewrite Nat.add_0_r. change (4 * N.of_nat 0)%N with 0%N.
    rewrite N.shiftr_0_r. cbn [hex_fixed].
    induction (hex_fixed a n) as [|c s IHs]; simpl; [reflexivity|].
    now rewrite <- IHs.
  - rewrite Nat.add_succ_r. cbn [hex_fixed].
    rewrite IH, app_assoc_str, N.shiftr_shiftr.
    replace (4 * N.of_nat (S b))%N with (4 + 4 * N.of_nat b)%N by lia.
    reflexivity.
Qed.

Lemma substring_0_app (a b : string) :
  String.substring 0 (String.length a) (a ++ b) = a.
Proof.
  induction a as [|c a IH]; simpl.
  - now destruct b.
  - now rewrite IH.
Qed.

Lemma substring_all (s : string) : String.substring 0 (String.length s) s = s.
Proof.
  induction s as [|c s IH]; simpl; [reflexivity | now rewrite IH].
Qed.

(** Two adjacent slices make one slice. *)
Lemma substring_split (n m : nat) (s : string) :
  (String.substring 0 n s ++ String.substring n m s)%string
  = String.substring 0 (n + m) s.
Proof.
  revert s. induction n as [|n IH]; intros s.
  - simpl. now destruct s.
  - destruct s as [|c s]; simpl.
    + now destruct m.
    + now rewrite IH.
Qed.

Lemma remove_char_app (c : ascii) (a b : string) :
  remove_char c (a ++ b) = (remove_char c a ++ remove_char c b)%string.
Proof.
  induction a as [|x a IH]; simpl; [reflexivity|].
  destruct (Ascii.eqb x c); simpl; now rewrite IH.
Qed.

Lemma hex_digit_no_dash (n : N) :
  Ascii.eqb (hex_digit (N.land n 15)) "-" = false.
Proof.
  change 15%N with (N.ones 4). rewrite N.land_ones.
  assert (H : (n mod 2 ^ 4 < 16)%N) by (apply N.mod_upper_bound; discriminate).
  destruct (n mod 2 ^ 4)%N as [|p]; [reflexivity|].
  do 4 (destruct p as [p|p|]; try reflexivity; try (exfalso; lia)).
Qed.

Lemma hex_fixed_no_dash (w : nat) (n : N) :
  remove_char "-" (hex_fixed w n) = hex_fixed w n.
Proof.
  revert n. induction w as [|w IH]; intros n; simpl; [reflexivity|].
  rewrite remove_char_app, IH. simpl. now rewrite hex_digit_no_dash.
Qed.

(** Removing the dashes of the text of an identifier gives back its 32
    digits. *)
Lemma uuid_str_digits (u : UUID) :
  remove_char "-" (uuid_str u) = hex_fixed 32 u.
Proof.
  unfold uuid_str. cbv zeta.
  generalize (hex_fixed_no_dash 32 u) (hex_fixed_length 32 u).
  generalize (hex_fixed 32 u). intros h Hdash Hlen.
  rewrite !remove_char_app.
  change (remove_char "-" "-") with EmptyString.
  cbn [append].
  rewrite <- !remove_char_app, <- !app_assoc_str.
  rewrite (substring_split 8 4 h). change (8 + 4) with 12.
  rewrite (substring_split 12 4 h). change (12 + 4) with 16.
  rewrite (substring_split 16 4 h). change (16 + 4) with 20.
  rewrite (substring_split 20 12 h). change (20 + 12) with 32.
  rewrite <- Hlen, substring_all. exact Hdash.
Qed.

(** The ten characters after the prefix are the ten leading digits. *)
Lemma take_ten_digits (u : UUID) :
  take 10 (remove_char "-" (uuid_str u)) = hex_fixed 10 (N.shiftr u 88).
Proof.
  rewrite uuid_str_digits. unfold take.
  change (hex_fixed 32 u) with (hex_fixed (10 + 22) u).
  rewrite hex_fixed_add. change (4 * N.of_nat 22)%N with 88%N.
  generalize (hex_fixed_length 10 (N.shiftr u 88)).
  generalize (hex_fixed 10 (N.shiftr u 88)) (hex_fixed 22 u).
  intros a b Hlen. rewrite <- Hlen. apply substring_0_app.
Qed.

End UuidFacts.

(* ------------------------------------------------------------------ *)
(** ** Further properties of the checking pipeline *)
(* ------------------------------------------------------------------ *)

Module CheckingMoreProofs.

Import Py Http Checking CheckingSpec CheckingMore CheckingMoreSpec.
Import PyFacts CheckingProofs UuidFacts.

(** *** Business verification *)

(** X1. Business verification fails exactly when the registration number
    is absent or empty, with the single code REGISTRATION_NOT_FOUND and no
    matched field; otherwise it passes and echoes the legal name and the
    registration number. It never answers MANUAL_REVIEW and it writes
    nothing. *)
Theorem X1_business_verification (db : Session) (application_id : UUID)
    (app_obj : CheckingApplication.t) :
  query_application db application_id = Some app_obj ->
  let b := CheckingApplication.business app_obj in
  exists resp,
    run_business_verification application_id db = (Ok resp, db)
    /\ BusinessVerificationResponse.status resp <> MANUAL_REVIEW
    /\ (BusinessVerificationResponse.status resp = FAILED
        <-> Business.registration_number b = None
            \/ Business.registration_number b = Some "")
    /\ (BusinessVerificationResponse.status resp = FAILED ->
        BusinessVerificationResponse.reason_codes resp = ["REGISTRATION_NOT_FOUND"]
        /\ BusinessVerificationResponse.matched_registry_name resp = None
        /\ BusinessVerificationResponse.matched_registration_number resp = None)
    /\ (BusinessVerificationResponse.status resp = PASSED ->
        BusinessVerificationResponse.reason_codes resp = []
        /\ BusinessVerificationResponse.matched_registry_name resp
           = Some (Business.legal_name b)
        /\ BusinessVerificationResponse.matched_registration_number resp
           = Business.registration_number b).
Proof.
  intros H b. unfold run_business_verification. enter H. fold b.
  destruct (Business.registration_number b) as [[|c s]|]; simpl;
    (eexists; split; [reflexivity|]); simpl;
    repeat split; try discriminate; auto;
    try (intros [?|?]; discriminate).
Qed.

Lemma X1_business_verification_witness :
  exists resp,
    run_business_verification 7%N Samples.scenario_db
    = (Ok resp, Samples.scenario_db)
    /\ BusinessVerificationResponse.status resp = PASSED
    /\ BusinessVerificationResponse.matched_registration_number resp
       = Some "REG-77".
Proof.
  destruct (X1_business_verification Samples.scenario_db 7%N
              Samples.scenario_app eq_refl)
    as (resp & Hrun & Hnm & Hfail & _ & Hpass).
  exists resp. split; [exact Hrun|].
  assert (Hst : BusinessVerificationResponse.status resp = PASSED).
  { destruct (BusinessVerificationResponse.status resp) eqn:E.
    - reflexivity.
    - destruct (proj1 Hfail eq_refl); discriminate.
    - now destruct Hnm. }
  split; [exact Hst | exact (proj2 (proj2 (Hpass Hst)))].
Defined.


(** *** Owner verification *)

(** The result the verification gives for one owner. *)
Lemma owner_step_eq (overall : VerificationStatus)
    (results : list OwnerVerificationResult.t) (o : CheckingOwner.t) :
  exists r,
    owner_step (overall, results) o
    = (if owner_identified o then overall else FAILED, results ++ [r])
    /\ OwnerVerificationResult.owner_id r = CheckingOwner.id o
    /\ OwnerVerificationResult.status r
       = (if owner_identified o then PASSED else FAILED)
    /\ (OwnerVerificationResult.reason_codes r = [] <-> owner_identified o = true)
    /\ incl (OwnerVerificationResult.reason_codes r)
            ["MISSING_NATIONAL_ID"; "MISSING_DOB"].
Proof.
  unfold owner_step, owner_identified.
  destruct (truthy_str (CheckingOwner.national_id o)),
    (truthy_obj (CheckingOwner.dob o)); simpl;
    (eexists; split; [reflexivity|]); simpl;
    repeat split; try discriminate; auto;
    intros x Hx; simpl in *; tauto.
Qed.

Lemma owner_fold (os : list CheckingOwner.t) (overall : VerificationStatus)
    (results : list OwnerVerificationResult.t) :
  exists rs,
    fold_left owner_step os (overall, results)
    = (if forallb owner_identified os then overall else FAILED, results ++ rs)
    /\ map OwnerVerificationResult.owner_id rs = map CheckingOwner.id os
    /\ Forall2 (fun o r =>
                  OwnerVerificationResult.status r
                  = (if owner_identified o then PASSED else FAILED)
                  /\ (OwnerVerificationResult.reason_codes r = []
                      <-> owner_identified o = true)
                  /\ incl (OwnerVerificationResult.reason_codes r)
                          ["MISSING_NATIONAL_ID"; "MISSING_DOB"])
               os rs.
Proof.
  revert overall results. induction os as [|o os IH]; intros overall results.
  - exists []. simpl. rewrite app_nil_r. repeat split. constructor.
  - destruct (owner_step_eq overall results o) as (r & Hstep & Hid & Hst & Hrc & Hin).
    cbn [fold_left]. rewrite Hstep.
    destruct (IH (if owner_identified o then overall else FAILED) (results ++ [r]))
      as (rs & Hfold & Hids & Hall).
    exists (r :: rs). rewrite Hfold, <- app_assoc. cbn [forallb map app].
    split.
    + destruct (owner_identified o); simpl; [reflexivity|].
      now destruct (forallb owner_identified os).
    + split; [now rewrite Hid, Hids|]. constructor; [|exact Hall]. tauto.
Qed.

Lemma owner_verification_run (db : Session) (application_id : UUID)
    (app_obj : CheckingApplication.t) :
  query_application db application_id = Some app_obj ->
  exists resp,
    run_owner_verification application_id db = (Ok resp, db)
    /\ OwnerVerificationResponse.overall_status resp
       = match owners db app_obj with
         | [] => FAILED
         | os => if forallb owner_identified os then PASSED else FAILED
         end
    /\ map OwnerVerificationResult.owner_id (OwnerVerificationResponse.owners resp)
       = map CheckingOwner.id (owners db app_obj)
    /\ Forall2 (fun o r =>
                  OwnerVerificationResult.status r
                  = (if owner_identified o then PASSED else FAILED)
                  /\ (OwnerVerificationResult.reason_codes r = []
                      <-> owner_identified o = true)
                  /\ incl (OwnerVerificationResult.reason_codes r)
                          ["MISSING_NATIONAL_ID"; "MISSING_DOB"])
               (owners db app_obj) (OwnerVerificationResponse.owners resp).
Proof.
  intros H. unfold run_owner_verification. enter H.
  unfold bind at 1, get. cbn beta iota.
  destruct (owners db app_obj) as [|o os] eqn:Eo.
  - eexists. split; [reflexivity|]. simpl. repeat split. constructor.
  - destruct (owner_fold (o :: os) PASSED []) as (rs & Hfold & Hids & Hall).
    rewrite Hfold. cbn [app]. eexists. split; [reflexivity|].
    cbn [OwnerVerificationResponse.owners OwnerVerificationResponse.overall_status].
    repeat split; assumption.
Qed.

(** X2. Owner verification returns one result per owner, in the order of
    the owners and under their ids. A result is FAILED exactly when it
    carries a reason code, which is exactly when the national id or the
    date of birth is missing; the codes are MISSING_NATIONAL_ID and
    MISSING_DOB only. The overall status is PASSED exactly when there is
    an owner and every owner has both fields; MANUAL_REVIEW is never
    produced, overall or per owner. *)
Theorem X2_owner_verification (db : Session) (application_id : UUID)
    (app_obj : CheckingApplication.t) :
  query_application db application_id = Some app_obj ->
  exists resp,
    run_owner_verification application_id db = (Ok resp, db)
    /\ map OwnerVerificationResult.owner_id (OwnerVerificationResponse.owners resp)
       = map CheckingOwner.id (owners db app_obj)
    /\ Forall2 (fun o r =>
                  OwnerVerificationResult.status r <> MANUAL_REVIEW
                  /\ (OwnerVerificationResult.status r = FAILED
                      <-> OwnerVerificationResult.reason_codes r <> [])
                  /\ (OwnerVerificationResult.status r = PASSED
                      <-> owner_identified o = true)
                  /\ incl (OwnerVerificationResult.reason_codes r)
                          ["MISSING_NATIONAL_ID"; "MISSING_DOB"])
               (owners db app_obj) (OwnerVerificationResponse.owners resp)
    /\ OwnerVerificationResponse.overall_status resp <> MANUAL_REVIEW
    /\ (OwnerVerificationResponse.overall_status resp = PASSED
        <-> owners db app_obj <> []
            /\ forallb owner_identified (owners db app_obj) = true).
Proof.
  intros H.
  destruct (owner_verification_run db application_id app_obj H)
    as (resp & Hrun & Hov & Hids & Hall).
  exists resp. split; [exact Hrun|]. split; [exact Hids|]. split.
  { eapply Forall2_impl; [|exact Hall]. intros a r (Hst & Hrc & Hin).
    rewrite Hst. destruct (owner_identified a); repeat split;
      try discriminate; try tauto; try exact Hin.
    intros _ Hnil. apply Hrc in Hnil. discriminate. }
  rewrite Hov. destruct (owners db app_obj) as [|o os].
  - repeat split; try discriminate; try tauto.
  - destruct (forallb owner_identified (o :: os)); repeat split;
      try discriminate; try tauto.
    intros [_ Hf]. discriminate.
Qed.

Lemma X2_owner_verification_witness :
  exists resp,
    run_owner_verification 7%N MoreSamples.owners_db
    = (Ok resp, MoreSamples.owners_db)
    /\ map OwnerVerificationResult.owner_id (OwnerVerificationResponse.owners resp)
       = [71%N; 72%N]
    /\ OwnerVerificationResponse.overall_status resp <> PASSED.
Proof.
  destruct (X2_owner_verification MoreSamples.owners_db 7%N
              Samples.scenario_app eq_refl)
    as (resp & Hrun & Hids & _ & _ & Hov).
  exists resp. split; [exact Hrun|]. split; [exact Hids|].
  intros Hp. apply Hov in Hp. destruct Hp as [_ Hp]. discriminate Hp.
Defined.


(** *** Completeness *)

Lemma strictly_sorted_unique (l1 l2 : list string) :
  StronglySorted String_as_OT.lt l1 ->
  StronglySorted String_as_OT.lt l2 ->
  (forall x, In x l1 <-> In x l2) ->
  l1 = l2.
Proof.
  intros H1. revert l2. induction H1 as [|a l1 Hs1 IH Ha]; intros l2 H2 Hin.
  - destruct l2 as [|b l2]; [reflexivity|].
    destruct (proj2 (Hin b) (or_introl eq_refl)).
  - destruct H2 as [|b l2 Hs2 Hb].
    + destruct (proj1 (Hin a) (or_introl eq_refl)).
    + rewrite Forall_forall in Ha, Hb.
      assert (Hab : a = b).
      { destruct (proj1 (Hin a) (or_introl eq_refl)) as [->|Ha2]; [reflexivity|].
        destruct (proj2 (Hin b) (or_introl eq_refl)) as [->|Hb1]; [reflexivity|].
        exfalso. apply (irreflexivity (R := String_as_OT.lt) (x := a)).
        transitivity b; [now apply Ha | now apply Hb]. }
      subst b. f_equal. apply IH; [exact Hs2|].
      intros x. split; intros Hx.
      * destruct (proj1 (Hin x) (or_intror Hx)) as [<-|Hx2]; [|exact Hx2].
        exfalso. exact (irreflexivity (Ha _ Hx)).
      * destruct (proj2 (Hin x) (or_intror Hx)) as [<-|Hx1]; [|exact Hx1].
        exfalso. exact (irreflexivity (Hb _ Hx)).
Qed.

Lemma sorted_set_ext (l1 l2 : list string) :
  (forall x, In x l1 <-> In x l2) -> sorted_set l1 = sorted_set l2.
Proof.
  intros H. apply strictly_sorted_unique; try apply sorted_set_sorted.
  intros x. now rewrite !sorted_set_In.
Qed.

Lemma owner_missing_eq (acc : list string) (o : CheckingOwner.t) :
  owner_missing acc o = acc ++ owner_codes o.
Proof.
  unfold owner_missing, owner_codes.
  destruct (truthy_obj (CheckingOwner.dob o)),
    (truthy_str (CheckingOwner.national_id o)),
    (CheckingOwner.ownership_percentage o);
    simpl; rewrite <- ?app_assoc, ?app_nil_r; reflexivity.
Qed.

Lemma owners_missing_eq (os : list CheckingOwner.t) (acc : list string) :
  fold_left owner_missing os acc = acc ++ flat_map owner_codes os.
Proof.
  revert acc. induction os as [|o os IH]; intros acc; cbn [fold_left flat_map].
  - now rewrite app_nil_r.
  - now rewrite owner_missing_eq, IH, <- app_assoc.
Qed.

Lemma completeness_run (db : Session) (application_id : UUID)
    (app_obj : CheckingApplication.t) :
  query_application db application_id = Some app_obj ->
  evaluate_application_completeness application_id db
  = (Ok (completeness_response (sorted_set (completeness_raw db app_obj))), db).
Proof.
  intros H. unfold evaluate_application_completeness. enter H.
  unfold bind, get, ret. cbn beta iota zeta.
  assert (Hraw :
    (let missing := [] in
     let missing0 :=
       if negb (truthy_str (Business.tax_id (CheckingApplication.business app_obj)))
       then missing ++ ["BUSINESS_TAX_ID"] else missing in
     let missing1 :=
       if negb (truthy_str (Business.address (CheckingApplication.business app_obj)))
       then missing0 ++ ["BUSINESS_ADDRESS"] else missing0 in
     let missing2 :=
       match owners db app_obj with
       | [] => missing1 ++ ["OWNERS_MISSING"]
       | _ :: _ => fold_left owner_missing (owners db app_obj) missing1
       end in
     if negb (truthy_list (CheckingApplication.usage_profile app_obj))
     then missing2 ++ ["USAGE_PROFILE_MISSING"] else missing2)
    = completeness_raw db app_obj).
  { unfold completeness_raw. cbn zeta.
    destruct (owners db app_obj) as [|o os];
      [|rewrite owners_missing_eq];
      destruct (truthy_str (Business.tax_id _)),
        (truthy_str (Business.address _)), (truthy_list _);
      simpl; rewrite <- ?app_assoc, ?app_nil_r; reflexivity. }
  cbn zeta in Hraw.
  destruct (owners db app_obj) as [|o os] eqn:Eo; rewrite <- Hraw; reflexivity.
Qed.

Lemma completeness_raw_In (db : Session) (app_obj : CheckingApplication.t)
    (c : string) :
  In c (completeness_raw db app_obj) <-> code_due db app_obj c.
Proof.
  unfold completeness_raw, code_due. cbn zeta. rewrite !in_app_iff.
  assert (Hown :
    In c match owners db app_obj with
         | [] => ["OWNERS_MISSING"]
         | _ :: _ => flat_map owner_codes (owners db app_obj)
         end
    <-> (c = "OWNERS_MISSING" /\ owners db app_obj = [])
        \/ (exists o, In o (owners db app_obj) /\ In c (owner_codes o))).
  { destruct (owners db app_obj) as [|o os] eqn:Eo.
    - simpl. split.
      + intros [<-|[]]. now left.
      + intros [[-> _]|(o & [] & _)]. now left.
    - rewrite in_flat_map. split.
      + intros Hx. now right.
      + intros [[_ Hnil]|Hx]; [discriminate | exact Hx]. }
  destruct (owners db app_obj) as [|o os] eqn:Eo in Hown |- *.
  all: rewrite Hown;
    destruct (truthy_str (Business.tax_id _)),
      (truthy_str (Business.address _)), (truthy_list _);
    simpl; intuition (try discriminate; try congruence; auto).
Qed.


(** X5. The completeness check reports a code exactly when its reason
    holds: BUSINESS_TAX_ID and BUSINESS_ADDRESS for an absent or empty
    field, OWNERS_MISSING for no owner, the three owner codes when some
    owner lacks the field, USAGE_PROFILE_MISSING for an absent or empty
    usage profile. It can proceed exactly when the tax id, the address and
    the usage profile are there, there is an owner, and every owner has a
    date of birth, a national id and an ownership percentage. *)
Theorem X5_completeness_codes (db : Session) (application_id : UUID)
    (app_obj : CheckingApplication.t) :
  query_application db application_id = Some app_obj ->
  let b := CheckingApplication.business app_obj in
  exists resp,
    evaluate_application_completeness application_id db = (Ok resp, db)
    /\ (forall c, In c (missing_field_codes resp) <-> code_due db app_obj c)
    /\ (can_proceed resp = true
        <-> truthy_str (Business.tax_id b) = true
            /\ truthy_str (Business.address b) = true
            /\ truthy_list (CheckingApplication.usage_profile app_obj) = true
            /\ owners db app_obj <> []
            /\ forall o, In o (owners db app_obj) ->
                 CheckingOwner.dob o <> None
                 /\ truthy_str (CheckingOwner.national_id o) = true
                 /\ CheckingOwner.ownership_percentage o <> None).
Proof.
  intros H b. eexists. split; [apply (completeness_run _ _ _ H)|].
  cbn [missing_field_codes can_proceed completeness_response].
  assert (Hin : forall c, In c (sorted_set (completeness_raw db app_obj))
                          <-> code_due db app_obj c).
  { intros c. now rewrite sorted_set_In, completeness_raw_In. }
  split; [exact Hin|].
  rewrite length_eqb_0. split.
  - intros Hnil.
    assert (Hno : forall c, ~ code_due db app_obj c).
    { intros c Hc. apply Hin in Hc. rewrite Hnil in Hc. destruct Hc. }
    unfold code_due in Hno. cbn zeta in Hno. fold b in Hno.
    repeat split.
    + destruct (truthy_str (Business.tax_id b)); [reflexivity|].
      exfalso. apply (Hno "BUSINESS_TAX_ID"). auto.
    + destruct (truthy_str (Business.address b)); [reflexivity|].
      exfalso. apply (Hno "BUSINESS_ADDRESS"). auto.
    + destruct (truthy_list _); [reflexivity|].
      exfalso. apply (Hno "USAGE_PROFILE_MISSING"). auto 6.
    + intros Ho. apply (Hno "OWNERS_MISSING"). auto.
    + intros Hd. apply (Hno "OWNER_DOB"). right. right. right. left.
      exists o. split; [assumption|]. unfold owner_codes. rewrite Hd. now left.
    + destruct (truthy_str (CheckingOwner.national_id o)) eqn:E; [reflexivity|].
      exfalso. apply (Hno "OWNER_ID_NUMBER"). right. right. right. left.
      exists o. split; [assumption|]. unfold owner_codes. rewrite E.
      rewrite !in_app_iff. right. left. now left.
    + intros Hp. apply (Hno "OWNERSHIP_PERCENTAGE"). right. right. right. left.
      exists o. split; [assumption|]. unfold owner_codes. rewrite Hp.
      rewrite !in_app_iff. right. right. now left.
  - intros (Ht & Ha & Hu & Ho & Hall).
    destruct (sorted_set (completeness_raw db app_obj)) as [|c l] eqn:E;
      [reflexivity|].
    exfalso. assert (Hc : code_due db app_obj c) by (apply Hin; now left).
    unfold code_due in Hc. cbn zeta in Hc. fold b in Hc.
    destruct Hc as [[_ Hc]|[[_ Hc]|[[_ Hc]|[(o & Hino & Hc)|[_ Hc]]]]];
      try congruence.
    destruct (Hall o Hino) as (Hd & Hn & Hp).
    unfold owner_codes in Hc. rewrite Hn in Hc.
    destruct (CheckingOwner.dob o); [|congruence].
    destruct (CheckingOwner.ownership_percentage o); [|congruence].
    destruct Hc.
Qed.

Lemma X5_completeness_codes_witness :
  exists resp,
    evaluate_application_completeness 7%N MoreSamples.identified_db
    = (Ok resp, MoreSamples.identified_db)
    /\ can_proceed resp = true.
Proof.
  destruct (X5_completeness_codes MoreSamples.identified_db 7%N
              Samples.scenario_app eq_refl) as (resp & Hrun & _ & Hcan).
  exists resp. split; [exact Hrun|]. apply Hcan.
  repeat split; try discriminate.
  all: destruct H as [<-|[]]; discriminate || reflexivity.
Defined.

(** X3. Owner verification and the completeness check agree on the
    owners: the overall status is PASSED exactly when completeness reports
    none of OWNERS_MISSING, OWNER_DOB and OWNER_ID_NUMBER. *)
Theorem X3_owner_verification_agrees_with_completeness (db : Session)
    (application_id : UUID) (app_obj : CheckingApplication.t) :
  query_application db application_id = Some app_obj ->
  exists verification completeness,
    run_owner_verification application_id db = (Ok verification, db)
    /\ evaluate_application_completeness application_id db = (Ok completeness, db)
    /\ (OwnerVerificationResponse.overall_status verification = PASSED
        <-> ~ In "OWNERS_MISSING" (missing_field_codes completeness)
            /\ ~ In "OWNER_DOB" (missing_field_codes completeness)
            /\ ~ In "OWNER_ID_NUMBER" (missing_field_codes completeness)).
Proof.
  intros H.
  destruct (owner_verification_run db application_id app_obj H)
    as (v & Hv & Hov & _).
  exists v. eexists. split; [exact Hv|].
  split; [apply (completeness_run _ _ _ H)|].
  cbn [missing_field_codes completeness_response].
  rewrite !sorted_set_In, !completeness_raw_In, Hov.
  unfold code_due. cbn zeta.
  destruct (owners db app_obj) as [|o os] eqn:Eo.
  - split; [discriminate|]. intros (Hm & _). exfalso. apply Hm. auto.
  - destruct (forallb owner_identified (o :: os)) eqn:Ef.
    + split; [|reflexivity]. intros _.
      rewrite forallb_forall in Ef.
      repeat split; intros Hc;
        destruct Hc as [[Hc _]|[[Hc _]|[[_ Hc]|[(x & Hx & Hc)|[Hc _]]]]];
        try discriminate.
      * specialize (Ef x Hx). unfold owner_identified in Ef.
        apply andb_prop in Ef. destruct Ef as [En Ed].
        unfold owner_codes in Hc. rewrite En, Ed in Hc.
        destruct (CheckingOwner.ownership_percentage x); simpl in Hc;
          intuition discriminate.
      * specialize (Ef x Hx). unfold owner_identified in Ef.
        apply andb_prop in Ef. destruct Ef as [En Ed].
        unfold owner_codes in Hc. rewrite En, Ed in Hc.
        destruct (CheckingOwner.ownership_percentage x); simpl in Hc;
          intuition discriminate.
      * specialize (Ef x Hx). unfold owner_identified in Ef.
        apply andb_prop in Ef. destruct Ef as [En Ed].
        unfold owner_codes in Hc. rewrite En, Ed in Hc.
        destruct (CheckingOwner.ownership_percentage x); simpl in Hc;
          intuition discriminate.
    + split; [discriminate|]. intros (_ & Hd & Hn). exfalso.
      assert (Hex : exists x, In x (o :: os) /\ owner_identified x = false).
      { clear -Ef. induction (o :: os) as [|a l IH]; [discriminate|].
        simpl in Ef. destruct (owner_identified a) eqn:Ea.
        - destruct (IH Ef) as (x & Hx & Hf). exists x. split; [now right|exact Hf].
        - exists a. split; [now left | exact Ea]. }
      destruct Hex as (x & Hx & Hf). unfold owner_identified in Hf.
      destruct (truthy_str (CheckingOwner.national_id x)) eqn:En.
      * destruct (truthy_obj (CheckingOwner.dob x)) eqn:Ed; [discriminate|].
        apply Hd. right. right. right. left. exists x. split; [exact Hx|].
        unfold owner_codes. rewrite Ed. now left.
      * apply Hn. right. right. right. left. exists x. split; [exact Hx|].
        unfold owner_codes. rewrite En, !in_app_iff. right. left. now left.
Qed.

Lemma X3_owner_verification_agrees_with_completeness_witness :
  exists verification completeness,
    run_owner_verification 7%N MoreSamples.owners_db
    = (Ok verification, MoreSamples.owners_db)
    /\ evaluate_application_completeness 7%N MoreSamples.owners_db
       = (Ok completeness, MoreSamples.owners_db)
    /\ (OwnerVerificationResponse.overall_status verification = PASSED
        <-> ~ In "OWNERS_MISSING" (missing_field_codes completeness)
            /\ ~ In "OWNER_DOB" (missing_field_codes completeness)
            /\ ~ In "OWNER_ID_NUMBER" (missing_field_codes completeness)).
Proof.
  exact (X3_owner_verification_agrees_with_completeness MoreSamples.owners_db
           7%N Samples.scenario_app eq_refl).
Defined.

(** X4. The completeness check does not depend on the order of the
    owners: two sessions that hold the same application with its owners
    in a different order give the same response. *)
Theorem X4_completeness_order_independent (db1 db2 : Session)
    (application_id : UUID) (app_obj : CheckingApplication.t) :
  query_application db1 application_id = Some app_obj ->
  query_application db2 application_id = Some app_obj ->
  Permutation (owners db1 app_obj) (owners db2 app_obj) ->
  fst (evaluate_application_completeness application_id db1)
  = fst (evaluate_application_completeness application_id db2).
Proof.
  intros H1 H2 Hperm.
  rewrite (completeness_run _ _ _ H1), (completeness_run _ _ _ H2).
  cbn [fst]. do 2 f_equal. apply sorted_set_ext. intros c.
  rewrite !completeness_raw_In. unfold code_due. cbn zeta.
  assert (Hnil : owners db1 app_obj = [] <-> owners db2 app_obj = []).
  { split; intros E; rewrite E in Hperm.
    - now apply Permutation_nil.
    - apply Permutation_sym in Hperm. now apply Permutation_nil. }
  assert (Hex : (exists o, In o (owners db1 app_obj) /\ In c (owner_codes o))
                <-> (exists o, In o (owners db2 app_obj) /\ In c (owner_codes o))).
  { split; intros (o & Ho & Hc); exists o; split; try exact Hc.
    - now apply (Permutation_in _ Hperm).
    - now apply (Permutation_in _ (Permutation_sym Hperm)). }
  rewrite Hnil, Hex. reflexivity.
Qed.

Lemma X4_completeness_order_independent_witness :
  fst (evaluate_application_completeness 7%N MoreSamples.owners_db)
  = fst (evaluate_application_completeness 7%N MoreSamples.owners_db_swapped).
Proof.
  apply (X4_completeness_order_independent MoreSamples.owners_db
           MoreSamples.owners_db_swapped 7%N Samples.scenario_app
           eq_refl eq_refl).
  apply perm_swap.
Defined.

(** *** Documents *)

Lemma no_In_nil {A} (l : list A) : (forall x, ~ In x l) -> l = [].
Proof.
  destruct l as [|a l]; [reflexivity|]. intros H.
  destruct (H a). now left.
Qed.

(** X6. The documents are in order exactly when every required type has
    a document and no uploaded type has a REJECTED last document. A type
    is reported missing exactly when it is required and has no document.
    The aggregated reason codes are strictly sorted, and there are none
    when the documents are in order. *)
Theorem X6_docs_ok (db : Session) (application_id : UUID)
    (app_obj : CheckingApplication.t) :
  query_application db application_id = Some app_obj ->
  let docs := documents db app_obj in
  exists resp,
    evaluate_document_set_for_application application_id db = (Ok resp, db)
    /\ (forall t, In t (missing_doc_types resp)
                  <-> In t required /\ last_of_type t docs = None)
    /\ (docs_ok resp = true
        <-> (forall t, In t required -> last_of_type t docs <> None)
            /\ (forall t d, last_of_type t docs = Some d ->
                            CheckingDocument.status d <> "REJECTED"))
    /\ StronglySorted String_as_OT.lt (doc_reason_codes resp)
    /\ (docs_ok resp = true -> doc_reason_codes resp = []).
Proof.
  intros H docs. eexists.
  split; [apply (evaluate_documents_run _ _ _ H)|].
  cbn [missing_doc_types docs_ok doc_reason_codes invalid_doc_types]. fold docs.
  assert (Hmiss : forall t,
             In t (filter (fun t => negb (dict_mem t
                      (dict_by CheckingDocument.doc_type docs))) required)
             <-> In t required /\ last_of_type t docs = None).
  { intros t. rewrite filter_In. unfold dict_mem. rewrite dict_by_get.
    unfold last_of_type.
    destruct (find _ _); simpl; intuition discriminate. }
  assert (Hinv : map fst (filter rejected (dict_by CheckingDocument.doc_type docs))
                 = []
                 <-> forall t d, last_of_type t docs = Some d ->
                                 CheckingDocument.status d <> "REJECTED").
  { split.
    - intros Hnil t d Hlast Hrej.
      assert (Hin : In t (map fst (filter rejected
                            (dict_by CheckingDocument.doc_type docs))))
        by (apply invalid_In; now exists d).
      rewrite Hnil in Hin. destruct Hin.
    - intros Hall.
      destruct (map fst _) as [|t l] eqn:E; [reflexivity|]. exfalso.
      assert (Hin : In t (map fst (filter rejected
                            (dict_by CheckingDocument.doc_type docs))))
        by (rewrite E; now left).
      apply invalid_In in Hin. destruct Hin as (d & Hlast & Hrej).
      exact (Hall t d Hlast Hrej). }
  split; [exact Hmiss|].
  split.
  { rewrite andb_true_iff, !length_eqb_0, Hinv. split.
    - intros [Hnil Hrej]. split; [|exact Hrej].
      intros t Hreq Hnone.
      assert (Hin : In t (filter (fun t => negb (dict_mem t
                            (dict_by CheckingDocument.doc_type docs))) required))
        by now apply Hmiss.
      rewrite Hnil in Hin. destruct Hin.
    - intros [Hreq Hrej]. split; [|exact Hrej].
      apply no_In_nil. intros t Hin.
      apply Hmiss in Hin. destruct Hin as [Hr Hn]. exact (Hreq t Hr Hn). }
  split; [apply sorted_set_sorted|].
  rewrite andb_true_iff, !length_eqb_0. intros [_ Hnil].
  apply map_eq_nil in Hnil. now rewrite Hnil.
Qed.

Lemma X6_docs_ok_witness :
  exists resp,
    evaluate_document_set_for_application 7%N MoreSamples.documented_db
    = (Ok resp, MoreSamples.documented_db)
    /\ docs_ok resp = true
    /\ doc_reason_codes resp = [].
Proof.
  destruct (X6_docs_ok MoreSamples.documented_db 7%N Samples.scenario_app eq_refl)
    as (resp & Hrun & _ & Hok & _ & Hnone).
  exists resp. split; [exact Hrun|].
  assert (Hdocs : docs_ok resp = true).
  { apply Hok. split.
    - intros t [<-|[<-|[<-|[]]]]; vm_compute; discriminate.
    - intros t d Hlast.
      destruct (find_some _ _ Hlast) as [Hin Ht].
      apply String.eqb_eq in Ht. subst t. apply in_rev in Hin.
      destruct Hin as [<-|[<-|[<-|[<-|[]]]]];
        vm_compute in Hlast; try discriminate Hlast; vm_compute; discriminate. }
  split; [exact Hdocs | exact (Hnone Hdocs)].
Defined.

(** *** Risk scoring *)

(** X7. The band counts the rules that fired: LOW with none, MEDIUM with
    exactly one, HIGH with two or three. The score lies between 20 and
    100, there is one driver per rule that fired, and the band is LOW
    exactly when the only driver is BASELINE. *)
Theorem X7_band_counts_rules (db : Session) (new_id : UUID) (now : datetime)
    (application_id : UUID) (app_obj : CheckingApplication.t) :
  query_application db application_id = Some app_obj ->
  exists resp row,
    score_application_risk new_id now application_id db
    = (Ok resp, add_risk_score row db)
    /\ (risk_band resp = LOW <-> rules_fired app_obj = 0)
    /\ (risk_band resp = MEDIUM <-> rules_fired app_obj = 1)
    /\ (risk_band resp = HIGH <-> 2 <= rules_fired app_obj)
    /\ (20 <= risk_score resp <= 100)%Z
    /\ List.length (driver_codes resp) = Nat.max 1 (rules_fired app_obj)
    /\ (risk_band resp = LOW <-> driver_codes resp = ["BASELINE"]).
Proof.
  intros H. eexists. exists (risk_entry new_id now app_obj).
  split; [apply (score_application_risk_run _ _ _ _ _ H)|].
  cbn [risk_band risk_score driver_codes].
  unfold spec_risk_score, spec_driver_codes, rules_fired.
  destruct (new_business (CheckingApplication.business app_obj)),
    (high_cash_volume app_obj),
    (high_risk_industry (CheckingApplication.business app_obj));
    vm_compute; repeat split; intros; try discriminate; try lia; try congruence.
Qed.

Lemma X7_band_counts_rules_witness :
  exists resp row,
    score_application_risk 99%N 1000%Z 7%N Samples.ageless_db
    = (Ok resp, add_risk_score row Samples.ageless_db)
    /\ risk_band resp = HIGH.
Proof.
  destruct (X7_band_counts_rules Samples.ageless_db 99%N 1000%Z 7%N
              Samples.ageless_app eq_refl)
    as (resp & row & Hrun & _ & _ & Hhigh & _).
  exists resp, row. split; [exact Hrun|]. apply Hhigh.
  apply le_n.
Defined.

(** X8. Risk scoring is append-only and not idempotent: each call adds
    one row at the end of the risk-score table and touches nothing else,
    so two calls in a row leave two new rows, both with the score, band
    and drivers of the identical responses. *)
Theorem X8_scoring_appends (db : Session) (new_id1 new_id2 : UUID)
    (now1 now2 : datetime) (application_id : UUID)
    (app_obj : CheckingApplication.t) :
  query_application db application_id = Some app_obj ->
  exists resp row1 row2 db1 db2,
    score_application_risk new_id1 now1 application_id db = (Ok resp, db1)
    /\ score_application_risk new_id2 now2 application_id db1 = (Ok resp, db2)
    /\ checking_risk_scores db2 = checking_risk_scores db ++ [row1; row2]
    /\ CheckingRiskScore.id row1 = new_id1
    /\ CheckingRiskScore.id row2 = new_id2
    /\ CheckingRiskScore.risk_score row1 = risk_score resp
    /\ CheckingRiskScore.risk_score row2 = risk_score resp
    /\ CheckingRiskScore.risk_band row1 = band_text (risk_band resp)
    /\ CheckingRiskScore.risk_band row2 = band_text (risk_band resp)
    /\ CheckingRiskScore.driver_codes row1 = driver_codes resp
    /\ CheckingRiskScore.driver_codes row2 = driver_codes resp
    /\ checking_applications db2 = checking_applications db
    /\ checking_owners db2 = checking_owners db
    /\ checking_documents db2 = checking_documents db
    /\ checking_accounts db2 = checking_accounts db.
Proof.
  intros H.
  assert (H1 : query_application
                 (add_risk_score (risk_entry new_id1 now1 app_obj) db)
                 application_id = Some app_obj) by exact H.
  eexists. exists (risk_entry new_id1 now1 app_obj),
    (risk_entry new_id2 now2 app_obj).
  eexists. eexists.
  split; [apply (score_application_risk_run _ _ _ _ _ H)|].
  split; [apply (score_application_risk_run _ _ _ _ _ H1)|].
  cbn [add_risk_score checking_risk_scores checking_applications
       checking_owners checking_documents checking_accounts].
  rewrite <- app_assoc. repeat split.
Qed.

Lemma X8_scoring_appends_witness :
  exists resp db1 db2,
    score_application_risk 98%N 900%Z 7%N Samples.scenario_db = (Ok resp, db1)
    /\ score_application_risk 99%N 1000%Z 7%N db1 = (Ok resp, db2)
    /\ List.length (checking_risk_scores db2) = 2.
Proof.
  destruct (X8_scoring_appends Samples.scenario_db 98%N 99%N 900%Z 1000%Z 7%N
              Samples.scenario_app eq_refl)
    as (resp & row1 & row2 & db1 & db2 & H1 & H2 & Hrows & _).
  exists resp, db1, db2. split; [exact H1|]. split; [exact H2|].
  rewrite Hrows. reflexivity.
Defined.

(** *** Unknown applications *)

Lemma require_none (db : Session) (application_id : UUID) :
  query_application db application_id = None ->
  require_checking_application application_id db
  = (Raise application_not_found, db).
Proof.
  intros H. unfold require_checking_application, bind, get. now rewrite H.
Qed.

(** Leave an endpoint at its failed lookup. *)
Ltac leave H :=
  unfold bind; cbn [epe_application_id]; rewrite (require_none _ _ H);
  reflexivity.

(** X9. For an application id that is not in the table every checking
    endpoint raises the not-found error (status 404) and leaves the
    session, and for the notification the store, as it was: no score, no
    account and no notification is written. *)
Theorem X9_unknown_application (st : Store) (application_id : UUID)
    (product_id : string) (channel : ChannelLiteral) (decision : DecisionLiteral)
    (codes : list string) (new_id : UUID) (now : datetime) :
  query_application (session st) application_id = None ->
  let db := session st in
  is_not_found application_not_found = true
  /\ evaluate_application_completeness application_id db
     = (Raise application_not_found, db)
  /\ evaluate_product_eligibility
       {| epe_application_id := application_id; epe_product_id := product_id |} db
     = (Raise application_not_found, db)
  /\ run_business_verification application_id db
     = (Raise application_not_found, db)
  /\ run_owner_verification application_id db
     = (Raise application_not_found, db)
  /\ evaluate_document_set_for_application application_id db
     = (Raise application_not_found, db)
  /\ score_application_risk new_id now application_id db
     = (Raise application_not_found, db)
  /\ open_account_from_application new_id now application_id db
     = (Raise application_not_found, db)
  /\ send_final_decision_notification new_id now
       {| SendFinalDecisionNotificationRequest.application_id := application_id;
          SendFinalDecisionNotificationRequest.channel := channel;
          SendFinalDecisionNotificationRequest.decision := decision;
          SendFinalDecisionNotificationRequest.reason_codes := codes |} st
     = (Raise application_not_found, st).
Proof.
  intros H db. subst db. split; [reflexivity|].
  split; [unfold evaluate_application_completeness; leave H|].
  split; [unfold evaluate_product_eligibility; leave H|].
  split; [unfold run_business_verification; leave H|].
  split; [unfold run_owner_verification; leave H|].
  split; [unfold evaluate_document_set_for_application; leave H|].
  split; [unfold score_application_risk; leave H|].
  split; [unfold open_account_from_application; leave H|].
  unfold send_final_decision_notification, bind, on_session.
  cbn [SendFinalDecisionNotificationRequest.application_id].
  rewrite (require_none _ _ H). now destruct st.
Qed.

Lemma X9_unknown_application_witness :
  evaluate_application_completeness 8%N Samples.scenario_db
  = (Raise application_not_found, Samples.scenario_db)
  /\ score_application_risk 99%N 1000%Z 8%N Samples.scenario_db
     = (Raise application_not_found, Samples.scenario_db)
  /\ send_final_decision_notification 99%N 1000%Z
       {| SendFinalDecisionNotificationRequest.application_id := 8%N;
          SendFinalDecisionNotificationRequest.channel := EMAIL;
          SendFinalDecisionNotificationRequest.decision := APPROVED;
          SendFinalDecisionNotificationRequest.reason_codes := [] |}
       MoreSamples.quiet_store
     = (Raise application_not_found, MoreSamples.quiet_store).
Proof.
  destruct (X9_unknown_application MoreSamples.quiet_store 8%N "BASIC" EMAIL
              APPROVED [] 99%N 1000%Z eq_refl)
    as (_ & Hc & _ & _ & _ & _ & Hs & _ & Hn).
  split; [exact Hc|]. split; [exact Hs | exact Hn].
Defined.

(** *** Opening an account *)

Lemma open_account_new_row (db : Session) (application_id : UUID)
    (app_obj : CheckingApplication.t) (new_id : UUID) (now : datetime) :
  query_application db application_id = Some app_obj ->
  accounts db app_obj = [] ->
  open_account_from_application new_id now application_id db
  = (Ok (account_response (new_account new_id now app_obj)),
     add_account_and_set_status app_obj "DECIDED"
       (new_account new_id now app_obj) db).
Proof.
  intros H Hnone. unfold open_account_from_application. enter H.
  unfold bind at 1, get. cbn beta iota. rewrite Hnone. cbn [hd_error].
  unfold bind, put, ret. cbn beta iota zeta.
  unfold new_account. now rewrite take_ten_digits.
Qed.

Lemma query_other_after_status (db : Session) (app_obj : CheckingApplication.t)
    (s : string) (acc : CheckingAccount.t) (other : UUID) :
  other <> CheckingApplication.id app_obj ->
  query_application (add_account_and_set_status app_obj s acc db) other
  = query_application db other.
Proof.
  intros Hne. unfold query_application, add_account_and_set_status.
  cbn [checking_applications].
  induction (checking_applications db) as [|a l IH]; simpl; [reflexivity|].
  destruct (N.eqb (CheckingApplication.id a) (CheckingApplication.id app_obj))
    eqn:E; simpl.
  - apply N.eqb_eq in E. rewrite E.
    destruct (N.eqb (CheckingApplication.id app_obj) other) eqn:E2.
    + apply N.eqb_eq in E2. congruence.
    + exact IH.
  - destruct (N.eqb (CheckingApplication.id a) other); [reflexivity | exact IH].
Qed.

(** X10. Opening the first account of an application returns the fresh
    id, the routing number 011000015, the status ACTIVE and an account
    number of twelve characters: 10 followed by the ten leading
    hexadecimal digits of the application id. It appends that one account
    row, sets the status of this application to DECIDED and changes no
    other application, owner, document or risk score. *)
Theorem X10_first_account (db : Session) (application_id : UUID)
    (app_obj : CheckingApplication.t) (new_id : UUID) (now : datetime) :
  query_application db application_id = Some app_obj ->
  accounts db app_obj = [] ->
  exists resp acc db1,
    open_account_from_application new_id now application_id db = (Ok resp, db1)
    /\ account_id resp = new_id
    /\ account_number resp
       = ("10" ++ hex_fixed 10 (N.shiftr application_id 88))%string
    /\ String.length (account_number resp) = 12
    /\ routing_number resp = Some "011000015"
    /\ status resp = "ACTIVE"
    /\ checking_accounts db1 = checking_accounts db ++ [acc]
    /\ CheckingAccount.id acc = account_id resp
    /\ CheckingAccount.account_number acc = account_number resp
    /\ CheckingAccount.checking_application_id acc = application_id
    /\ query_application db1 application_id
       = Some (CheckingApplication.set_status app_obj "DECIDED")
    /\ (forall other, other <> application_id ->
                      query_application db1 other = query_application db other)
    /\ checking_owners db1 = checking_owners db
    /\ checking_documents db1 = checking_documents db
    /\ checking_risk_scores db1 = checking_risk_scores db.
Proof.
  intros H Hnone.
  pose proof (query_application_id _ _ _ H) as Hid.
  exists (account_response (new_account new_id now app_obj)),
    (new_account new_id now app_obj),
    (add_account_and_set_status app_obj "DECIDED"
       (new_account new_id now app_obj) db).
  split; [exact (open_account_new_row _ _ _ _ _ H Hnone)|].
  cbn [account_response account_id account_number routing_number status
       new_account CheckingAccount.id CheckingAccount.account_number
       CheckingAccount.routing_number CheckingAccount.status
       CheckingAccount.checking_application_id].
  rewrite Hid.
  split; [reflexivity|]. split; [reflexivity|].
  split; [now rewrite length_app, hex_fixed_length|].
  split; [reflexivity|]. split; [reflexivity|]. split; [reflexivity|].
  split; [reflexivity|]. split; [reflexivity|]. split; [reflexivity|].
  split; [now apply query_after_status|].
  split; [intros other Hne; apply query_other_after_status; congruence|].
  repeat split.
Qed.

Lemma X10_first_account_witness :
  exists resp db1,
    open_account_from_application 51%N 600%Z 7%N Samples.scenario_db
    = (Ok resp, db1)
    /\ account_number resp = "100000000000"
    /\ query_application db1 7%N
       = Some (CheckingApplication.set_status Samples.scenario_app "DECIDED").
Proof.
  destruct (X10_first_account Samples.scenario_db 7%N Samples.scenario_app
              51%N 600%Z eq_refl eq_refl)
    as (resp & acc & db1 & Hrun & _ & Hnum & _ & _ & _ & _ & _ & _ & _ & Hq & _).
  exists resp, db1. split; [exact Hrun|]. split; [exact Hnum | exact Hq].
Defined.

(** X11. Account numbers are not unique per application: two applications
    whose ids agree on their leading 40 bits are given the same account
    number. *)
Theorem X11_account_numbers_collide (db : Session) (id1 id2 : UUID)
    (app1 app2 : CheckingApplication.t) (new_id1 new_id2 : UUID)
    (now1 now2 : datetime) :
  query_application db id1 = Some app1 ->
  query_application db id2 = Some app2 ->
  accounts db app1 = [] ->
  accounts db app2 = [] ->
  N.shiftr id1 88 = N.shiftr id2 88 ->
  exists resp1 resp2 db1 db2,
    open_account_from_application new_id1 now1 id1 db = (Ok resp1, db1)
    /\ open_account_from_application new_id2 now2 id2 db = (Ok resp2, db2)
    /\ account_number resp1 = account_number resp2.
Proof.
  intros H1 H2 Hn1 Hn2 Hsame.
  pose proof (query_application_id _ _ _ H1) as Hid1.
  pose proof (query_application_id _ _ _ H2) as Hid2.
  do 4 eexists.
  split; [exact (open_account_new_row _ _ _ _ _ H1 Hn1)|].
  split; [exact (open_account_new_row _ _ _ _ _ H2 Hn2)|].
  cbn [account_response account_number new_account
       CheckingAccount.account_number].
  now rewrite Hid1, Hid2, Hsame.
Qed.

Lemma X11_account_numbers_collide_witness :
  exists resp1 resp2 db1 db2,
    open_account_from_application 51%N 600%Z
      (CheckingApplication.id MoreSamples.twin_a) MoreSamples.twins_db
    = (Ok resp1, db1)
    /\ open_account_from_application 52%N 700%Z
         (CheckingApplication.id MoreSamples.twin_b) MoreSamples.twins_db
       = (Ok resp2, db2)
    /\ account_number resp1 = account_number resp2.
Proof.
  apply (X11_account_numbers_collide MoreSamples.twins_db _ _
           MoreSamples.twin_a MoreSamples.twin_b);
    reflexivity.
Defined.

(** *** Decision notifications *)

Lemma send_decision_run (st : Store)
    (payload : SendFinalDecisionNotificationRequest.t)
    (app_obj : CheckingApplication.t) (new_id : UUID) (now : datetime) :
  query_application (session st)
    (SendFinalDecisionNotificationRequest.application_id payload)
  = Some app_obj ->
  send_final_decision_notification new_id now payload st
  = (Ok {| SendFinalDecisionNotificationResponse.notification_id := new_id;
           SendFinalDecisionNotificationResponse.delivery_status := "SENT" |},
     add_notification (decision_notification new_id now payload) st).
Proof.
  intros H. unfold send_final_decision_notification, on_session.
  unfold bind at 1. rewrite (require_found _ _ _ H). cbn beta iota.
  rewrite (query_application_id _ _ _ H).
  unfold bind, get, put, ret. cbn beta iota zeta.
  unfold decision_notification.
  destruct st as [db ns]. cbn [session notifications].
  now destruct (SendFinalDecisionNotificationRequest.reason_codes payload).
Qed.

(** X12. A final-decision notification for a known application is
    always reported SENT and appends exactly one row, for the
    application, with the channel, the decision and the reason codes of
    the request; the session is not touched, and the decision is not
    compared with what the application went through. Sending the same
    request again appends a second row: notifications are not
    deduplicated. *)
Theorem X12_decision_notification (st : Store)
    (payload : SendFinalDecisionNotificationRequest.t)
    (app_obj : CheckingApplication.t) (id1 id2 : UUID) (now1 now2 : datetime) :
  query_application (session st)
    (SendFinalDecisionNotificationRequest.application_id payload)
  = Some app_obj ->
  exists resp1 resp2 st1 st2 n1 n2,
    send_final_decision_notification id1 now1 payload st = (Ok resp1, st1)
    /\ send_final_decision_notification id2 now2 payload st1 = (Ok resp2, st2)
    /\ SendFinalDecisionNotificationResponse.delivery_status resp1 = "SENT"
    /\ SendFinalDecisionNotificationResponse.notification_id resp1 = id1
    /\ SendFinalDecisionNotificationResponse.delivery_status resp2 = "SENT"
    /\ SendFinalDecisionNotificationResponse.notification_id resp2 = id2
    /\ notifications st1 = notifications st ++ [n1]
    /\ notifications st2 = notifications st ++ [n1; n2]
    /\ session st1 = session st
    /\ session st2 = session st
    /\ Notification.id n1 = id1
    /\ Notification.context_type n1 = "CHECKING_APPLICATION"
    /\ Notification.context_id n1 = CheckingApplication.id app_obj
    /\ Notification.channel n1
       = channel_text (SendFinalDecisionNotificationRequest.channel payload)
    /\ Notification.decision n1
       = decision_text (SendFinalDecisionNotificationRequest.decision payload)
    /\ Notification.reason_codes n1
       = SendFinalDecisionNotificationRequest.reason_codes payload
    /\ Notification.delivery_status n1 = "SENT"
    /\ Notification.created_at n1 = now1
    /\ Notification.context_id n2 = Notification.context_id n1
    /\ Notification.channel n2 = Notification.channel n1
    /\ Notification.decision n2 = Notification.decision n1
    /\ Notification.reason_codes n2 = Notification.reason_codes n1.
Proof.
  intros H.
  pose proof (query_application_id _ _ _ H) as Hid.
  do 6 eexists.
  split; [apply (send_decision_run st payload app_obj id1 now1 H)|].
  split; [apply (send_decision_run
                   (add_notification (decision_notification id1 now1 payload) st)
                   payload app_obj id2 now2 H)|].
  cbn [add_notification notifications session decision_notification
       SendFinalDecisionNotificationResponse.delivery_status
       SendFinalDecisionNotificationResponse.notification_id
       Notification.id Notification.context_type Notification.context_id
       Notification.channel Notification.decision Notification.reason_codes
       Notification.delivery_status Notification.created_at].
  rewrite <- app_assoc. cbn [app]. rewrite Hid.
  repeat split.
Qed.

Lemma X12_decision_notification_witness :
  exists resp1 resp2 st1 st2 n1 n2,
    send_final_decision_notification 71%N 800%Z MoreSamples.approval
      MoreSamples.quiet_store = (Ok resp1, st1)
    /\ send_final_decision_notification 72%N 801%Z MoreSamples.approval st1
       = (Ok resp2, st2)
    /\ notifications st2 = [n1; n2]
    /\ Notification.decision n1 = "APPROVED".
Proof.
  destruct (X12_decision_notification MoreSamples.quiet_store
              MoreSamples.approval Samples.scenario_app 71%N 72%N 800%Z 801%Z
              eq_refl)
    as (resp1 & resp2 & st1 & st2 & n1 & n2 & Hs1 & Hs2 & _ & _ & _ & _ & _
        & Hrows & _ & _ & _ & _ & _ & _ & Hd & _).
  exists resp1, resp2, st1, st2, n1, n2.
  split; [exact Hs1|]. split; [exact Hs2|]. split; [exact Hrows | exact Hd].
Defined.

End CheckingMoreProofs.

(* ------------------------------------------------------------------ *)
(** ** Further properties of the lending pipeline *)
(* ------------------------------------------------------------------ *)

Module LendingMoreProofs.

Import Py Http Lending LendingSpec LendingMore LendingMoreSpec.
Import PyFacts LendingProofs UuidFacts.

(** *** Looking an application up in the store *)

Lemma with_session_same (st : Store) : with_session (session st) st = st.
Proof. now destruct st. Qed.

Lemma store_require_found (st : Store) (app_id : UUID)
    (app_obj : LendingApplication.t) :
  query_application (session st) app_id = Some app_obj ->
  on_session (require_lending_application app_id) st = (Ok app_obj, st).
Proof.
  intros H. unfold on_session.
  rewrite (require_lending_found _ _ _ H). cbn beta iota.
  now rewrite with_session_same.
Qed.

Lemma store_require_none (st : Store) (app_id : UUID) :
  query_application (session st) app_id = None ->
  on_session (require_lending_application app_id) st
  = (Raise lending_not_found, st).
Proof.
  intros H. unfold on_session, require_lending_application, bind, get.
  rewrite H. unfold raise. cbn beta iota. now rewrite with_session_same.
Qed.

(** Unfold a store endpoint up to the application it found. *)
Ltac enter_store H :=
  unfold bind at 1; rewrite (store_require_found _ _ _ H); cbn beta iota;
  rewrite ?(lending_application_id_found _ _ _ H).

(** *** Policy eligibility *)

Lemma policy_run (st : Store) (app_id : UUID) (app_obj : LendingApplication.t)
    (b : Business.t) :
  query_application (session st) app_id = Some app_obj ->
  business st app_obj = Some b ->
  let tenure :=
    short_history b
    && match LendingApplication.requested_amount app_obj with
       | Some a => PrimFloat.ltb 50000%float a
       | None => false
       end in
  let bureau :=
    match latest_report st app_id with
    | Some r =>
        match BusinessCreditReport.score r with
        | Some s => (s <? 50)%Z
        | None => false
        end
    | None => false
    end in
  evaluate_lending_policy_eligibility app_id st
  = (Ok {| EvaluateLendingPolicyEligibilityResponse.eligible :=
             negb (tenure || bureau);
           EvaluateLendingPolicyEligibilityResponse.reason_codes :=
             (if tenure then ["INSUFFICIENT_TENURE_FOR_REQUESTED_AMOUNT"] else [])
             ++ (if bureau then ["LOW_BUREAU_SCORE"] else []) |},
     st).
Proof.
  intros H Hb tenure bureau. unfold evaluate_lending_policy_eligibility.
  enter_store H. unfold bind at 1, get. cbn beta iota.
  rewrite Hb. unfold attr_of, bind, ret. cbn beta iota zeta.
  fold (short_history b).
  assert (Ht : short_history b
               && float_gt match LendingApplication.requested_amount app_obj with
                           | Some a => a
                           | None => 0%float
                           end 50000%float = tenure).
  { subst tenure. unfold float_gt.
    now destruct (LendingApplication.requested_amount app_obj). }
  rewrite Ht. fold bureau.
  destruct tenure, bureau; reflexivity.
Qed.

(** X13. Lending policy: the application is ineligible exactly when a
    reason code is given. INSUFFICIENT_TENURE_FOR_REQUESTED_AMOUNT is
    given exactly when the business is younger than one year and more
    than 50 000 is requested, never without a requested amount or without
    a recorded age. LOW_BUREAU_SCORE is given exactly when the latest
    credit report has a score below 50, never without a report or a
    score. Nothing is written. *)
Theorem X13_lending_policy (st : Store) (app_id : UUID)
    (app_obj : LendingApplication.t) (b : Business.t) :
  query_application (session st) app_id = Some app_obj ->
  business st app_obj = Some b ->
  exists resp,
    evaluate_lending_policy_eligibility app_id st = (Ok resp, st)
    /\ (EvaluateLendingPolicyEligibilityResponse.eligible resp = false
        <-> EvaluateLendingPolicyEligibilityResponse.reason_codes resp <> [])
    /\ (In "INSUFFICIENT_TENURE_FOR_REQUESTED_AMOUNT"
           (EvaluateLendingPolicyEligibilityResponse.reason_codes resp)
        <-> exists y a,
              Business.years_in_business b = Some y /\ (y < 1)%Z
              /\ LendingApplication.requested_amount app_obj = Some a
              /\ PrimFloat.ltb 50000%float a = true)
    /\ (In "LOW_BUREAU_SCORE"
           (EvaluateLendingPolicyEligibilityResponse.reason_codes resp)
        <-> exists r s,
              latest_report st app_id = Some r
              /\ BusinessCreditReport.score r = Some s /\ (s < 50)%Z).
Proof.
  intros H Hb. eexists. split; [apply (policy_run _ _ _ _ H Hb)|].
  cbn [EvaluateLendingPolicyEligibilityResponse.eligible
       EvaluateLendingPolicyEligibilityResponse.reason_codes].
  assert (Ht : short_history b
               && match LendingApplication.requested_amount app_obj with
                  | Some a => PrimFloat.ltb 50000%float a
                  | None => false
                  end = true
               <-> exists y a,
                     Business.years_in_business b = Some y /\ (y < 1)%Z
                     /\ LendingApplication.requested_amount app_obj = Some a
                     /\ PrimFloat.ltb 50000%float a = true).
  { unfold short_history. rewrite andb_true_iff. split.
    - intros [Hy Ha].
      destruct (Business.years_in_business b) as [y|]; [|discriminate].
      destruct (LendingApplication.requested_amount app_obj) as [a|];
        [|discriminate].
      exists y, a. apply Z.ltb_lt in Hy. auto.
    - intros (y & a & -> & Hy & -> & Ha). split; [now apply Z.ltb_lt | exact Ha]. }
  assert (Hr : match latest_report st app_id with
               | Some r =>
                   match BusinessCreditReport.score r with
                   | Some s => (s <? 50)%Z
                   | None => false
                   end
               | None => false
               end = true
               <-> exists r s,
                     latest_report st app_id = Some r
                     /\ BusinessCreditReport.score r = Some s /\ (s < 50)%Z).
  { split.
    - destruct (latest_report st app_id) as [r|]; [|discriminate].
      destruct (BusinessCreditReport.score r) as [s|] eqn:Es; [|discriminate].
      intros Hs. exists r, s. apply Z.ltb_lt in Hs. auto.
    - intros (r & s & -> & -> & Hs). now apply Z.ltb_lt. }
  rewrite <- Ht, <- Hr.
  destruct (short_history b && _), (match latest_report st app_id with
                                    | Some _ => _ | None => _ end);
    simpl; repeat split; intros; try discriminate; try congruence;
    intuition congruence.
Qed.

Lemma X13_lending_policy_witness :
  exists resp,
    evaluate_lending_policy_eligibility 11%N LendingMoreSamples.weak_store
    = (Ok resp, LendingMoreSamples.weak_store)
    /\ EvaluateLendingPolicyEligibilityResponse.eligible resp = false
    /\ In "LOW_BUREAU_SCORE"
          (EvaluateLendingPolicyEligibilityResponse.reason_codes resp).
Proof.
  destruct (X13_lending_policy LendingMoreSamples.weak_store 11%N
              LendingSamples.lending_application LendingMoreSamples.acme
              eq_refl eq_refl) as (resp & Hrun & Hel & _ & Hlow).
  assert (Hin : In "LOW_BUREAU_SCORE"
                  (EvaluateLendingPolicyEligibilityResponse.reason_codes resp)).
  { apply Hlow. eexists. exists 45%Z. split; [reflexivity|].
    split; [reflexivity | reflexivity]. }
  exists resp. split; [exact Hrun|]. split; [|exact Hin].
  apply Hel. intros Hnil. rewrite Hnil in Hin. destruct Hin.
Defined.


(** *** Underwriting *)

Lemma underwriting_run (st : Store) (app_id : UUID)
    (app_obj : LendingApplication.t) (b : Business.t)
    (new_id : UUID) (now : datetime) :
  query_application (session st) app_id = Some app_obj ->
  business st app_obj = Some b ->
  run_lending_underwriting new_id now app_id st
  = (Ok (underwriting_response new_id st app_id b),
     add_underwriting (underwriting_row new_id now st app_id b) st).
Proof.
  intros H Hb. unfold run_lending_underwriting.
  enter_store H. unfold bind at 1, get. cbn beta iota zeta.
  rewrite Hb. unfold attr_of, bind, ret, put. cbn beta iota zeta.
  unfold underwriting_response, underwriting_row, grade_of, pd_of, drivers_of,
    exposure_of, reported_revenue, bureau_score, float_gt.
  fold (short_history b).
  destruct (latest_summary st app_id) as [s|];
    [destruct (LendingTransactionSummary.avg_monthly_revenue s) as [v|]|];
    cbn beta iota;
    destruct (80 <=? _)%Z; try destruct (_ <? 60)%Z;
    destruct (short_history b); reflexivity.
Qed.

(** X14. Underwriting grades by the bureau score of the latest report, 75
    when there is no report or no score: A with pd 0.02 from 80, C with
    pd 0.08 below 60, B with pd 0.04 between. The drivers name the grade
    rule and a short operating history, or BASELINE alone. The run
    appends one underwriting row carrying the grade, the pd, the drivers
    and the exposure of the response, with lgd 0.45: after it the
    underwriting table is the one before followed by that row, and the
    applications, the offers and the facilities are as before. *)
Theorem X14_underwriting_grade (st : Store) (app_id : UUID)
    (app_obj : LendingApplication.t) (b : Business.t)
    (new_id : UUID) (now : datetime) :
  query_application (session st) app_id = Some app_obj ->
  business st app_obj = Some b ->
  let score := bureau_score st app_id in
  exists resp uw,
    run_lending_underwriting new_id now app_id st
    = (Ok resp, add_underwriting uw st)
    /\ (RunLendingUnderwritingResponse.risk_grade resp = "A" <-> (80 <= score)%Z)
    /\ (RunLendingUnderwritingResponse.risk_grade resp = "B"
        <-> (60 <= score < 80)%Z)
    /\ (RunLendingUnderwritingResponse.risk_grade resp = "C" <-> (score < 60)%Z)
    /\ RunLendingUnderwritingResponse.pd_estimate resp
       = (if (80 <=? score)%Z then 0.02%float
          else if (score <? 60)%Z then 0.08%float else 0.04%float)
    /\ (latest_report st app_id = None ->
        RunLendingUnderwritingResponse.risk_grade resp = "B")
    /\ (In "GOOD_BUREAU_SCORE" (RunLendingUnderwritingResponse.key_risk_drivers resp)
        <-> (80 <= score)%Z)
    /\ (In "LOW_BUREAU_SCORE" (RunLendingUnderwritingResponse.key_risk_drivers resp)
        <-> (score < 60)%Z)
    /\ (In "SHORT_OPERATING_HISTORY"
           (RunLendingUnderwritingResponse.key_risk_drivers resp)
        <-> short_history b = true)
    /\ (RunLendingUnderwritingResponse.key_risk_drivers resp = ["BASELINE"]
        <-> (60 <= score < 80)%Z /\ short_history b = false)
    /\ LendingUnderwriting.id uw = new_id
    /\ LendingUnderwriting.lending_application_id uw = app_id
    /\ LendingUnderwriting.created_at uw = now
    /\ LendingUnderwriting.risk_grade uw
       = Some (RunLendingUnderwritingResponse.risk_grade resp)
    /\ LendingUnderwriting.pd_estimate uw
       = Some (RunLendingUnderwritingResponse.pd_estimate resp)
    /\ LendingUnderwriting.lgd_estimate uw = Some 0.45%float
    /\ LendingUnderwriting.key_risk_drivers uw
       = Some (RunLendingUnderwritingResponse.key_risk_drivers resp)
    /\ LendingUnderwriting.recommended_max_exposure uw
       = Some (RunLendingUnderwritingResponse.recommended_max_exposure resp)
    /\ lending_underwriting (session (add_underwriting uw st))
       = lending_underwriting (session st) ++ [uw]
    /\ lending_applications (session (add_underwriting uw st))
       = lending_applications (session st)
    /\ lending_offers (session (add_underwriting uw st))
       = lending_offers (session st)
    /\ credit_facilities (session (add_underwriting uw st))
       = credit_facilities (session st).
Proof.
  intros H Hb score. eexists. eexists.
  split; [apply (underwriting_run _ _ _ _ _ _ H Hb)|].
  cbn [underwriting_response underwriting_row
       RunLendingUnderwritingResponse.risk_grade
       RunLendingUnderwritingResponse.pd_estimate
       RunLendingUnderwritingResponse.key_risk_drivers
       RunLendingUnderwritingResponse.recommended_max_exposure
       LendingUnderwriting.id LendingUnderwriting.lending_application_id
       LendingUnderwriting.created_at LendingUnderwriting.risk_grade
       LendingUnderwriting.pd_estimate LendingUnderwriting.lgd_estimate
       LendingUnderwriting.key_risk_drivers
       LendingUnderwriting.recommended_max_exposure].
  fold score.
  assert (Hnone : latest_report st app_id = None -> score = 75%Z).
  { intros E. subst score. unfold bureau_score. now rewrite E. }
  unfold grade_of, pd_of, drivers_of.
  destruct (80 <=? score)%Z eqn:E80; [|destruct (score <? 60)%Z eqn:E60];
    rewrite ?Z.leb_le, ?Z.leb_gt, ?Z.ltb_lt, ?Z.ltb_ge in *;
    destruct (short_history b); cbn [app];
    repeat split; intros;
    try discriminate; try lia; try reflexivity; try congruence;
    try (simpl in *; intuition (try discriminate; try lia; try congruence));
    try (specialize (Hnone ltac:(assumption)); lia).
Qed.

Lemma X14_underwriting_grade_witness :
  exists resp uw,
    run_lending_underwriting 31%N 300%Z 11%N LendingMoreSamples.weak_store
    = (Ok resp, add_underwriting uw LendingMoreSamples.weak_store)
    /\ RunLendingUnderwritingResponse.risk_grade resp = "C"
    /\ LendingUnderwriting.risk_grade uw = Some "C".
Proof.
  destruct (X14_underwriting_grade LendingMoreSamples.weak_store 11%N
              LendingSamples.lending_application LendingMoreSamples.acme
              31%N 300%Z eq_refl eq_refl)
    as (resp & uw & Hrun & _ & _ & HC & _ & _ & _ & _ & _ & _ & _ & _ & _
        & Hg & _).
  assert (Hgrade : RunLendingUnderwritingResponse.risk_grade resp = "C")
    by (apply HC; reflexivity).
  exists resp, uw. split; [exact Hrun|]. split; [exact Hgrade|].
  now rewrite Hg, Hgrade.
Defined.


(** *** The newest row *)

Lemma latest_app_newest {A : Type} (key : A -> Z) (l : list A) (x : A) :
  Forall (fun y => (key y < key x)%Z) l ->
  latest key (l ++ [x]) = Some x.
Proof.
  intros Hall. unfold latest. rewrite fold_left_app. cbn [fold_left].
  fold (latest key l).
  destruct (latest key l) as [b|] eqn:E; [|reflexivity].
  destruct (latest_spec _ _ _ E) as [Hin _].
  rewrite Forall_forall in Hall. specialize (Hall b Hin).
  unfold latest_step. apply Z.ltb_lt in Hall. now rewrite Hall.
Qed.

Lemma underwriting_after_add (st : Store) (uw : LendingUnderwriting.t)
    (app_id : UUID) :
  LendingUnderwriting.lending_application_id uw = app_id ->
  underwriting_results (session (add_underwriting uw st)) app_id
  = underwriting_results (session st) app_id ++ [uw].
Proof.
  intros Hk. unfold underwriting_results, add_underwriting, with_session.
  cbn [session lending_underwriting]. rewrite filter_app. cbn [filter].
  now rewrite Hk, N.eqb_refl.
Qed.

Lemma query_after_underwriting (st : Store) (uw : LendingUnderwriting.t)
    (app_id : UUID) :
  query_application (session (add_underwriting uw st)) app_id
  = query_application (session st) app_id.
Proof. reflexivity. Qed.

(** *** The transaction summary *)

Lemma summary_found (st : Store)
    (payload : GetCheckingTransactionSummaryRequest.t)
    (app_obj : LendingApplication.t) (s : LendingTransactionSummary.t) :
  query_application (session st)
    (GetCheckingTransactionSummaryRequest.lending_application_id payload)
  = Some app_obj ->
  latest_summary st
    (GetCheckingTransactionSummaryRequest.lending_application_id payload)
  = Some s ->
  exists resp,
    get_checking_transaction_summary_for_lending payload st = (Ok resp, st)
    /\ CheckingTransactionSummaryResponse.checking_account_id resp
       = LendingTransactionSummary.checking_account_id s
    /\ CheckingTransactionSummaryResponse.avg_monthly_revenue resp
       = LendingTransactionSummary.avg_monthly_revenue s
    /\ CheckingTransactionSummaryResponse.total_credits resp
       = LendingTransactionSummary.total_credits s
    /\ CheckingTransactionSummaryResponse.total_debits resp
       = LendingTransactionSummary.total_debits s
    /\ CheckingTransactionSummaryResponse.overdraft_count resp
       = LendingTransactionSummary.overdraft_count s.
Proof.
  intros H Hs. unfold get_checking_transaction_summary_for_lending.
  enter_store H. unfold bind at 1, get. cbn beta iota. rewrite Hs.
  unfold ret. eexists. split; [reflexivity|]. repeat split.
Qed.

Lemma summary_none (st : Store)
    (payload : GetCheckingTransactionSummaryRequest.t)
    (app_obj : LendingApplication.t) :
  query_application (session st)
    (GetCheckingTransactionSummaryRequest.lending_application_id payload)
  = Some app_obj ->
  latest_summary st
    (GetCheckingTransactionSummaryRequest.lending_application_id payload)
  = None ->
  get_checking_transaction_summary_for_lending payload st
  = match LendingApplication.checking_account_id app_obj with
    | Some k => (Ok (empty_summary k), st)
    | None => (Raise internal_server_error, st)
    end.
Proof.
  intros H Hs. unfold get_checking_transaction_summary_for_lending.
  enter_store H. unfold bind at 1, get. cbn beta iota. rewrite Hs.
  now destruct (LendingApplication.checking_account_id app_obj).
Qed.

(** X15. The summary endpoint answers from the latest stored summary of
    the application, whatever look-back the request names, and writes
    nothing. Underwriting recommends twice the average monthly revenue
    that endpoint reports when it is positive, and 50 000 when it is
    empty or not positive. Without a summary underwriting recommends
    50 000, and the endpoint answers with the checking account of the
    application and no figure; when the application has no checking
    account, which the response requires, it fails with a server
    error. *)
Theorem X15_exposure_from_summary (st : Store)
    (payload : GetCheckingTransactionSummaryRequest.t)
    (app_obj : LendingApplication.t) (b : Business.t)
    (new_id : UUID) (now : datetime) :
  let app_id :=
    GetCheckingTransactionSummaryRequest.lending_application_id payload in
  query_application (session st) app_id = Some app_obj ->
  business st app_obj = Some b ->
  exists resp st1,
    run_lending_underwriting new_id now app_id st = (Ok resp, st1)
    /\ (forall s, latest_summary st app_id = Some s ->
          In s (transaction_summaries st app_id)
          /\ Forall (fun s' => (LendingTransactionSummary.created_at s'
                                <= LendingTransactionSummary.created_at s)%Z)
                    (transaction_summaries st app_id)
          /\ exists summary,
               get_checking_transaction_summary_for_lending payload st
               = (Ok summary, st)
               /\ CheckingTransactionSummaryResponse.avg_monthly_revenue summary
                  = LendingTransactionSummary.avg_monthly_revenue s
               /\ CheckingTransactionSummaryResponse.checking_account_id summary
                  = LendingTransactionSummary.checking_account_id s
               /\ (forall v,
                     CheckingTransactionSummaryResponse.avg_monthly_revenue
                       summary = Some v ->
                     PrimFloat.ltb 0%float v = true ->
                     RunLendingUnderwritingResponse.recommended_max_exposure resp
                     = (v * 2)%float)
               /\ (forall v,
                     CheckingTransactionSummaryResponse.avg_monthly_revenue
                       summary = Some v ->
                     PrimFloat.ltb 0%float v = false ->
                     RunLendingUnderwritingResponse.recommended_max_exposure resp
                     = 50000%float)
               /\ (CheckingTransactionSummaryResponse.avg_monthly_revenue summary
                   = None ->
                   RunLendingUnderwritingResponse.recommended_max_exposure resp
                   = 50000%float))
    /\ (transaction_summaries st app_id = [] ->
        RunLendingUnderwritingResponse.recommended_max_exposure resp
        = 50000%float
        /\ (forall k,
              LendingApplication.checking_account_id app_obj = Some k ->
              exists summary,
                get_checking_transaction_summary_for_lending payload st
                = (Ok summary, st)
                /\ CheckingTransactionSummaryResponse.checking_account_id summary
                   = k
                /\ CheckingTransactionSummaryResponse.avg_monthly_revenue summary
                   = None
                /\ CheckingTransactionSummaryResponse.total_credits summary
                   = None
                /\ CheckingTransactionSummaryResponse.total_debits summary
                   = None)
        /\ (LendingApplication.checking_account_id app_obj = None ->
            get_checking_transaction_summary_for_lending payload st
            = (Raise internal_server_error, st))).
Proof.
  intros app_id H Hb.
  eexists. eexists.
  split; [apply (underwriting_run _ _ _ _ _ _ H Hb)|].
  cbn [underwriting_response
       RunLendingUnderwritingResponse.recommended_max_exposure].
  split.
  - intros s Hs.
    destruct (latest_spec _ _ _ Hs) as [Hin Hall].
    split; [exact Hin|]. split; [exact Hall|].
    destruct (summary_found st payload app_obj s H Hs)
      as (summary & Hsum & Hacc & Hrev & _).
    exists summary. split; [exact Hsum|]. split; [exact Hrev|].
    split; [exact Hacc|].
    unfold reported_revenue. rewrite Hs, Hrev. unfold exposure_of.
    split; [|split].
    + intros v Hv Hpos. now rewrite Hv, Hpos.
    + intros v Hv Hpos. now rewrite Hv, Hpos.
    + intros Hv. now rewrite Hv.
  - intros Hempty.
    assert (E : latest_summary st app_id = None)
      by (unfold latest_summary; now rewrite Hempty).
    pose proof (summary_none st payload app_obj H E) as Hsum.
    split; [unfold reported_revenue; now rewrite E|].
    split.
    + intros k Hk. rewrite Hk in Hsum.
      exists (empty_summary k). split; [exact Hsum|]. repeat split.
    + intros Hk. now rewrite Hk in Hsum.
Qed.

Lemma X15_exposure_from_summary_witness :
  exists summary resp st1,
    get_checking_transaction_summary_for_lending
      {| GetCheckingTransactionSummaryRequest.lending_application_id := 11%N;
         GetCheckingTransactionSummaryRequest.lookback_months := Some 3%Z |}
      LendingMoreSamples.weak_store
    = (Ok summary, LendingMoreSamples.weak_store)
    /\ run_lending_underwriting 31%N 300%Z 11%N LendingMoreSamples.weak_store
       = (Ok resp, st1)
    /\ CheckingTransactionSummaryResponse.avg_monthly_revenue summary
       = Some 30000%float
    /\ RunLendingUnderwritingResponse.recommended_max_exposure resp
       = 60000%float.
Proof.
  destruct (X15_exposure_from_summary LendingMoreSamples.weak_store
              {| GetCheckingTransactionSummaryRequest.lending_application_id := 11%N;
                 GetCheckingTransactionSummaryRequest.lookback_months := Some 3%Z |}
              LendingSamples.lending_application LendingMoreSamples.acme
              31%N 300%Z eq_refl eq_refl)
    as (resp & st1 & Hrun & Hlast & _).
  destruct (Hlast (LendingMoreSamples.summary 91%N (Some 30000%float) 50%Z)
              eq_refl)
    as (_ & _ & summary & Hsum & Hrev & _ & Hpos & _).
  cbn [LendingMoreSamples.summary
       LendingTransactionSummary.avg_monthly_revenue] in Hrev.
  exists summary, resp, st1.
  split; [exact Hsum|]. split; [exact Hrun|]. split; [exact Hrev|].
  exact (Hpos 30000%float Hrev eq_refl).
Defined.

(** *** From underwriting to an offer *)

Lemma underwrite_then_generate (st : Store) (app_id : UUID)
    (app_obj : LendingApplication.t) (b : Business.t)
    (uw_id offer_id : UUID) (now later_on : datetime)
    (payload : GenerateCreditLineOffersRequest) (n : Z) :
  query_application (session st) app_id = Some app_obj ->
  business st app_obj = Some b ->
  lending_application_id payload = app_id ->
  Forall (fun u => (LendingUnderwriting.created_at u < now)%Z)
         (underwriting_results (session st) app_id) ->
  let uw := underwriting_row uw_id now st app_id b in
  int_of_float (exposure_basis uw * 0.8)%float = Some n ->
  Forall (fun o => LendingOffer.offer_code o
                   <> ("OFFER-LOC-" ++ str_of_int n)%string)
         (lending_offers (session st)) ->
  let st1 := add_underwriting uw st in
  let offer := offer_row offer_id later_on app_id (exposure_basis uw) n in
  run_lending_underwriting uw_id now app_id st
  = (Ok (underwriting_response uw_id st app_id b), st1)
  /\ generate_credit_line_offers offer_id later_on payload (session st1)
     = (Ok {| offers_out := [offer_model offer] |},
        add_offer offer (session st1)).
Proof.
  intros H Hb Hp Hold uw Hint Hfree st1 offer.
  split; [apply (underwriting_run _ _ _ _ _ _ H Hb)|].
  subst app_id.
  apply (generate_run (session st1) payload app_obj uw n offer_id later_on).
  - exact H.
  - unfold st1.
    rewrite (underwriting_after_add st uw (lending_application_id payload)
               eq_refl).
    apply latest_app_newest. exact Hold.
  - exact Hint.
  - exact Hfree.
Qed.

(** X16. After an underwriting run later than the earlier ones of the
    application, offer generation works from that run, whichever
    underwriting id the request names: the limit is 0.8 times the
    exposure basis of the new row, the maximum is the basis, the minimum
    half the limit, and the code is OFFER-LOC- followed by the limit
    truncated to an integer. The basis is the recommended exposure of
    the underwriting response unless that is zero. No stored offer
    carries the code, which the offer table requires to be unique. *)
Theorem X16_offer_follows_underwriting (st : Store) (app_id : UUID)
    (app_obj : LendingApplication.t) (b : Business.t)
    (uw_id offer_id : UUID) (now later_on : datetime)
    (payload : GenerateCreditLineOffersRequest) (n : Z) :
  query_application (session st) app_id = Some app_obj ->
  business st app_obj = Some b ->
  lending_application_id payload = app_id ->
  Forall (fun u => (LendingUnderwriting.created_at u < now)%Z)
         (underwriting_results (session st) app_id) ->
  int_of_float
    (float_or (Some (exposure_of (reported_revenue st app_id))) 50000 * 0.8)%float
  = Some n ->
  Forall (fun o => LendingOffer.offer_code o
                   <> ("OFFER-LOC-" ++ str_of_int n)%string)
         (lending_offers (session st)) ->
  exists resp st1 offer,
    run_lending_underwriting uw_id now app_id st = (Ok resp, st1)
    /\ generate_credit_line_offers offer_id later_on payload (session st1)
       = (Ok {| offers_out := [offer_model offer] |},
          add_offer offer (session st1))
    /\ LendingOffer.lending_application_id offer = app_id
    /\ LendingOffer.credit_limit offer
       = (float_or (Some (RunLendingUnderwritingResponse.recommended_max_exposure
                            resp)) 50000 * 0.8)%float
    /\ LendingOffer.max_credit_limit offer
       = Some (float_or (Some (RunLendingUnderwritingResponse.recommended_max_exposure
                                 resp)) 50000)
    /\ LendingOffer.min_credit_limit offer
       = Some (LendingOffer.credit_limit offer * 0.5)%float
    /\ LendingOffer.offer_code offer = ("OFFER-LOC-" ++ str_of_int n)%string
    /\ (PrimFloat.eqb (RunLendingUnderwritingResponse.recommended_max_exposure resp)
                      0%float = false ->
        LendingOffer.max_credit_limit offer
        = Some (RunLendingUnderwritingResponse.recommended_max_exposure resp)).
Proof.
  intros H Hb Hp Hold Hint Hfree.
  destruct (underwrite_then_generate st app_id app_obj b uw_id offer_id now
              later_on payload n H Hb Hp Hold Hint Hfree) as [Hrun Hgen].
  eexists. eexists. eexists.
  split; [exact Hrun|]. split; [exact Hgen|].
  cbn [offer_row underwriting_response underwriting_row exposure_basis
       LendingOffer.lending_application_id LendingOffer.credit_limit
       LendingOffer.max_credit_limit LendingOffer.min_credit_limit
       LendingOffer.offer_code
       LendingUnderwriting.recommended_max_exposure
       RunLendingUnderwritingResponse.recommended_max_exposure].
  unfold exposure_basis.
  cbn [underwriting_row LendingUnderwriting.recommended_max_exposure].
  do 5 (split; [reflexivity|]).
  intros Hz. unfold float_or. now rewrite Hz.
Qed.

Lemma X16_offer_follows_underwriting_witness :
  exists resp st1 offer,
    run_lending_underwriting 31%N 300%Z 11%N LendingMoreSamples.weak_store
    = (Ok resp, st1)
    /\ generate_credit_line_offers 32%N 301%Z LendingSamples.offers_request
         (session st1)
       = (Ok {| offers_out := [offer_model offer] |},
          add_offer offer (session st1))
    /\ LendingOffer.offer_code offer = "OFFER-LOC-48000".
Proof.
  destruct (X16_offer_follows_underwriting LendingMoreSamples.weak_store 11%N
              LendingSamples.lending_application LendingMoreSamples.acme
              31%N 32%N 300%Z 301%Z LendingSamples.offers_request 48000%Z
              eq_refl eq_refl eq_refl (Forall_nil _) eq_refl (Forall_nil _))
    as (resp & st1 & offer & Hrun & Hgen & _ & _ & _ & _ & Hcode & _).
  exists resp, st1, offer.
  split; [exact Hrun|]. split; [exact Hgen|]. exact Hcode.
Defined.

(** X17. An application without a transaction summary, underwritten now
    and later than any earlier run, gets the same offer whatever its
    bureau score and requested amount: limit 40 000, minimum 20 000,
    maximum 50 000, code OFFER-LOC-40000. No stored offer carries that
    code, which the offer table requires to be unique. *)
Theorem X17_default_offer (st : Store) (app_id : UUID)
    (app_obj : LendingApplication.t) (b : Business.t)
    (uw_id offer_id : UUID) (now later_on : datetime)
    (payload : GenerateCreditLineOffersRequest) :
  query_application (session st) app_id = Some app_obj ->
  business st app_obj = Some b ->
  lending_application_id payload = app_id ->
  Forall (fun u => (LendingUnderwriting.created_at u < now)%Z)
         (underwriting_results (session st) app_id) ->
  transaction_summaries st app_id = [] ->
  Forall (fun o => LendingOffer.offer_code o <> "OFFER-LOC-40000")
         (lending_offers (session st)) ->
  exists resp st1 offer,
    run_lending_underwriting uw_id now app_id st = (Ok resp, st1)
    /\ generate_credit_line_offers offer_id later_on payload (session st1)
       = (Ok {| offers_out := [offer_model offer] |},
          add_offer offer (session st1))
    /\ RunLendingUnderwritingResponse.recommended_max_exposure resp
       = 50000%float
    /\ LendingOffer.credit_limit offer = 40000%float
    /\ LendingOffer.min_credit_limit offer = Some 20000%float
    /\ LendingOffer.max_credit_limit offer = Some 50000%float
    /\ LendingOffer.offer_code offer = "OFFER-LOC-40000".
Proof.
  intros H Hb Hp Hold Hempty Hfree.
  assert (Hrev : reported_revenue st app_id = None).
  { unfold reported_revenue, latest_summary. now rewrite Hempty. }
  assert (Hint : int_of_float
                   (exposure_basis (underwriting_row uw_id now st app_id b)
                    * 0.8)%float = Some 40000%Z).
  { unfold exposure_basis.
    cbn [underwriting_row LendingUnderwriting.recommended_max_exposure].
    rewrite Hrev. reflexivity. }
  destruct (underwrite_then_generate st app_id app_obj b uw_id offer_id now
              later_on payload 40000%Z H Hb Hp Hold Hint Hfree)
    as [Hrun Hgen].
  eexists. eexists. eexists.
  split; [exact Hrun|]. split; [exact Hgen|].
  cbn [offer_row underwriting_response underwriting_row
       LendingOffer.credit_limit LendingOffer.max_credit_limit
       LendingOffer.min_credit_limit LendingOffer.offer_code
       RunLendingUnderwritingResponse.recommended_max_exposure].
  unfold exposure_basis.
  cbn [underwriting_row LendingUnderwriting.recommended_max_exposure].
  rewrite Hrev. repeat split.
Qed.

Lemma X17_default_offer_witness :
  exists resp st1 offer,
    run_lending_underwriting 31%N 300%Z 11%N LendingMoreSamples.new_store
    = (Ok resp, st1)
    /\ generate_credit_line_offers 32%N 301%Z LendingSamples.offers_request
         (session st1)
       = (Ok {| offers_out := [offer_model offer] |},
          add_offer offer (session st1))
    /\ LendingOffer.offer_code offer = "OFFER-LOC-40000".
Proof.
  destruct (X17_default_offer LendingMoreSamples.new_store 11%N
              LendingSamples.lending_application LendingMoreSamples.acme
              31%N 32%N 300%Z 301%Z LendingSamples.offers_request
              eq_refl eq_refl eq_refl (Forall_nil _) eq_refl (Forall_nil _))
    as (resp & st1 & offer & Hrun & Hgen & _ & _ & _ & _ & Hcode).
  exists resp, st1, offer.
  split; [exact Hrun|]. split; [exact Hgen|]. exact Hcode.
Defined.


(** *** Credit reports *)

Lemma latest_nulls_first_some {A : Type} (key : A -> option datetime)
    (l : list A) (b : A) :
  exists x, fold_left (latest_nulls_first_step key) l (Some b) = Some x
            /\ (x = b \/ In x l).
Proof.
  revert b. induction l as [|a l IH]; intros b; cbn [fold_left].
  - exists b. split; [reflexivity | now left].
  - unfold latest_nulls_first_step at 2.
    destruct (later (key b) (key a)).
    + destruct (IH a) as (x & Hx & Hin). exists x. split; [exact Hx|].
      right. destruct Hin as [->|Hin]; [now left | now right].
    + destruct (IH b) as (x & Hx & Hin). exists x. split; [exact Hx|].
      destruct Hin as [->|Hin]; [now left | right; now right].
Qed.

Lemma latest_nulls_first_In {A : Type} (key : A -> option datetime)
    (l : list A) (x : A) :
  latest_nulls_first key l = Some x -> In x l.
Proof.
  destruct l as [|a l]; [discriminate|].
  unfold latest_nulls_first. cbn [fold_left latest_nulls_first_step].
  destruct (latest_nulls_first_some key l a) as (x' & Hx & Hin).
  rewrite Hx. intros [= <-].
  destruct Hin as [->|Hin]; [now left | now right].
Qed.

Lemma latest_nulls_first_nil {A : Type} (key : A -> option datetime)
    (l : list A) :
  latest_nulls_first key l = None <-> l = [].
Proof.
  split; [|now intros ->].
  destruct l as [|a l]; [reflexivity|].
  unfold latest_nulls_first. cbn [fold_left latest_nulls_first_step].
  destruct (latest_nulls_first_some key l a) as (x & Hx & _).
  rewrite Hx. discriminate.
Qed.

Lemma latest_nulls_first_newest {A : Type} (key : A -> option datetime)
    (l : list A) (x : A) (now : datetime) :
  key x = Some now ->
  Forall (fun y => exists t, key y = Some t /\ (t < now)%Z) l ->
  latest_nulls_first key (l ++ [x]) = Some x.
Proof.
  intros Hx Hall. unfold latest_nulls_first. rewrite fold_left_app.
  cbn [fold_left]. fold (latest_nulls_first key l).
  destruct (latest_nulls_first key l) as [b|] eqn:E; [|reflexivity].
  apply latest_nulls_first_In in E.
  rewrite Forall_forall in Hall. destruct (Hall b E) as (t & Hb & Hlt).
  unfold latest_nulls_first_step, later. rewrite Hb, Hx.
  apply Z.ltb_lt in Hlt. now rewrite Hlt.
Qed.

Lemma credit_reports_after_add (st : Store) (r : BusinessCreditReport.t)
    (app_id : UUID) :
  BusinessCreditReport.lending_application_id r = app_id ->
  credit_reports (add_report r st) app_id = credit_reports st app_id ++ [r].
Proof.
  intros Hk. unfold credit_reports, add_report.
  cbn [business_credit_reports]. rewrite filter_app. cbn [filter].
  now rewrite Hk, N.eqb_refl.
Qed.

Lemma bureau_reports_after_add (st : Store) (r : BusinessCreditReport.t)
    (app_id : UUID) (bureau : string) :
  BusinessCreditReport.lending_application_id r = app_id ->
  BusinessCreditReport.bureau r = bureau ->
  bureau_reports (add_report r st) app_id bureau
  = bureau_reports st app_id bureau ++ [r].
Proof.
  intros Hk Hb. unfold bureau_reports.
  rewrite (credit_reports_after_add st r app_id Hk), filter_app. cbn [filter].
  now rewrite Hb, String.eqb_refl.
Qed.

Lemma pull_existing (st : Store) (payload : PullBusinessCreditReportRequest.t)
    (app_obj : LendingApplication.t) (existing : BusinessCreditReport.t)
    (new_id : UUID) (now : datetime) :
  query_application (session st)
    (PullBusinessCreditReportRequest.lending_application_id payload)
  = Some app_obj ->
  latest_nulls_first BusinessCreditReport.last_updated_at
    (bureau_reports st
       (PullBusinessCreditReportRequest.lending_application_id payload)
       (PullBusinessCreditReportRequest.bureau payload)) = Some existing ->
  pull_business_credit_report new_id now payload st
  = (Ok (report_model existing), st).
Proof.
  intros H Hex. unfold pull_business_credit_report. enter_store H.
  unfold bind at 1, get. cbn beta iota.
  fold (bureau_reports st
          (PullBusinessCreditReportRequest.lending_application_id payload)
          (PullBusinessCreditReportRequest.bureau payload)).
  now rewrite Hex.
Qed.

Lemma pull_fresh (st : Store) (payload : PullBusinessCreditReportRequest.t)
    (app_obj : LendingApplication.t) (new_id : UUID) (now : datetime) :
  query_application (session st)
    (PullBusinessCreditReportRequest.lending_application_id payload)
  = Some app_obj ->
  bureau_reports st
    (PullBusinessCreditReportRequest.lending_application_id payload)
    (PullBusinessCreditReportRequest.bureau payload) = [] ->
  let r := pulled_report new_id now
             (PullBusinessCreditReportRequest.lending_application_id payload)
             (PullBusinessCreditReportRequest.bureau payload) in
  pull_business_credit_report new_id now payload st
  = (Ok (report_model r), add_report r st).
Proof.
  intros H Hnone. unfold pull_business_credit_report. enter_store H.
  unfold bind at 1, get. cbn beta iota.
  fold (bureau_reports st
          (PullBusinessCreditReportRequest.lending_application_id payload)
          (PullBusinessCreditReportRequest.bureau payload)).
  rewrite Hnone. reflexivity.
Qed.

Lemma query_after_report (st : Store) (r : BusinessCreditReport.t)
    (app_id : UUID) :
  query_application (session (add_report r st)) app_id
  = query_application (session st) app_id.
Proof. reflexivity. Qed.

(** X18. Pulling a credit report is idempotent per application and
    bureau. The first pull for a bureau stores one report with score 80,
    band GOOD and no delinquency, dated now; when a report from that
    bureau is on file the pull returns one of them and writes nothing.
    Either way a second pull returns the answer of the first and leaves
    the store as the first left it, so an application never gets a
    second report from a bureau this way. *)
Theorem X18_pull_idempotent (st : Store)
    (payload : PullBusinessCreditReportRequest.t)
    (app_obj : LendingApplication.t) (new_id : UUID) (now : datetime) :
  let app_id := PullBusinessCreditReportRequest.lending_application_id payload in
  let bureau := PullBusinessCreditReportRequest.bureau payload in
  query_application (session st) app_id = Some app_obj ->
  exists r st1,
    pull_business_credit_report new_id now payload st
    = (Ok (report_model r), st1)
    /\ (forall again at_,
          pull_business_credit_report again at_ payload st1
          = (Ok (report_model r), st1))
    /\ BusinessCreditReport.lending_application_id r = app_id
    /\ BusinessCreditReport.bureau r = bureau
    /\ (bureau_reports st app_id bureau = [] ->
        st1 = add_report r st
        /\ bureau_reports st1 app_id bureau = [r]
        /\ BusinessCreditReport.id r = new_id
        /\ BusinessCreditReport.score r = Some 80%Z
        /\ BusinessCreditReport.score_band r = Some "GOOD"
        /\ BusinessCreditReport.delinquencies_count r = Some 0%Z
        /\ BusinessCreditReport.bankruptcies_count r = Some 0%Z
        /\ BusinessCreditReport.last_updated_at r = Some now)
    /\ (bureau_reports st app_id bureau <> [] ->
        st1 = st /\ In r (bureau_reports st app_id bureau)).
Proof.
  intros app_id bureau H.
  destruct (latest_nulls_first BusinessCreditReport.last_updated_at
              (bureau_reports st app_id bureau)) as [existing|] eqn:E.
  - exists existing, st.
    pose proof (latest_nulls_first_In _ _ _ E) as Hin.
    split; [apply (pull_existing st payload app_obj existing _ _ H E)|].
    split; [intros again at_;
            apply (pull_existing st payload app_obj existing _ _ H E)|].
    unfold bureau_reports, credit_reports in Hin.
    apply filter_In in Hin. destruct Hin as [Hin Hb].
    apply filter_In in Hin. destruct Hin as [_ Hk].
    apply N.eqb_eq in Hk. apply String.eqb_eq in Hb.
    split; [exact Hk|]. split; [exact Hb|].
    split.
    + intros Hnone. rewrite Hnone in E. discriminate.
    + intros _. split; [reflexivity|].
      apply (latest_nulls_first_In _ _ _ E).
  - apply latest_nulls_first_nil in E.
    exists (pulled_report new_id now app_id bureau).
    exists (add_report (pulled_report new_id now app_id bureau) st).
    assert (Hafter :
      bureau_reports (add_report (pulled_report new_id now app_id bureau) st)
        app_id bureau = [pulled_report new_id now app_id bureau]).
    { rewrite (bureau_reports_after_add st
                 (pulled_report new_id now app_id bureau) app_id bureau
                 eq_refl eq_refl).
      now rewrite E. }
    split; [apply (pull_fresh st payload app_obj new_id now H E)|].
    split.
    { intros again at_.
      apply (pull_existing (add_report (pulled_report new_id now app_id bureau) st)
               payload app_obj _ again at_).
      - exact H.
      - fold app_id bureau. now rewrite Hafter. }
    split; [reflexivity|]. split; [reflexivity|].
    split.
    + intros _. split; [reflexivity|]. split; [exact Hafter|]. repeat split.
    + intros Hne. now elim Hne.
Qed.

Lemma X18_pull_idempotent_witness :
  exists r st1,
    pull_business_credit_report 41%N 400%Z
      {| PullBusinessCreditReportRequest.lending_application_id := 11%N;
         PullBusinessCreditReportRequest.bureau := "EQUIFAX" |}
      LendingMoreSamples.weak_store
    = (Ok (report_model r), st1)
    /\ pull_business_credit_report 42%N 401%Z
         {| PullBusinessCreditReportRequest.lending_application_id := 11%N;
            PullBusinessCreditReportRequest.bureau := "EQUIFAX" |} st1
       = (Ok (report_model r), st1)
    /\ BusinessCreditReport.id r = 41%N.
Proof.
  destruct (X18_pull_idempotent LendingMoreSamples.weak_store
              {| PullBusinessCreditReportRequest.lending_application_id := 11%N;
                 PullBusinessCreditReportRequest.bureau := "EQUIFAX" |}
              LendingSamples.lending_application 41%N 400%Z eq_refl)
    as (r & st1 & Hrun & Hagain & _ & _ & Hnew & _).
  destruct (Hnew eq_refl) as (_ & _ & Hid & _).
  exists r, st1. split; [exact Hrun|]. split; [apply Hagain | exact Hid].
Defined.

Lemma latest_run (st : Store) (app_id : UUID) (app_obj : LendingApplication.t) :
  query_application (session st) app_id = Some app_obj ->
  get_latest_business_credit_report app_id st
  = (Ok (option_map report_model (latest_report st app_id)), st).
Proof.
  intros H. unfold get_latest_business_credit_report. enter_store H.
  unfold bind at 1, get. cbn beta iota.
  now destruct (latest_report st app_id).
Qed.

(** X19. A report pulled now from a bureau with none on file, when every
    other report of the application is dated earlier, is the one the
    latest-report endpoint returns afterwards; with it the policy check
    does not raise LOW_BUREAU_SCORE and underwriting grades the
    application A with a default probability of 0.02. *)
Theorem X19_pulled_report_drives_decisions (st : Store)
    (payload : PullBusinessCreditReportRequest.t)
    (app_obj : LendingApplication.t) (b : Business.t)
    (new_id uw_id : UUID) (now later_on : datetime) :
  let app_id := PullBusinessCreditReportRequest.lending_application_id payload in
  let bureau := PullBusinessCreditReportRequest.bureau payload in
  query_application (session st) app_id = Some app_obj ->
  business st app_obj = Some b ->
  bureau_reports st app_id bureau = [] ->
  Forall (fun r => exists t, BusinessCreditReport.last_updated_at r = Some t
                             /\ (t < now)%Z)
         (credit_reports st app_id) ->
  exists pulled st1 policy uw st2,
    pull_business_credit_report new_id now payload st = (Ok pulled, st1)
    /\ get_latest_business_credit_report app_id st1 = (Ok (Some pulled), st1)
    /\ BusinessCreditReportResponse.report_id pulled = new_id
    /\ BusinessCreditReportResponse.score pulled = Some 80%Z
    /\ evaluate_lending_policy_eligibility app_id st1 = (Ok policy, st1)
    /\ ~ In "LOW_BUREAU_SCORE"
            (EvaluateLendingPolicyEligibilityResponse.reason_codes policy)
    /\ run_lending_underwriting uw_id later_on app_id st1 = (Ok uw, st2)
    /\ RunLendingUnderwritingResponse.risk_grade uw = "A"
    /\ RunLendingUnderwritingResponse.pd_estimate uw = 0.02%float
    /\ In "GOOD_BUREAU_SCORE"
          (RunLendingUnderwritingResponse.key_risk_drivers uw).
Proof.
  intros app_id bureau H Hb Hnone Hold.
  set (r := pulled_report new_id now app_id bureau).
  set (st1 := add_report r st).
  assert (Hlatest : latest_report st1 app_id = Some r).
  { unfold latest_report, st1.
    rewrite (credit_reports_after_add st r app_id eq_refl).
    apply (latest_nulls_first_newest _ _ _ now); [reflexivity | exact Hold]. }
  assert (Hscore : bureau_score st1 app_id = 80%Z).
  { unfold bureau_score. now rewrite Hlatest. }
  pose proof (policy_run st1 app_id app_obj b H Hb) as Hpol.
  cbn zeta in Hpol. rewrite Hlatest in Hpol.
  exists (report_model r), st1. eexists. eexists. eexists.
  split; [apply (pull_fresh st payload app_obj new_id now H Hnone)|].
  split.
  { rewrite (latest_run st1 app_id app_obj H). now rewrite Hlatest. }
  split; [reflexivity|]. split; [reflexivity|].
  split; [exact Hpol|].
  split.
  { cbn [EvaluateLendingPolicyEligibilityResponse.reason_codes r pulled_report
         BusinessCreditReport.score].
    change (80 <? 50)%Z with false. cbn [andb app].
    rewrite app_nil_r.
    destruct (_ && _); cbn; intuition discriminate. }
  split; [apply (underwriting_run st1 app_id app_obj b uw_id later_on H Hb)|].
  cbn [underwriting_response RunLendingUnderwritingResponse.risk_grade
       RunLendingUnderwritingResponse.pd_estimate
       RunLendingUnderwritingResponse.key_risk_drivers].
  rewrite Hscore. split; [reflexivity|]. split; [reflexivity|].
  unfold drivers_of. change (80 <=? 80)%Z with true.
  destruct (short_history b); cbn; auto.
Qed.

Lemma X19_pulled_report_drives_decisions_witness :
  exists pulled st1 uw st2,
    pull_business_credit_report 41%N 400%Z
      {| PullBusinessCreditReportRequest.lending_application_id := 11%N;
         PullBusinessCreditReportRequest.bureau := "EQUIFAX" |}
      LendingMoreSamples.weak_store
    = (Ok pulled, st1)
    /\ get_latest_business_credit_report 11%N st1 = (Ok (Some pulled), st1)
    /\ run_lending_underwriting 31%N 500%Z 11%N st1 = (Ok uw, st2)
    /\ RunLendingUnderwritingResponse.risk_grade uw = "A".
Proof.
  assert (Hold :
    Forall (fun r => exists t, BusinessCreditReport.last_updated_at r = Some t
                               /\ (t < 400)%Z)
           (credit_reports LendingMoreSamples.weak_store 11%N)).
  { constructor; [|constructor]. exists 60%Z. split; [reflexivity | lia]. }
  destruct (X19_pulled_report_drives_decisions LendingMoreSamples.weak_store
              {| PullBusinessCreditReportRequest.lending_application_id := 11%N;
                 PullBusinessCreditReportRequest.bureau := "EQUIFAX" |}
              LendingSamples.lending_application LendingMoreSamples.acme
              41%N 31%N 400%Z 500%Z eq_refl eq_refl eq_refl Hold)
    as (pulled & st1 & policy & uw & st2 & Hpull & Hget & _ & _ & _ & _
        & Hrun & Hgrade & _).
  exists pulled, st1, uw, st2.
  split; [exact Hpull|]. split; [exact Hget|]. split; [exact Hrun|].
  exact Hgrade.
Defined.


(** *** Selecting an offer *)

Lemma select_run (db : Session) (payload : SelectCreditOfferRequest.t)
    (app_obj : LendingApplication.t) :
  query_application db (SelectCreditOfferRequest.lending_application_id payload)
  = Some app_obj ->
  select_credit_offer_for_application payload db
  = match find (fun o =>
                  N.eqb (LendingOffer.id o)
                        (SelectCreditOfferRequest.offer_id payload)
                  && N.eqb (LendingOffer.lending_application_id o)
                           (SelectCreditOfferRequest.lending_application_id
                              payload))
               (lending_offers db) with
    | Some offer =>
        (Ok {| SelectCreditOfferResponse.status := "OFFER_SELECTED";
               SelectCreditOfferResponse.selected_offer_snapshot :=
                 offer_model offer |}, db)
    | None =>
        (Raise {| status_code := 404;
                  detail := "Offer not found for this application" |}, db)
    end.
Proof.
  intros H. unfold select_credit_offer_for_application. enter_lending H.
  unfold bind at 1, get. cbn beta iota.
  now destruct (find _ (lending_offers db)).
Qed.

Lemma find_app_last {A : Type} (p : A -> bool) (l : list A) (x : A) :
  Forall (fun y => p y = false) l ->
  p x = true ->
  find p (l ++ [x]) = Some x.
Proof.
  intros Hall Hx. induction Hall as [|a l Ha _ IH]; cbn [app find].
  - now rewrite Hx.
  - now rewrite Ha.
Qed.

(** X20. Selecting an offer succeeds exactly when an offer with the
    requested id belongs to the application: the answer is then
    OFFER_SELECTED with a snapshot of such an offer. An id that names no
    offer of the application, an offer of another application included,
    gives status 404. Either way nothing is written: the selection is
    not recorded and the status of the application stays as it was. *)
Theorem X20_select_offer (db : Session) (payload : SelectCreditOfferRequest.t)
    (app_obj : LendingApplication.t) :
  let app_id := SelectCreditOfferRequest.lending_application_id payload in
  let wanted := SelectCreditOfferRequest.offer_id payload in
  query_application db app_id = Some app_obj ->
  ((exists o, In o (offers db app_id) /\ LendingOffer.id o = wanted) ->
   exists o,
     In o (offers db app_id) /\ LendingOffer.id o = wanted
     /\ select_credit_offer_for_application payload db
        = (Ok {| SelectCreditOfferResponse.status := "OFFER_SELECTED";
                 SelectCreditOfferResponse.selected_offer_snapshot :=
                   offer_model o |}, db))
  /\ ((forall o, In o (offers db app_id) -> LendingOffer.id o <> wanted) ->
      exists e,
        select_credit_offer_for_application payload db = (Raise e, db)
        /\ is_not_found e = true)
  /\ snd (select_credit_offer_for_application payload db) = db.
Proof.
  intros app_id wanted H.
  rewrite (select_run db payload app_obj H). fold app_id wanted.
  destruct (find _ (lending_offers db)) as [o|] eqn:E.
  - apply find_some in E. destruct E as [Hin Hp].
    apply andb_true_iff in Hp. destruct Hp as [Hid Hk].
    apply N.eqb_eq in Hid.
    assert (Hin' : In o (offers db app_id))
      by (apply filter_In; split; assumption).
    split; [intros _; exists o; repeat split; assumption|].
    split; [|reflexivity].
    intros Hno. now elim (Hno o Hin').
  - split; [|split; [|reflexivity]].
    + intros (o & Hin & Hid).
      apply filter_In in Hin. destruct Hin as [Hin Hk].
      pose proof (find_none _ _ E o Hin) as Hp. cbn beta in Hp.
      rewrite Hk, Hid, N.eqb_refl in Hp. discriminate.
    + intros _. eexists. split; reflexivity.
Qed.

Lemma X20_select_offer_witness :
  (exists o,
     select_credit_offer_for_application
       {| SelectCreditOfferRequest.lending_application_id := 11%N;
          SelectCreditOfferRequest.offer_id := 31%N |}
       LendingSamples.offered_db
     = (Ok {| SelectCreditOfferResponse.status := "OFFER_SELECTED";
              SelectCreditOfferResponse.selected_offer_snapshot :=
                offer_model o |}, LendingSamples.offered_db))
  /\ exists e,
       select_credit_offer_for_application
         {| SelectCreditOfferRequest.lending_application_id := 11%N;
            SelectCreditOfferRequest.offer_id := 99%N |}
         LendingSamples.offered_db
       = (Raise e, LendingSamples.offered_db)
       /\ is_not_found e = true.
Proof.
  split.
  - destruct (X20_select_offer LendingSamples.offered_db
                {| SelectCreditOfferRequest.lending_application_id := 11%N;
                   SelectCreditOfferRequest.offer_id := 31%N |}
                LendingSamples.lending_application eq_refl) as (Hfound & _).
    destruct Hfound as (o & _ & _ & Hrun).
    + eexists. split; [left; reflexivity | reflexivity].
    + exists o. exact Hrun.
  - destruct (X20_select_offer LendingSamples.offered_db
                {| SelectCreditOfferRequest.lending_application_id := 11%N;
                   SelectCreditOfferRequest.offer_id := 99%N |}
                LendingSamples.lending_application eq_refl) as (_ & Hmiss & _).
    apply Hmiss. intros o [<-|[]]. discriminate.
Defined.

Lemma offers_after_add (db : Session) (o : LendingOffer.t) (app_id : UUID) :
  LendingOffer.lending_application_id o = app_id ->
  offers (add_offer o db) app_id = offers db app_id ++ [o].
Proof.
  intros Hk. unfold offers, add_offer. cbn [lending_offers].
  rewrite filter_app. cbn [filter]. now rewrite Hk, N.eqb_refl.
Qed.

(** X21. A generated offer can be selected at once: with an id no stored
    offer has, selecting it before generation gives status 404, and
    selecting it afterwards returns the snapshot generation returned. *)
Theorem X21_generated_offer_selectable (db : Session)
    (payload : GenerateCreditLineOffersRequest)
    (app_obj : LendingApplication.t) (uw : LendingUnderwriting.t) (n : Z)
    (new_id : UUID) (now : datetime) :
  let app_id := lending_application_id payload in
  let choice :=
    {| SelectCreditOfferRequest.lending_application_id := app_id;
       SelectCreditOfferRequest.offer_id := new_id |} in
  query_application db app_id = Some app_obj ->
  latest LendingUnderwriting.created_at (underwriting_results db app_id)
  = Some uw ->
  int_of_float (exposure_basis uw * 0.8)%float = Some n ->
  Forall (fun o => LendingOffer.id o <> new_id) (lending_offers db) ->
  Forall (fun o => LendingOffer.offer_code o
                   <> ("OFFER-LOC-" ++ str_of_int n)%string)
         (lending_offers db) ->
  exists snapshot db1 e,
    select_credit_offer_for_application choice db = (Raise e, db)
    /\ is_not_found e = true
    /\ generate_credit_line_offers new_id now payload db
       = (Ok {| offers_out := [snapshot] |}, db1)
    /\ select_credit_offer_for_application choice db1
       = (Ok {| SelectCreditOfferResponse.status := "OFFER_SELECTED";
                SelectCreditOfferResponse.selected_offer_snapshot := snapshot |},
          db1)
    /\ offer_id snapshot = new_id.
Proof.
  intros app_id choice H Hlatest Hint Hfresh Hfree.
  assert (Hno : Forall (fun o => N.eqb (LendingOffer.id o) new_id
                                 && N.eqb (LendingOffer.lending_application_id o)
                                          app_id = false)
                       (lending_offers db)).
  { apply Forall_forall. intros o Hin.
    rewrite Forall_forall in Hfresh. specialize (Hfresh o Hin).
    apply N.eqb_neq in Hfresh. now rewrite Hfresh. }
  eexists. eexists. eexists.
  split.
  { rewrite (select_run db choice app_obj H).
    cbn [choice SelectCreditOfferRequest.offer_id
         SelectCreditOfferRequest.lending_application_id].
    destruct (find _ (lending_offers db)) as [o|] eqn:E; [|reflexivity].
    apply find_some in E. destruct E as [Hin Hp].
    rewrite Forall_forall in Hno. rewrite (Hno o Hin) in Hp. discriminate. }
  split; [reflexivity|].
  split; [apply (generate_run db payload app_obj uw n new_id now
                   H Hlatest Hint Hfree)|].
  split; [|reflexivity].
  refine (eq_trans
            (select_run
               (add_offer (offer_row new_id now app_id (exposure_basis uw) n) db)
               choice app_obj H) _).
  cbn [choice SelectCreditOfferRequest.offer_id
       SelectCreditOfferRequest.lending_application_id add_offer lending_offers].
  rewrite (find_app_last _ _ _ Hno); [reflexivity|].
  cbn [offer_row LendingOffer.id LendingOffer.lending_application_id].
  fold app_id. now rewrite !N.eqb_refl.
Qed.

Lemma X21_generated_offer_selectable_witness :
  exists snapshot db1,
    generate_credit_line_offers 31%N 300%Z LendingSamples.offers_request
      LendingSamples.underwritten_db
    = (Ok {| offers_out := [snapshot] |}, db1)
    /\ select_credit_offer_for_application
         {| SelectCreditOfferRequest.lending_application_id := 11%N;
            SelectCreditOfferRequest.offer_id := 31%N |} db1
       = (Ok {| SelectCreditOfferResponse.status := "OFFER_SELECTED";
                SelectCreditOfferResponse.selected_offer_snapshot := snapshot |},
          db1).
Proof.
  destruct (X21_generated_offer_selectable LendingSamples.underwritten_db
              LendingSamples.offers_request LendingSamples.lending_application
              (LendingSamples.underwriting 22%N (Some 100000%float) 200%Z)
              80000%Z 31%N 300%Z eq_refl eq_refl eq_refl
              (Forall_nil _) (Forall_nil _))
    as (snapshot & db1 & e & _ & _ & Hgen & Hsel & _).
  exists snapshot, db1. split; [exact Hgen | exact Hsel].
Defined.

(** *** From an offer to a facility *)

Lemma open_facility_row (db : Session) (app_id : UUID)
    (app_obj : LendingApplication.t) (offer : LendingOffer.t)
    (new_id : UUID) (now : datetime) :
  query_application db app_id = Some app_obj ->
  facilities db app_obj = [] ->
  latest LendingOffer.created_at (offers db app_id) = Some offer ->
  open_credit_facility_from_lending_application new_id now app_id db
  = validated (facility_model (facility_row new_id now app_obj offer))
              (add_facility (facility_row new_id now app_obj offer) db).
Proof.
  intros H Hnone Hoffer. unfold open_credit_facility_from_lending_application.
  unfold bind at 1; rewrite (require_lending_found _ _ _ H); cbn beta iota.
  unfold bind at 1, get. cbn beta iota. rewrite Hnone. cbn [hd_error].
  rewrite <- (lending_application_id_found db app_id app_obj H) in Hoffer.
  rewrite Hoffer. cbn zeta. rewrite take_ten_digits. reflexivity.
Qed.

(** X22. Opening a facility right after generating an offer later than
    the stored ones, for an application without a facility, whatever
    offer was selected: one facility row is appended, which copies the
    type, the limit and the rate of that offer and the customer and the
    business of the application; its account number is 20 followed by
    the first ten hexadecimal digits of the application id, it is ACTIVE
    with billing day 15 and terms REVOLVING_NET_30. When the application
    names a customer and a business the call returns that facility.
    When it lacks one of them, which the response requires, the call
    fails with a server error after the row is stored. No stored offer
    carries the code of the new one. *)
Theorem X22_facility_from_generated_offer (db : Session)
    (payload : GenerateCreditLineOffersRequest)
    (app_obj : LendingApplication.t) (uw : LendingUnderwriting.t) (n : Z)
    (offer_id fac_id : UUID) (now later_on : datetime) :
  let app_id := lending_application_id payload in
  query_application db app_id = Some app_obj ->
  facilities db app_obj = [] ->
  latest LendingUnderwriting.created_at (underwriting_results db app_id)
  = Some uw ->
  int_of_float (exposure_basis uw * 0.8)%float = Some n ->
  Forall (fun o => (LendingOffer.created_at o < now)%Z) (offers db app_id) ->
  Forall (fun o => LendingOffer.offer_code o
                   <> ("OFFER-LOC-" ++ str_of_int n)%string)
         (lending_offers db) ->
  exists snapshot db1 f,
    generate_credit_line_offers offer_id now payload db
    = (Ok {| offers_out := [snapshot] |}, db1)
    /\ snd (open_credit_facility_from_lending_application fac_id later_on
              app_id db1)
       = add_facility f db1
    /\ credit_facilities (add_facility f db1) = credit_facilities db ++ [f]
    /\ facilities (add_facility f db1) app_obj = [f]
    /\ CreditFacility.id f = fac_id
    /\ CreditFacility.lending_application_id f = app_id
    /\ CreditFacility.customer_id f = LendingApplication.customer_id app_obj
    /\ CreditFacility.business_id f = LendingApplication.business_id app_obj
    /\ CreditFacility.facility_type f = "REVOLVING_LOC"
    /\ CreditFacility.credit_limit f = credit_limit snapshot
    /\ CreditFacility.credit_limit f = (exposure_basis uw * 0.8)%float
    /\ CreditFacility.apr f = Some 0.14%float
    /\ CreditFacility.account_number f
       = ("20" ++ hex_fixed 10 (N.shiftr app_id 88))%string
    /\ String.length (CreditFacility.account_number f) = 12
    /\ CreditFacility.status f = "ACTIVE"
    /\ CreditFacility.billing_cycle_day f = Some 15%Z
    /\ CreditFacility.drawdown_terms f = Some "REVOLVING_NET_30"
    /\ (forall c b,
          LendingApplication.customer_id app_obj = Some c ->
          LendingApplication.business_id app_obj = Some b ->
          exists resp,
            open_credit_facility_from_lending_application fac_id later_on
              app_id db1
            = (Ok resp, add_facility f db1)
            /\ facility_id resp = fac_id
            /\ customer_id resp = c
            /\ business_id resp = b
            /\ facility_type resp = CreditFacility.facility_type f
            /\ facility_credit_limit resp = CreditFacility.credit_limit f
            /\ facility_apr resp = CreditFacility.apr f
            /\ account_number resp = CreditFacility.account_number f
            /\ status resp = CreditFacility.status f
            /\ billing_cycle_day resp = CreditFacility.billing_cycle_day f
            /\ drawdown_terms resp = CreditFacility.drawdown_terms f)
    /\ (LendingApplication.customer_id app_obj = None
        \/ LendingApplication.business_id app_obj = None ->
        open_credit_facility_from_lending_application fac_id later_on app_id db1
        = (Raise internal_server_error, add_facility f db1)).
Proof.
  intros app_id H Hnone Hlatest Hint Hold Hfree.
  set (offer := offer_row offer_id now app_id (exposure_basis uw) n).
  set (db1 := add_offer offer db).
  set (f := facility_row fac_id later_on app_obj offer).
  assert (Hoffer : latest LendingOffer.created_at (offers db1 app_id)
                   = Some offer).
  { unfold db1. rewrite (offers_after_add db offer app_id eq_refl).
    apply latest_app_newest. exact Hold. }
  pose proof (lending_application_id_found db app_id app_obj H) as Hid.
  pose proof (open_facility_row db1 app_id app_obj offer fac_id later_on
                H Hnone Hoffer) as Hopen.
  fold f in Hopen.
  exists (offer_model offer), db1, f.
  split; [apply (generate_run db payload app_obj uw n offer_id now
                   H Hlatest Hint Hfree)|].
  split.
  { rewrite Hopen. unfold validated, ret, raise.
    now destruct (facility_model f). }
  split; [reflexivity|].
  split.
  { rewrite (facilities_after_add db1 app_obj f eq_refl).
    change (facilities db1 app_obj) with (facilities db app_obj).
    now rewrite Hnone. }
  cbn [f facility_row offer offer_row offer_model credit_limit
       CreditFacility.id CreditFacility.lending_application_id
       CreditFacility.facility_type
       CreditFacility.credit_limit CreditFacility.apr
       CreditFacility.account_number CreditFacility.status
       CreditFacility.billing_cycle_day CreditFacility.drawdown_terms
       CreditFacility.customer_id CreditFacility.business_id
       LendingOffer.product_type LendingOffer.credit_limit LendingOffer.apr].
  rewrite Hid.
  do 9 (split; [reflexivity|]).
  split; [cbn [String.length String.append]; now rewrite hex_fixed_length|].
  do 3 (split; [reflexivity|]).
  split.
  - intros c b Hc Hb. rewrite Hopen. unfold facility_model.
    cbn [f facility_row CreditFacility.customer_id CreditFacility.business_id].
    rewrite Hc, Hb. unfold validated, ret.
    eexists. split; [reflexivity|].
    cbn [facility_id customer_id business_id facility_type
         facility_credit_limit facility_apr account_number status
         billing_cycle_day drawdown_terms f facility_row offer offer_row
         LendingOffer.product_type LendingOffer.credit_limit LendingOffer.apr
         CreditFacility.id CreditFacility.facility_type
         CreditFacility.credit_limit CreditFacility.apr
         CreditFacility.account_number CreditFacility.status
         CreditFacility.billing_cycle_day CreditFacility.drawdown_terms].
    rewrite ?Hid. repeat split.
  - intros Hmissing. rewrite Hopen. unfold facility_model.
    cbn [f facility_row CreditFacility.customer_id CreditFacility.business_id].
    destruct Hmissing as [Hm|Hm]; rewrite Hm;
      [|destruct (LendingApplication.customer_id app_obj)]; reflexivity.
Qed.

Lemma X22_facility_from_generated_offer_witness :
  exists snapshot db1 f resp,
    generate_credit_line_offers 31%N 300%Z LendingSamples.offers_request
      LendingSamples.underwritten_db
    = (Ok {| offers_out := [snapshot] |}, db1)
    /\ open_credit_facility_from_lending_application 61%N 400%Z 11%N db1
       = (Ok resp, add_facility f db1)
    /\ CreditFacility.credit_limit f = 80000%float
    /\ account_number resp = "200000000000".
Proof.
  destruct (X22_facility_from_generated_offer LendingSamples.underwritten_db
              LendingSamples.offers_request LendingSamples.lending_application
              (LendingSamples.underwriting 22%N (Some 100000%float) 200%Z)
              80000%Z 31%N 61%N 300%Z 400%Z eq_refl eq_refl eq_refl eq_refl
              (Forall_nil _) (Forall_nil _))
    as (snapshot & db1 & f & Hgen & _ & _ & _ & _ & _ & _ & _ & _ & _ & Hlim
        & _ & Hnum & _ & _ & _ & _ & Hknown & _).
  destruct (Hknown "CUST-1" 1%N eq_refl eq_refl)
    as (resp & Hopen & _ & _ & _ & _ & _ & _ & Hacc & _).
  exists snapshot, db1, f, resp.
  split; [exact Hgen|]. split; [exact Hopen|]. split; [exact Hlim|].
  rewrite Hacc. exact Hnum.
Defined.

(** *** Decision notifications *)

Lemma send_lending_run (st : Store)
    (payload : SendLendingDecisionNotificationRequest.t)
    (app_obj : LendingApplication.t) (new_id : UUID) (now : datetime) :
  query_application (session st)
    (SendLendingDecisionNotificationRequest.lending_application_id payload)
  = Some app_obj ->
  send_lending_decision_notification new_id now payload st
  = (Ok {| SendLendingDecisionNotificationResponse.notification_id := new_id;
           SendLendingDecisionNotificationResponse.delivery_status := "SENT" |},
     add_notification (lending_notification new_id now payload) st).
Proof.
  intros H. unfold send_lending_decision_notification. enter_store H.
  unfold bind, get, put, ret. cbn beta iota zeta.
  unfold lending_notification.
  now destruct (SendLendingDecisionNotificationRequest.reason_codes payload).
Qed.

(** X23. A lending-decision notification for a known application is
    always reported SENT and appends exactly one row of context
    LENDING_APPLICATION with the channel, the decision and the reason
    codes of the request. No other table is touched, and an approval can
    be notified for an application without underwriting, offer or
    facility. Sending the request again appends a second row. *)
Theorem X23_lending_notification (st : Store)
    (payload : SendLendingDecisionNotificationRequest.t)
    (app_obj : LendingApplication.t) (id1 id2 : UUID) (now1 now2 : datetime) :
  query_application (session st)
    (SendLendingDecisionNotificationRequest.lending_application_id payload)
  = Some app_obj ->
  exists resp1 resp2 st1 st2 n1 n2,
    send_lending_decision_notification id1 now1 payload st = (Ok resp1, st1)
    /\ send_lending_decision_notification id2 now2 payload st1 = (Ok resp2, st2)
    /\ SendLendingDecisionNotificationResponse.delivery_status resp1 = "SENT"
    /\ SendLendingDecisionNotificationResponse.notification_id resp1 = id1
    /\ SendLendingDecisionNotificationResponse.delivery_status resp2 = "SENT"
    /\ SendLendingDecisionNotificationResponse.notification_id resp2 = id2
    /\ notifications st1 = notifications st ++ [n1]
    /\ notifications st2 = notifications st ++ [n1; n2]
    /\ session st2 = session st
    /\ business_credit_reports st2 = business_credit_reports st
    /\ lending_transaction_summaries st2 = lending_transaction_summaries st
    /\ Notification.id n1 = id1
    /\ Notification.context_type n1 = "LENDING_APPLICATION"
    /\ Notification.context_id n1 = LendingApplication.id app_obj
    /\ Notification.channel n1
       = channel_text (SendLendingDecisionNotificationRequest.channel payload)
    /\ Notification.decision n1
       = decision_text (SendLendingDecisionNotificationRequest.decision payload)
    /\ Notification.reason_codes n1
       = SendLendingDecisionNotificationRequest.reason_codes payload
    /\ Notification.delivery_status n1 = "SENT"
    /\ Notification.created_at n1 = now1
    /\ Notification.context_id n2 = Notification.context_id n1
    /\ Notification.decision n2 = Notification.decision n1.
Proof.
  intros H.
  pose proof (lending_application_id_found _ _ _ H) as Hid.
  do 6 eexists.
  split; [apply (send_lending_run st payload app_obj id1 now1 H)|].
  split; [apply (send_lending_run
                   (add_notification (lending_notification id1 now1 payload) st)
                   payload app_obj id2 now2 H)|].
  cbn [add_notification notifications session business_credit_reports
       lending_transaction_summaries lending_notification
       SendLendingDecisionNotificationResponse.delivery_status
       SendLendingDecisionNotificationResponse.notification_id
       Notification.id Notification.context_type Notification.context_id
       Notification.channel Notification.decision Notification.reason_codes
       Notification.delivery_status Notification.created_at].
  rewrite <- app_assoc. cbn [app]. rewrite Hid.
  repeat split.
Qed.

Lemma X23_lending_notification_witness :
  exists resp1 resp2 st1 st2 n1 n2,
    send_lending_decision_notification 71%N 800%Z
      {| SendLendingDecisionNotificationRequest.lending_application_id := 11%N;
         SendLendingDecisionNotificationRequest.channel := SMS;
         SendLendingDecisionNotificationRequest.decision := APPROVED;
         SendLendingDecisionNotificationRequest.reason_codes := [] |}
      LendingMoreSamples.new_store = (Ok resp1, st1)
    /\ send_lending_decision_notification 72%N 801%Z
         {| SendLendingDecisionNotificationRequest.lending_application_id := 11%N;
            SendLendingDecisionNotificationRequest.channel := SMS;
            SendLendingDecisionNotificationRequest.decision := APPROVED;
            SendLendingDecisionNotificationRequest.reason_codes := [] |} st1
       = (Ok resp2, st2)
    /\ notifications st2 = [n1; n2]
    /\ Notification.decision n1 = "APPROVED".
Proof.
  destruct (X23_lending_notification LendingMoreSamples.new_store
              {| SendLendingDecisionNotificationRequest.lending_application_id
                   := 11%N;
                 SendLendingDecisionNotificationRequest.channel := SMS;
                 SendLendingDecisionNotificationRequest.decision := APPROVED;
                 SendLendingDecisionNotificationRequest.reason_codes := [] |}
              LendingSamples.lending_application 71%N 72%N 800%Z 801%Z eq_refl)
    as (resp1 & resp2 & st1 & st2 & n1 & n2 & Hs1 & Hs2 & _ & _ & _ & _ & _
        & Hrows & _ & _ & _ & _ & _ & _ & _ & Hd & _).
  exists resp1, resp2, st1, st2, n1, n2.
  split; [exact Hs1|]. split; [exact Hs2|]. split; [exact Hrows | exact Hd].
Defined.

(** *** Unknown applications and missing relationships *)

Lemma session_require_none (db : Session) (app_id : UUID) :
  query_application db app_id = None ->
  require_lending_application app_id db = (Raise lending_not_found, db).
Proof.
  intros H. unfold require_lending_application, bind, get. now rewrite H.
Qed.

(** Leave a store endpoint, or a session endpoint, at its failed lookup. *)
Ltac leave_store H :=
  unfold bind;
  cbn [GetCheckingTransactionSummaryRequest.lending_application_id
       PullBusinessCreditReportRequest.lending_application_id
       SendLendingDecisionNotificationRequest.lending_application_id];
  rewrite (store_require_none _ _ H); reflexivity.

Ltac leave_session H :=
  unfold bind;
  cbn [lending_application_id SelectCreditOfferRequest.lending_application_id];
  rewrite (session_require_none _ _ H); reflexivity.

(** X24. For an application id that is not in the table every lending
    endpoint that takes an id raises the not-found error (status 404)
    and leaves every table as it was: no report, underwriting, offer,
    facility or notification is written. *)
Theorem X24_unknown_lending_application (st : Store) (app_id : UUID)
    (lookback : option Z) (bureau : string) (uw_id : option UUID) (offer : UUID)
    (channel : ChannelLiteral) (decision : DecisionLiteral)
    (codes : list string) (new_id : UUID) (now : datetime) :
  query_application (session st) app_id = None ->
  let db := session st in
  is_not_found lending_not_found = true
  /\ get_checking_transaction_summary_for_lending
       {| GetCheckingTransactionSummaryRequest.lending_application_id := app_id;
          GetCheckingTransactionSummaryRequest.lookback_months := lookback |} st
     = (Raise lending_not_found, st)
  /\ pull_business_credit_report new_id now
       {| PullBusinessCreditReportRequest.lending_application_id := app_id;
          PullBusinessCreditReportRequest.bureau := bureau |} st
     = (Raise lending_not_found, st)
  /\ get_latest_business_credit_report app_id st = (Raise lending_not_found, st)
  /\ evaluate_lending_policy_eligibility app_id st
     = (Raise lending_not_found, st)
  /\ run_lending_underwriting new_id now app_id st
     = (Raise lending_not_found, st)
  /\ generate_credit_line_offers new_id now
       {| lending_application_id := app_id; underwriting_id := uw_id |} db
     = (Raise lending_not_found, db)
  /\ select_credit_offer_for_application
       {| SelectCreditOfferRequest.lending_application_id := app_id;
          SelectCreditOfferRequest.offer_id := offer |} db
     = (Raise lending_not_found, db)
  /\ open_credit_facility_from_lending_application new_id now app_id db
     = (Raise lending_not_found, db)
  /\ send_lending_decision_notification new_id now
       {| SendLendingDecisionNotificationRequest.lending_application_id := app_id;
          SendLendingDecisionNotificationRequest.channel := channel;
          SendLendingDecisionNotificationRequest.decision := decision;
          SendLendingDecisionNotificationRequest.reason_codes := codes |} st
     = (Raise lending_not_found, st).
Proof.
  intros H db. subst db. split; [reflexivity|].
  split; [unfold get_checking_transaction_summary_for_lending; leave_store H|].
  split; [unfold pull_business_credit_report; leave_store H|].
  split; [unfold get_latest_business_credit_report; leave_store H|].
  split; [unfold evaluate_lending_policy_eligibility; leave_store H|].
  split; [unfold run_lending_underwriting; leave_store H|].
  split; [unfold generate_credit_line_offers; leave_session H|].
  split; [unfold select_credit_offer_for_application; leave_session H|].
  split; [unfold open_credit_facility_from_lending_application;
          leave_session H|].
  unfold send_lending_decision_notification; leave_store H.
Qed.

Lemma X24_unknown_lending_application_witness :
  run_lending_underwriting 31%N 300%Z 13%N LendingMoreSamples.new_store
  = (Raise lending_not_found, LendingMoreSamples.new_store)
  /\ open_credit_facility_from_lending_application 31%N 300%Z 13%N
       (session LendingMoreSamples.new_store)
     = (Raise lending_not_found, session LendingMoreSamples.new_store).
Proof.
  destruct (X24_unknown_lending_application LendingMoreSamples.new_store 13%N
              None "EXPERIAN" None 0%N EMAIL APPROVED [] 31%N 300%Z eq_refl)
    as (_ & _ & _ & _ & _ & Hrun & _ & _ & Hopen & _).
  split; [exact Hrun | exact Hopen].
Defined.

(** X25. An application whose business is not recorded cannot be
    assessed: the policy check and underwriting fail with a server
    error (status 500) and write nothing, so no underwriting row is
    left behind. The by-reference lookup of such an application fails
    the same way. *)
Theorem X25_missing_business (st : Store) (app_id : UUID)
    (app_obj : LendingApplication.t) (new_id : UUID) (now : datetime) :
  query_application (session st) app_id = Some app_obj ->
  business st app_obj = None ->
  status_code internal_server_error = 500%Z
  /\ evaluate_lending_policy_eligibility app_id st
     = (Raise internal_server_error, st)
  /\ run_lending_underwriting new_id now app_id st
     = (Raise internal_server_error, st)
  /\ (find (fun a => LendingApplication.reference a
                     =? LendingApplication.reference app_obj)
           (lending_applications (session st)) = Some app_obj ->
      get_lending_application_by_reference (LendingApplication.reference app_obj)
        st
      = (Raise internal_server_error, st)).
Proof.
  intros H Hb. split; [reflexivity|].
  split; [|split].
  - unfold evaluate_lending_policy_eligibility. enter_store H.
    unfold bind, get. cbn beta iota zeta. now rewrite Hb.
  - unfold run_lending_underwriting. enter_store H.
    unfold bind at 1, get. cbn beta iota zeta.
    destruct (80 <=? _)%Z; [|destruct (_ <? 60)%Z];
      unfold bind; rewrite Hb; reflexivity.
  - intros Href. unfold get_lending_application_by_reference.
    unfold bind at 1, get. cbn beta iota. rewrite Href.
    unfold build_lending_application_full, bind, get. cbn beta iota.
    rewrite Hb.
    now destruct (customer st app_obj).
Qed.

Lemma X25_missing_business_witness :
  run_lending_underwriting 31%N 300%Z 12%N LendingMoreSamples.orphan_store
  = (Raise internal_server_error, LendingMoreSamples.orphan_store)
  /\ get_lending_application_by_reference "LND-0012"
       LendingMoreSamples.orphan_store
     = (Raise internal_server_error, LendingMoreSamples.orphan_store).
Proof.
  destruct (X25_missing_business LendingMoreSamples.orphan_store 12%N
              LendingMoreSamples.orphan_application 31%N 300%Z eq_refl eq_refl)
    as (_ & _ & Hrun & Href).
  split; [exact Hrun | exact (Href eq_refl)].
Defined.



End LendingMoreProofs.
